(** * kpm-project: traffic-class assignment, attachment, power allocation
      and flow statistics of the 5G NR scenario script

    Shallow embedding of the decision logic of [main] in
    [kpm-project-11-no-rem.cc].  The ns-3 objects the script drives
    (node and device containers, PHY attributes, the flow monitor) are
    modelled by the data the script reads from and writes to them. *)

From Stdlib Require Import ZArith List Bool Lia QArith Permutation.
From Stdlib Require Import Reals Lra.
From Stdlib Require PrimFloat Uint63 Finite.
Import ListNotations.

Local Open Scope Z_scope.

(** ** Machine integers *)

Module MachineInt.

(** An unsigned [w]-bit value is a [Z] in [0, 2^w); arithmetic on it
    wraps around. *)
Definition wrap (w : Z) (x : Z) : Z := x mod 2 ^ w.

Definition wrap32 (x : Z) : Z := wrap 32 x.

Definition in_range (w : Z) (x : Z) : Prop := 0 <= x < 2 ^ w.

Definition uint32 (x : Z) : Prop := in_range 32 x.

Definition uint16 (x : Z) : Prop := in_range 16 x.

End MachineInt.
Import MachineInt.

(** ** Counting loops

    [for (uint32_t i = 0; i < n; i++) body(i)]: the bound is a container
    size or a 16-bit count, so the counter never wraps and the loop runs
    the body at 0, 1, ..., n-1. *)

Fixpoint for_loop {S : Type} (n : nat) (body : Z -> S -> S) (s : S) : S :=
  match n with
  | O => s
  | Datatypes.S k => body (Z.of_nat k) (for_loop k body s)
  end.

(** [NodeContainer::Get] / [NetDeviceContainer::Get]: element [i] of the
    container; [None] stands for an index past the end, which the
    container does not check. *)
Definition Get {A : Type} (c : list A) (i : Z) : option A :=
  if i <? 0 then None else nth_error c (Z.to_nat i).

Definition GetN {A : Type} (c : list A) : Z := Z.of_nat (length c).

Inductive TrafficClass : Type := Voice | Browsing.

Definition TrafficClass_eqb (a b : TrafficClass) : bool :=
  match a, b with
  | Voice, Voice | Browsing, Browsing => true
  | _, _ => false
  end.

(** ** TrafficClassAssigner: the UE distribution loop *)

Module Assigner.

(** A node is identified by its id. *)
Definition Node : Type := Z.

Record Containers : Type := mkContainers {
  uePhoneCallContainer : list Node;
  ueBrowsingWebContainer : list Node;
  ueCountForVoice : Z;
  ueCountForBrowsing : Z
}.

Definition empty_containers : Containers :=
  mkContainers [] [] 0 0.

(** Body of the loop over [gridScenario.GetUserTerminals()]. *)
Definition distribute_body (userTerminals : list Node) (j : Z)
    (st : Containers) : Containers :=
  match Get userTerminals j with
  | None => st
  | Some ue =>
      if j mod 2 =? 0 then
        {| uePhoneCallContainer := uePhoneCallContainer st ++ [ue];
           ueBrowsingWebContainer := ueBrowsingWebContainer st;
           ueCountForVoice := wrap32 (ueCountForVoice st + 1);
           ueCountForBrowsing := ueCountForBrowsing st |}
      else
        {| uePhoneCallContainer := uePhoneCallContainer st;
           ueBrowsingWebContainer := ueBrowsingWebContainer st ++ [ue];
           ueCountForVoice := ueCountForVoice st;
           ueCountForBrowsing := wrap32 (ueCountForBrowsing st + 1) |}
  end.

Definition distribute (userTerminals : list Node) : Containers :=
  for_loop (length userTerminals) (distribute_body userTerminals)
    empty_containers.

(** The two checks that follow the loop. *)
Definition pools_abort (st : Containers) : bool :=
  (GetN (uePhoneCallContainer st) <? 2)
  || (GetN (ueBrowsingWebContainer st) <? 3).

(** Elements at even, respectively odd, positions of a list. *)
Fixpoint evens {A : Type} (l : list A) : list A :=
  match l with
  | [] => []
  | x :: r => x :: odds r
  end
with odds {A : Type} (l : list A) : list A :=
  match l with
  | [] => []
  | _ :: r => evens r
  end.

End Assigner.

(** ** AttachmentPlanner: the manual attachment loop *)

Module Planner.

(** A net device is identified by the id of its node. *)
Definition NetDevice : Type := Z.

Record AttachConfig : Type := mkAttachConfig {
  gnbNetDev : list NetDevice;
  uePhoneCallNetDev : list NetDevice;
  ueBrowsingWebNetDev : list NetDevice;
  numUePerGnb : Z;      (* uint16_t *)
  totalUesCall : Z;     (* uint32_t, total voice UEs *)
  totalUesBrowse : Z    (* uint32_t, total browsing UEs *)
}.

Definition pool (cfg : AttachConfig) (c : TrafficClass) : list NetDevice :=
  match c with
  | Voice => uePhoneCallNetDev cfg
  | Browsing => ueBrowsingWebNetDev cfg
  end.

Definition quota (cfg : AttachConfig) (c : TrafficClass) : Z :=
  match c with
  | Voice => totalUesCall cfg
  | Browsing => totalUesBrowse cfg
  end.

(** One call [nrHelper->AttachToGnb(ueDev, bs)], with the class and pool
    index the device was read from. *)
Record Attachment : Type := mkAttachment {
  att_class : TrafficClass;
  att_index : Z;
  att_ue : NetDevice;
  att_bs : NetDevice
}.

(** One [NS_LOG_WARN] of a skipped slot, with the pool index it read. *)
Record SkipDiag : Type := mkSkipDiag {
  skip_class : TrafficClass;
  skip_index : Z;
  skip_ue : NetDevice;
  skip_bs : NetDevice
}.

Record AttachState : Type := mkAttachState {
  callIndex : Z;
  browseIndex : Z;
  attached : list Attachment;
  warnings : list SkipDiag
}.

Definition initial_state : AttachState := mkAttachState 0 0 [] [].

(** The three places where the loop reads a container: the base station
    of the outer loop, the device to attach, the device named in the
    warning of a skipped slot. *)
Inductive ReadSite : Type :=
| GnbRead
| AttachRead (c : TrafficClass)
| SkipRead (c : TrafficClass).

(** A container read past its end: behaviour of the program is undefined
    from there on, the model stops with the state reached. *)
Inductive Fault : Type :=
| OutOfRange (site : ReadSite) (i : Z).

Inductive Res (A : Type) : Type :=
| Ok (a : A) (s : AttachState)
| Stuck (f : Fault) (s : AttachState).
Arguments Ok {A} a s.
Arguments Stuck {A} f s.

Definition M (A : Type) : Type := AttachState -> Res A.

Definition ret {A : Type} (a : A) : M A := fun s => Ok a s.

Definition bind {A B : Type} (m : M A) (k : A -> M B) : M B :=
  fun s => match m s with
           | Ok a s' => k a s'
           | Stuck f s' => Stuck f s'
           end.

Declare Scope attach_scope.
Delimit Scope attach_scope with attach.
Notation "x <- m ;; k" := (bind m (fun x => k))
  (at level 61, m at next level, right associativity) : attach_scope.
Notation "m ;; k" := (bind m (fun _ => k))
  (at level 61, right associativity) : attach_scope.
Local Open Scope attach_scope.

Definition read_index (c : TrafficClass) : M Z :=
  fun s => Ok (match c with
               | Voice => callIndex s
               | Browsing => browseIndex s
               end) s.

Definition write_index (c : TrafficClass) (v : Z) : M unit :=
  fun s => Ok tt (match c with
                  | Voice => mkAttachState v (browseIndex s) (attached s) (warnings s)
                  | Browsing => mkAttachState (callIndex s) v (attached s) (warnings s)
                  end).

Definition container_get (site : ReadSite) (c : list NetDevice) (i : Z)
    : M NetDevice :=
  fun s => match Get c i with
           | Some d => Ok d s
           | None => Stuck (OutOfRange site i) s
           end.

Definition AttachToGnb (a : Attachment) : M unit :=
  fun s => Ok tt (mkAttachState (callIndex s) (browseIndex s)
                    (attached s ++ [a]) (warnings s)).

Definition log_warn (w : SkipDiag) : M unit :=
  fun s => Ok tt (mkAttachState (callIndex s) (browseIndex s)
                    (attached s) (warnings s ++ [w])).

Fixpoint for_loopM (n : nat) (body : Z -> M unit) : M unit :=
  match n with
  | O => ret tt
  | S k => for_loopM k body ;; body (Z.of_nat k)
  end.

Section Loop.
Variable cfg : AttachConfig.

(** One branch of the alternation, for class [c]: either
    [ueDev = pool.Get(index++)] followed by the attachment, or the
    warning about [pool.Get(index)] and [continue].  The index is
    incremented before [Get] runs; the warning is evaluated, [main]
    having enabled the log component. *)
Definition slot_for (c : TrafficClass) (bs : NetDevice) : M unit :=
  idx <- read_index c ;;
  if idx <? quota cfg c then
    write_index c (wrap32 (idx + 1)) ;;
    ueDev <- container_get (AttachRead c) (pool cfg c) idx ;;
    AttachToGnb (mkAttachment c idx ueDev bs)
  else
    ue <- container_get (SkipRead c) (pool cfg c) idx ;;
    log_warn (mkSkipDiag c idx ue bs).

(** Body of the inner loop over the slots [j] of one base station. *)
Definition slot_body (bs : NetDevice) (j : Z) : M unit :=
  if j mod 2 =? 0 then slot_for Voice bs else slot_for Browsing bs.

(** Body of the outer loop over the base stations. *)
Definition gnb_body (i : Z) : M unit :=
  bs <- container_get GnbRead (gnbNetDev cfg) i ;;
  for_loopM (Z.to_nat (numUePerGnb cfg)) (slot_body bs).

Definition attach_loop : M unit :=
  for_loopM (length (gnbNetDev cfg)) gnb_body.

Definition run_attachment : Res unit := attach_loop initial_state.

(** The two warnings of the final check. *)
Definition some_voice_unassigned (s : AttachState) : bool :=
  callIndex s <? totalUesCall cfg.

Definition some_browsing_unassigned (s : AttachState) : bool :=
  browseIndex s <? totalUesBrowse cfg.
End Loop.

Definition final_state {A : Type} (r : Res A) : AttachState :=
  match r with
  | Ok _ s => s
  | Stuck _ s => s
  end.

Definition completed {A : Type} (r : Res A) : bool :=
  match r with
  | Ok _ _ => true
  | Stuck _ _ => false
  end.

Definition attached_of (c : TrafficClass) (l : list Attachment) : list Attachment :=
  filter (fun a => TrafficClass_eqb (att_class a) c) l.

(** The pool indices of class [c] that were attached, in order. *)
Definition attached_indices (c : TrafficClass) (l : list Attachment) : list Z :=
  map att_index (attached_of c l).

Definition index_of (c : TrafficClass) (s : AttachState) : Z :=
  match c with
  | Voice => callIndex s
  | Browsing => browseIndex s
  end.

(** [0; 1; ...; n-1] *)
Definition zseq (n : nat) : list Z := map Z.of_nat (seq 0 n).

(** Invariant of the loop, for one class: the attached pool indices are
    an initial segment of the naturals, no longer than the running index,
    which is within the quota.  Between two slots ([strong]) the running
    index is exactly the number of attachments; it is one ahead when the
    program stops between [index++] and the attachment. *)
Definition class_inv (cfg : AttachConfig) (strong : bool) (s : AttachState)
    (c : TrafficClass) : Prop :=
  let l := attached_indices c (attached s) in
  l = zseq (length l)
  /\ Z.of_nat (length l) <= index_of c s <= quota cfg c
  /\ (strong = true -> index_of c s = Z.of_nat (length l)).

Definition inv (cfg : AttachConfig) (strong : bool) (s : AttachState) : Prop :=
  (forall c, class_inv cfg strong s c)
  /\ Forall (fun w => skip_index w = quota cfg (skip_class w)) (warnings s).

(** Where a read past the end can happen: never on the base stations;
    below the quota for a device to attach; at the quota for the device
    of a warning. *)
Definition fault_inv (cfg : AttachConfig) (f : Fault) : Prop :=
  match f with
  | OutOfRange GnbRead _ => False
  | OutOfRange (AttachRead c) i =>
      GetN (pool cfg c) <= i < quota cfg c
  | OutOfRange (SkipRead c) i =>
      i = quota cfg c /\ GetN (pool cfg c) <= quota cfg c
  end.

Definition holds (cfg : AttachConfig) {A : Type} (r : Res A) : Prop :=
  match r with
  | Ok _ s => inv cfg true s
  | Stuck f s => inv cfg false s /\ fault_inv cfg f
  end.

(** [m] keeps the invariant. *)
Definition preserves (cfg : AttachConfig) {A : Type} (m : M A) : Prop :=
  forall s, inv cfg true s -> holds cfg (m s).

(** The configuration written in [main]: 3 base stations with 2 slots
    each, 6 user terminals split by the distribution loop, quotas 2 and 3.
    The ids number the base stations first, then the user terminals. *)
Definition builtin_gnbs : list NetDevice := [0; 1; 2].

Definition builtin_userTerminals : list Assigner.Node := [3; 4; 5; 6; 7; 8].

Definition builtin_config : AttachConfig :=
  let pools := Assigner.distribute builtin_userTerminals in
  {| gnbNetDev := builtin_gnbs;
     uePhoneCallNetDev := Assigner.uePhoneCallContainer pools;
     ueBrowsingWebNetDev := Assigner.ueBrowsingWebContainer pools;
     numUePerGnb := 2;
     totalUesCall := 2;
     totalUesBrowse := 3 |}.

(** A configuration whose voice pool is smaller than the voice quota:
    two base stations with one slot each, one voice device, quota 2. *)
Definition short_pool_config : AttachConfig :=
  {| gnbNetDev := [0; 1];
     uePhoneCallNetDev := [2];
     ueBrowsingWebNetDev := [];
     numUePerGnb := 1;
     totalUesCall := 2;
     totalUesBrowse := 0 |}.

End Planner.

(** ** PowerAllocator: the gNB numerology / transmit power loop

    The dBm arithmetic uses [pow] and [log10]; it is modelled on the real
    numbers, that is, without the rounding of [double]. *)

Module Power.

Local Open Scope R_scope.

Definition log10 (v : R) : R := ln v / ln 10.

(** [pow(10, y)] *)
Definition pow10 (y : R) : R := Rpower 10 y.

Record PowerConfig : Type := mkPowerConfig {
  numerologyBwp1 : Z;
  bandwidthBand1 : R;
  totalTxPower : R;
  numerologyBwp2 : Z;
  bandwidthBand2 : R
}.

(** The two attributes the loop writes on a [NrGnbPhy]. *)
Record GnbPhy : Type := mkGnbPhy {
  Numerology : Z;
  TxPower : R
}.

(** [nrHelper->GetGnbPhy(gnbNetDev.Get(i), b)]: the PHY of bandwidth part
    [b] on the base station at position [i] of the container. *)
Definition PhyTable : Type := Z -> Z -> GnbPhy.

Definition update (t : PhyTable) (i b : Z) (f : GnbPhy -> GnbPhy) : PhyTable :=
  fun i' b' => if ((i' =? i) && (b' =? b))%Z then f (t i' b') else t i' b'.

Definition SetNumerology (v : Z) (p : GnbPhy) : GnbPhy :=
  mkGnbPhy v (TxPower p).

Definition SetTxPower (v : R) (p : GnbPhy) : GnbPhy :=
  mkGnbPhy (Numerology p) v.

Section Configure.
Variable cfg : PowerConfig.

(** [double x = pow(10, totalTxPower / 10)] *)
Definition x : R := pow10 (totalTxPower cfg / 10).

(** [totalBandwidth = bandwidthBand1; totalBandwidth += bandwidthBand2] *)
Definition totalBandwidth : R := bandwidthBand1 cfg + bandwidthBand2 cfg.

(** [double txPower = 10 * log10((bandwidthBand1 / totalBandwidth) * x)] *)
Definition txPower : R :=
  10 * log10 ((bandwidthBand1 cfg / totalBandwidth) * x).

(** Body of the loop over [gnbNetDev]. *)
Definition configure_body (i : Z) (t : PhyTable) : PhyTable :=
  let t1 := update t i 0 (SetNumerology (numerologyBwp1 cfg)) in
  let t2 := update t1 0 0 (SetTxPower txPower) in
  let t3 := update t2 i 1 (SetNumerology (numerologyBwp2 cfg)) in
  update t3 i 1 (SetTxPower txPower).

Definition configure (numGnb : nat) (t : PhyTable) : PhyTable :=
  for_loop numGnb configure_body t.

(** Bandwidth of the partition with the given bandwidth-part index. *)
Definition bandwidth (b : Z) : R :=
  if (b =? 0)%Z then bandwidthBand1 cfg else bandwidthBand2 cfg.

(** The allocation rule in the words of the specification:
    [power_dBm(partition) =
       10 * log10((bandwidth(partition) / totalBandwidth) * 10^(P/10))]. *)
Definition spec_power_dBm (b : Z) : R :=
  10 * log10 ((bandwidth b / totalBandwidth) * pow10 (totalTxPower cfg / 10)).
End Configure.

(** A table with the same attribute values on every PHY. *)
Definition uniform_phy (numerology : Z) (power : R) : PhyTable :=
  fun _ _ => mkGnbPhy numerology power.

(** The table as the device installer leaves it, with the attribute
    defaults of the gNB PHY (numerology 0, 4 dBm). *)
Definition installed_phy : PhyTable := uniform_phy 0 4.

(** The values written in [main]. *)
Definition builtin_power : PowerConfig :=
  {| numerologyBwp1 := 4;
     bandwidthBand1 := 50e6;
     totalTxPower := 35;
     numerologyBwp2 := 2;
     bandwidthBand2 := 50e6 |}.

(** A configuration with partitions of different widths. *)
Definition unequal_power : PowerConfig :=
  {| numerologyBwp1 := 4;
     bandwidthBand1 := 100e6;
     totalTxPower := 35;
     numerologyBwp2 := 2;
     bandwidthBand2 := 50e6 |}.

End Power.

(** ** Arithmetic on [double]

    The statistics and the start-up checks use [double] only through
    conversions from integers, the four operations and comparisons.  The
    code is written once against this interface. *)

Class Double (D : Type) : Type := {
  dofZ : Z -> D;           (* conversion of an integer value *)
  dadd : D -> D -> D;
  dsub : D -> D -> D;
  dmul : D -> D -> D;
  ddiv : D -> D -> D;
  deqb : D -> D -> bool;   (* == *)
  dltb : D -> D -> bool;   (* <  *)
  dleb : D -> D -> bool;   (* <= *)
  dis_nan : D -> bool
}.

(** The decimal literal [n * 10^-k]. *)
Definition decimal {D : Type} `{Double D} (n : Z) (k : Z) : D :=
  ddiv (dofZ n) (dofZ (10 ^ k)).

(** *** Extended rationals

    IEEE-754 arithmetic with the rounding left out: a finite value is an
    exact rational (kept in lowest terms), and the special values follow
    the standard: [x / 0] is an infinity for [x <> 0] and NaN for [x = 0],
    NaN propagates and compares false with everything.  Zero carries no
    sign; the divisors of the program are conversions of unsigned
    integers, for which the zero is the positive one. *)

Module XDouble.

Inductive xdouble : Type :=
| XNaN
| XInf (neg : bool)
| XFin (q : Q).

Definition q_neg (q : Q) : bool := (Qnum q <? 0)%Z.

Definition q_zero (q : Q) : bool := (Qnum q =? 0)%Z.

Definition xofZ (z : Z) : xdouble := XFin (z # 1).

Definition xopp (a : xdouble) : xdouble :=
  match a with
  | XNaN => XNaN
  | XInf s => XInf (negb s)
  | XFin q => XFin (Qred (- q))
  end.

Definition xadd (a b : xdouble) : xdouble :=
  match a, b with
  | XNaN, _ | _, XNaN => XNaN
  | XInf s, XInf t => if Bool.eqb s t then XInf s else XNaN
  | XInf s, XFin _ => XInf s
  | XFin _, XInf t => XInf t
  | XFin p, XFin q => XFin (Qred (p + q))
  end.

Definition xsub (a b : xdouble) : xdouble := xadd a (xopp b).

Definition xmul (a b : xdouble) : xdouble :=
  match a, b with
  | XNaN, _ | _, XNaN => XNaN
  | XInf s, XInf t => XInf (xorb s t)
  | XInf s, XFin q => if q_zero q then XNaN else XInf (xorb s (q_neg q))
  | XFin p, XInf t => if q_zero p then XNaN else XInf (xorb (q_neg p) t)
  | XFin p, XFin q => XFin (Qred (p * q))
  end.

Definition xdiv (a b : xdouble) : xdouble :=
  match a, b with
  | XNaN, _ | _, XNaN => XNaN
  | XInf _, XInf _ => XNaN
  | XInf s, XFin q => XInf (xorb s (q_neg q))
  | XFin _, XInf _ => XFin 0
  | XFin p, XFin q =>
      if q_zero q then (if q_zero p then XNaN else XInf (q_neg p))
      else XFin (Qred (p / q))
  end.

Definition xeqb (a b : xdouble) : bool :=
  match a, b with
  | XNaN, _ | _, XNaN => false
  | XInf s, XInf t => Bool.eqb s t
  | XFin p, XFin q => Qeq_bool p q
  | _, _ => false
  end.

Definition xleb (a b : xdouble) : bool :=
  match a, b with
  | XNaN, _ | _, XNaN => false
  | XInf s, XInf t => s || negb t
  | XInf s, XFin _ => s
  | XFin _, XInf t => negb t
  | XFin p, XFin q => Qle_bool p q
  end.

Definition xltb (a b : xdouble) : bool :=
  match a, b with
  | XNaN, _ | _, XNaN => false
  | XInf s, XInf t => s && negb t
  | XInf s, XFin _ => s
  | XFin _, XInf t => negb t
  | XFin p, XFin q => negb (Qle_bool q p)
  end.

Definition xis_nan (a : xdouble) : bool :=
  match a with
  | XNaN => true
  | _ => false
  end.

Definition xis_finite (a : xdouble) : bool :=
  match a with
  | XFin _ => true
  | _ => false
  end.

#[export] Instance Double_xdouble : Double xdouble :=
  {| dofZ := xofZ; dadd := xadd; dsub := xsub; dmul := xmul; ddiv := xdiv;
     deqb := xeqb; dltb := xltb; dleb := xleb; dis_nan := xis_nan |}.

End XDouble.

(** *** Binary64

    The same interface on the kernel's IEEE-754 binary64 numbers, with
    which the model runs bit for bit as the compiled program does on the
    values that fit 63 bits. *)

Module Binary64.

Definition fofZ (z : Z) : PrimFloat.float :=
  if (z <? 0)%Z then PrimFloat.opp (PrimFloat.of_uint63 (Uint63.of_Z (- z)))
  else PrimFloat.of_uint63 (Uint63.of_Z z).

#[export] Instance Double_binary64 : Double PrimFloat.float :=
  {| dofZ := fofZ;
     dadd := PrimFloat.add; dsub := PrimFloat.sub;
     dmul := PrimFloat.mul; ddiv := PrimFloat.div;
     deqb := PrimFloat.eqb; dltb := PrimFloat.ltb; dleb := PrimFloat.leb;
     dis_nan := PrimFloat.is_nan |}.

End Binary64.

(** ** Start-up validation: the [NS_ABORT_IF] checks *)

Module Validation.

Record ScenarioParams (D : Type) : Type := mkScenarioParams {
  numGnb : Z;                  (* uint16_t *)
  numUePerGnb : Z;             (* uint16_t *)
  centralFrequencyBand1 : D;
  centralFrequencyBand2 : D
}.
Arguments mkScenarioParams {D}.
Arguments numGnb {D}.
Arguments numUePerGnb {D}.
Arguments centralFrequencyBand1 {D}.
Arguments centralFrequencyBand2 {D}.

(** The check that aborted. *)
Inductive AbortSite : Type :=
| EqualFrequencies
| Band1Range
| Band2Range
| Counts.

Section Checks.
Context {D : Type} `{Double D}.

(** [uint32_t numTotalUe = numGnb * numUePerGnb] *)
Definition numTotalUe (p : ScenarioParams D) : Z :=
  wrap32 (numGnb p * numUePerGnb p).

(** The four [NS_ABORT_IF] lines, in order; [None] when none fires. *)
Definition startup_checks (p : ScenarioParams D) : option AbortSite :=
  if deqb (centralFrequencyBand1 p) (centralFrequencyBand2 p)
  then Some EqualFrequencies
  else if dltb (centralFrequencyBand1 p) (dofZ 2000000000)
          && dltb (dofZ 100000000000) (centralFrequencyBand1 p)
  then Some Band1Range
  else if dltb (centralFrequencyBand2 p) (dofZ 2000000000)
          && dltb (dofZ 100000000000) (centralFrequencyBand2 p)
  then Some Band2Range
  else if (numTotalUe p <? 5) || (numGnb p <? 2)
  then Some Counts
  else None.

Definition aborts (p : ScenarioParams D) : bool :=
  match startup_checks p with
  | Some _ => true
  | None => false
  end.

(** The range of the comment above the checks: a frequency is outside
    of it when it is below 2 GHz or above 100 GHz. *)
Definition outside_range (f : D) : bool :=
  dltb f (dofZ 2000000000) || dltb (dofZ 100000000000) f.

(** The abort condition in the words of the specification. *)
Definition spec_abort (p : ScenarioParams D) : bool :=
  deqb (centralFrequencyBand1 p) (centralFrequencyBand2 p)
  || outside_range (centralFrequencyBand1 p)
  || outside_range (centralFrequencyBand2 p)
  || (numTotalUe p <? 5)
  || (numGnb p <? 2).

(** The values written in [main]. *)
Definition builtin_params : ScenarioParams D :=
  {| numGnb := 3;
     numUePerGnb := 2;
     centralFrequencyBand1 := dofZ 28000000000;
     centralFrequencyBand2 := dofZ 28200000000 |}.

(** Five base stations with one user terminal each. *)
Definition five_ue_params : ScenarioParams D :=
  {| numGnb := 5;
     numUePerGnb := 1;
     centralFrequencyBand1 := dofZ 28000000000;
     centralFrequencyBand2 := dofZ 28200000000 |}.

(** The same, with the first carrier at 1 GHz. *)
Definition low_band1_params : ScenarioParams D :=
  {| numGnb := 3;
     numUePerGnb := 2;
     centralFrequencyBand1 := dofZ 1000000000;
     centralFrequencyBand2 := dofZ 28200000000 |}.
End Checks.

End Validation.

(** ** FlowStatisticsAggregator and the exit status *)

Module Stats.

(** The counters of [FlowMonitor::FlowStats] the report reads; the two
    sums are the values of [GetSeconds()]. *)
Record FlowStats (D : Type) : Type := mkFlowStats {
  txPackets : Z;
  txBytes : Z;
  rxPackets : Z;
  rxBytes : Z;
  delaySum : D;
  jitterSum : D
}.
Arguments mkFlowStats {D}.
Arguments txPackets {D}.
Arguments txBytes {D}.
Arguments rxPackets {D}.
Arguments rxBytes {D}.
Arguments delaySum {D}.
Arguments jitterSum {D}.

(** One division [dividend / divisor] carried out at run time. *)
Record DivOp (D : Type) : Type := mkDivOp {
  dividend : D;
  divisor : D
}.
Arguments mkDivOp {D}.
Arguments dividend {D}.
Arguments divisor {D}.

(** A computation on doubles together with the divisions it performed,
    in order. *)
Definition Calc (D A : Type) : Type := (A * list (DivOp D))%type.

Definition cret {D A : Type} (a : A) : Calc D A := (a, []).

Definition cbind {D A B : Type} (m : Calc D A) (k : A -> Calc D B)
    : Calc D B :=
  let (b, t) := k (fst m) in (b, snd m ++ t).

Definition value {D A : Type} (m : Calc D A) : A := fst m.

Definition divisions {D A : Type} (m : Calc D A) : list (DivOp D) := snd m.

Declare Scope calc_scope.
Delimit Scope calc_scope with calc.
Notation "x <- m ;; k" := (cbind m (fun x => k))
  (at level 61, m at next level, right associativity) : calc_scope.
Local Open Scope calc_scope.

(** The values one flow contributes to the report. *)
Record FlowLines (D : Type) : Type := mkFlowLines {
  l_flowId : Z;
  l_txPackets : Z;
  l_txBytes : Z;
  l_txOffered : D;
  l_rxBytes : Z;
  l_lostPackets : Z;
  l_packetLoss : D;
  l_throughput : D;
  l_meanDelay : D;
  l_meanJitter : D;
  l_rxPackets : Z
}.
Arguments mkFlowLines {D}.
Arguments l_flowId {D}.
Arguments l_lostPackets {D}.
Arguments l_packetLoss {D}.
Arguments l_throughput {D}.
Arguments l_meanDelay {D}.
Arguments l_meanJitter {D}.

(** The two accumulators of the loop. *)
Record Accum (D : Type) : Type := mkAccum {
  averageFlowThroughput : D;
  averageFlowDelay : D
}.
Arguments mkAccum {D}.
Arguments averageFlowThroughput {D}.
Arguments averageFlowDelay {D}.

Record Report (D : Type) : Type := mkReport {
  flows : list (FlowLines D);
  meanFlowThroughput : D;
  meanFlowDelay : D
}.
Arguments mkReport {D}.
Arguments flows {D}.
Arguments meanFlowThroughput {D}.
Arguments meanFlowDelay {D}.

Definition EXIT_SUCCESS : Z := 0.
Definition EXIT_FAILURE : Z := 1.

Section Aggregator.
Context {D : Type} `{Double D}.

(** Width in bits of the packet counters, an unsigned type at least as
    wide as [unsigned int] ([uint32_t] in the flow monitor). *)
Variable w : Z.

(** [(simTime - udpAppStartTime).GetSeconds()] *)
Variable flowDuration : D.

Definition cdiv (a b : D) : Calc D D := (ddiv a b, [mkDivOp a b]).

(** [bytes * 8.0 / flowDuration / 1000 / 1000] *)
Definition mbps (bytes : Z) : Calc D D :=
  a <- cdiv (dmul (dofZ bytes) (dofZ 8)) flowDuration ;;
  b <- cdiv a (dofZ 1000) ;;
  cdiv b (dofZ 1000).

(** [1000 * sum.GetSeconds() / rxPackets] *)
Definition mean_ms (sum : D) (rx : Z) : Calc D D :=
  cdiv (dmul (dofZ 1000) sum) (dofZ rx).

(** [txPackets - rxPackets] on the unsigned counters *)
Definition lostPackets (fs : FlowStats D) : Z :=
  wrap w (txPackets fs - rxPackets fs).

(** [(((txPackets - rxPackets) * 1.0) / txPackets) * 100] *)
Definition packetLoss (fs : FlowStats D) : Calc D D :=
  q <- cdiv (dmul (dofZ (wrap w (txPackets fs - rxPackets fs))) (dofZ 1))
            (dofZ (txPackets fs)) ;;
  cret (dmul q (dofZ 100)).

(** Body of the loop over the flow statistics. *)
Definition flow_body (id : Z) (fs : FlowStats D) (acc : Accum D)
    : Calc D (Accum D * FlowLines D) :=
  txOffered <- mbps (txBytes fs) ;;
  loss <- packetLoss fs ;;
  if 0 <? rxPackets fs then
    thr <- mbps (rxBytes fs) ;;
    dly <- mean_ms (delaySum fs) (rxPackets fs) ;;
    thr' <- mbps (rxBytes fs) ;;
    dly' <- mean_ms (delaySum fs) (rxPackets fs) ;;
    jit <- mean_ms (jitterSum fs) (rxPackets fs) ;;
    cret (mkAccum (dadd (averageFlowThroughput acc) thr)
                  (dadd (averageFlowDelay acc) dly),
          mkFlowLines id (txPackets fs) (txBytes fs) txOffered (rxBytes fs)
            (lostPackets fs) loss thr' dly' jit (rxPackets fs))
  else
    cret (acc,
          mkFlowLines id (txPackets fs) (txBytes fs) txOffered (rxBytes fs)
            (lostPackets fs) loss (dofZ 0) (dofZ 0) (dofZ 0) (rxPackets fs)).

(** The loop over [stats], a map iterated in the order of its keys. *)
Fixpoint flows_loop (stats : list (Z * FlowStats D)) (acc : Accum D)
    (out : list (FlowLines D)) : Calc D (Accum D * list (FlowLines D)) :=
  match stats with
  | [] => cret (acc, out)
  | (id, fs) :: rest =>
      r <- flow_body id fs acc ;;
      flows_loop rest (fst r) (out ++ [snd r])
  end.

(** From the initialisation of the accumulators to the two aggregate
    lines. *)
Definition build_report (stats : list (Z * FlowStats D)) : Calc D (Report D) :=
  r <- flows_loop stats (mkAccum (dofZ 0) (dofZ 0)) [] ;;
  meanThr <- cdiv (averageFlowThroughput (fst r)) (dofZ (GetN stats)) ;;
  meanDly <- cdiv (averageFlowDelay (fst r)) (dofZ (GetN stats)) ;;
  cret (mkReport (snd r) meanThr meanDly).

(** One of the two tolerance checks of the last lines of [main], for
    the reference values [refThr] and [refDly]. *)
Definition tolerance_check (refThr refDly : D) (r : Report D) : bool :=
  let toleranceMeanFlowThroughput := dmul (decimal 1 4) refThr in
  let toleranceMeanFlowDelay := dmul (decimal 1 4) refDly in
  dleb (dsub refThr toleranceMeanFlowThroughput) (meanFlowThroughput r)
  && dleb (meanFlowThroughput r) (dadd refThr toleranceMeanFlowThroughput)
  && dleb (dsub refDly toleranceMeanFlowDelay) (meanFlowDelay r)
  && dleb (meanFlowDelay r) (dadd refDly toleranceMeanFlowDelay).

(** The branches on [argc] that choose the return value. *)
Definition regression_status (argc numUePerGnb : Z) (r : Report D) : Z :=
  if argc =? 0 then
    if tolerance_check (decimal 56258560 6) (decimal 553292 6) r
    then EXIT_SUCCESS else EXIT_FAILURE
  else if (argc =? 1) && (numUePerGnb =? 9) then
    if tolerance_check (decimal 47858536 6) (decimal 10504189 6) r
    then EXIT_SUCCESS else EXIT_FAILURE
  else EXIT_SUCCESS.

(** The end of [main], from the opening of the output file:
    [file_opens] tells whether [outFile.is_open()] holds. *)
Definition report_and_exit (argc numUePerGnb : Z) (file_opens : bool)
    (stats : list (Z * FlowStats D)) : Calc D (Z * option (Report D)) :=
  if file_opens then
    r <- build_report stats ;;
    cret (regression_status argc numUePerGnb r, Some r)
  else cret (1, None).

Definition exit_status (argc numUePerGnb : Z) (file_opens : bool)
    (stats : list (Z * FlowStats D)) : Z :=
  fst (value (report_and_exit argc numUePerGnb file_opens stats)).

(** The reference values compared with, when the run is one of those
    that are checked. *)
Definition baseline (argc numUePerGnb : Z) : option (D * D) :=
  if argc =? 0 then Some (decimal 56258560 6, decimal 553292 6)
  else if (argc =? 1) && (numUePerGnb =? 9)
  then Some (decimal 47858536 6, decimal 10504189 6)
  else None.

(** [v] lies within the relative tolerance 0.01% around [ref]. *)
Definition within_band (ref v : D) : bool :=
  dleb (dsub ref (dmul (decimal 1 4) ref)) v
  && dleb v (dadd ref (dmul (decimal 1 4) ref)).
(** The record of the third example of the specification: 1000 packets
    sent, 950 received, 47500 bytes received, 2.0 s of summed delay and
    0.5 s of summed jitter. *)
Definition example_flow : FlowStats D :=
  mkFlowStats 1000 50000 950 47500 (dofZ 2) (decimal 5 1).

(** A record of a flow on which nothing was sent or received. *)
Definition no_packets : FlowStats D :=
  mkFlowStats 0 0 0 0 (dofZ 0) (dofZ 0).
End Aggregator.

(** [simTime - udpAppStartTime] is 90 ms. *)
Definition builtin_flowDuration {D : Type} `{Double D} : D := decimal 9 2.

End Stats.

(** ** The attachment loop as a sequence of slots *)

Module Slots.
Import Planner.
Local Open Scope attach_scope.

(** The class tried at slot [j] of a base station. *)
Definition slot_class (j : Z) : TrafficClass :=
  if j mod 2 =? 0 then Voice else Browsing.

(** The slots of one base station, in the order of the inner loop. *)
Definition station_slots (numUePerGnb : Z) (bs : NetDevice)
    : list (TrafficClass * NetDevice) :=
  map (fun j => (slot_class (Z.of_nat j), bs)) (seq 0 (Z.to_nat numUePerGnb)).

(** All the slots, in the order in which the two loops visit them. *)
Definition all_slots (cfg : AttachConfig) : list (TrafficClass * NetDevice) :=
  flat_map (station_slots (numUePerGnb cfg)) (gnbNetDev cfg).

(** The base stations of the slots of class [c], in order. *)
Definition stations_of (c : TrafficClass) (l : list (TrafficClass * NetDevice))
    : list NetDevice :=
  map snd (filter (fun x => TrafficClass_eqb (fst x) c) l).

Definition class_slots (cfg : AttachConfig) (c : TrafficClass) : list NetDevice :=
  stations_of c (all_slots cfg).

(** Number of slots of class [c] in a list of slots. *)
Definition slots_left (c : TrafficClass) (l : list (TrafficClass * NetDevice)) : Z :=
  Z.of_nat (length (stations_of c l)).

(** The branch of the alternation run on a list of slots. *)
Fixpoint run_slots (cfg : AttachConfig) (l : list (TrafficClass * NetDevice))
    : M unit :=
  match l with
  | [] => ret tt
  | (c, bs) :: rest => slot_for cfg c bs ;; run_slots cfg rest
  end.

(** Number of slots of class [c] on one base station with [k] slots: the
    even ones are voice slots, the odd ones browsing slots. *)
Definition slots_per_station (c : TrafficClass) (k : Z) : Z :=
  match c with
  | Voice => (k + 1) / 2
  | Browsing => k / 2
  end.

(** Number of slots of class [c] over all the base stations. *)
Definition slot_count (cfg : AttachConfig) (c : TrafficClass) : Z :=
  GetN (gnbNetDev cfg) * slots_per_station c (numUePerGnb cfg).

Definition warnings_of (c : TrafficClass) (l : list SkipDiag) : list SkipDiag :=
  filter (fun w => TrafficClass_eqb (skip_class w) c) l.

(** With the running index of a class at [a] and [t] slots of the class
    still to come, no read of the pool of the class is past its end: the
    devices to attach are below the size of the pool, and so is the quota
    when a slot is left over. *)
Definition safe (cfg : AttachConfig) (c : TrafficClass) (a t : Z) : Prop :=
  Z.min (quota cfg c) (a + t) <= GetN (pool cfg c)
  /\ (quota cfg c < a + t -> quota cfg c < GetN (pool cfg c)).

(** The devices of the attachments and of the warnings are the elements
    of the pools at the recorded index, and the base stations are those of
    the container. *)
Definition from_pools (cfg : AttachConfig) (s : AttachState) : Prop :=
  Forall (fun a => Get (pool cfg (att_class a)) (att_index a) = Some (att_ue a)
                   /\ In (att_bs a) (gnbNetDev cfg)) (attached s)
  /\ Forall (fun w => Get (pool cfg (skip_class w)) (skip_index w) = Some (skip_ue w)
                      /\ In (skip_bs w) (gnbNetDev cfg)) (warnings s).

(** Three base stations with three slots each and pools of five and four
    devices, quotas 4 and 2. *)
Definition odd_slots_config : AttachConfig :=
  {| gnbNetDev := [0; 1; 2];
     uePhoneCallNetDev := [3; 5; 7; 9; 11];
     ueBrowsingWebNetDev := [4; 6; 8; 10];
     numUePerGnb := 3;
     totalUesCall := 4;
     totalUesBrowse := 2 |}.

End Slots.

(** ** Reports without special values *)

Module Finite.
Import XDouble Stats.

Arguments l_txPackets {D}.
Arguments l_txBytes {D}.
Arguments l_txOffered {D}.
Arguments l_rxBytes {D}.
Arguments l_rxPackets {D}.

(** A finite value other than zero. *)
Definition nonzero (a : xdouble) : bool :=
  match a with
  | XFin q => negb (q_zero q)
  | _ => false
  end.

(** The doubles of one block of the report are all finite. *)
Definition finite_lines (l : FlowLines xdouble) : bool :=
  xis_finite (l_txOffered l) && xis_finite (l_packetLoss l)
  && xis_finite (l_throughput l) && xis_finite (l_meanDelay l)
  && xis_finite (l_meanJitter l).

(** A computation that never divided by zero, by an infinity or by a
    NaN. *)
Definition sound_divisions {A : Type} (m : Calc xdouble A) : Prop :=
  Forall (fun d => nonzero (divisor d) = true) (divisions m).

(** A record that can come out of the flow monitor: at least one packet
    sent, counters within their types, finite sums. *)
Definition plausible (fs : FlowStats xdouble) : Prop :=
  0 < txPackets fs
  /\ xis_finite (delaySum fs) = true
  /\ xis_finite (jitterSum fs) = true.

(** A flow of which at least one packet was received. *)
Definition received {D : Type} (x : Z * FlowStats D) : bool :=
  0 <? rxPackets (snd x).

(** Two flows over 0.09 s, the second without any packet received. *)
Definition two_flows : list (Z * FlowStats xdouble) :=
  [(1, mkFlowStats 1000 50000 950 47500 (XFin 2) (XFin (1 # 2)));
   (2, mkFlowStats 10 500 0 0 (XFin 0) (XFin 0))].

End Finite.

(** ** Routing of the bearers to the bandwidth parts *)

Module Routing.

(** The bearer classes the script names, and any other one. *)
Inductive Qci : Type :=
| NGBR_LOW_LAT_EMBB
| GBR_CONV_VOICE
| OtherQci (n : Z).

Definition Qci_eqb (a b : Qci) : bool :=
  match a, b with
  | NGBR_LOW_LAT_EMBB, NGBR_LOW_LAT_EMBB => true
  | GBR_CONV_VOICE, GBR_CONV_VOICE => true
  | OtherQci n, OtherQci m => n =? m
  | _, _ => false
  end.

(** The attributes of a BWP manager algorithm: the bandwidth part of each
    bearer class. *)
Definition BwpManager : Type := Qci -> Z.

(** The two attribute sets of the helper the script writes. *)
Record NrHelper : Type := mkNrHelper {
  gnbBwpManager : BwpManager;
  ueBwpManager : BwpManager
}.

Definition set_attribute (q : Qci) (v : Z) (m : BwpManager) : BwpManager :=
  fun q' => if Qci_eqb q' q then v else m q'.

Definition SetGnbBwpManagerAlgorithmAttribute (q : Qci) (v : Z) (h : NrHelper)
    : NrHelper :=
  mkNrHelper (set_attribute q v (gnbBwpManager h)) (ueBwpManager h).

Definition SetUeBwpManagerAlgorithmAttribute (q : Qci) (v : Z) (h : NrHelper)
    : NrHelper :=
  mkNrHelper (gnbBwpManager h) (set_attribute q v (ueBwpManager h)).

Definition bwpIdForBrowsing : Z := 0.
Definition bwpIdForCall : Z := 1.

(** The four calls before the loops. *)
Definition route_classes (h : NrHelper) : NrHelper :=
  let h1 := SetGnbBwpManagerAlgorithmAttribute NGBR_LOW_LAT_EMBB bwpIdForBrowsing h in
  let h2 := SetGnbBwpManagerAlgorithmAttribute GBR_CONV_VOICE bwpIdForCall h1 in
  let h3 := SetUeBwpManagerAlgorithmAttribute NGBR_LOW_LAT_EMBB bwpIdForBrowsing h2 in
  SetUeBwpManagerAlgorithmAttribute GBR_CONV_VOICE bwpIdForCall h3.

(** The loop over the voice call container. *)
Definition voice_loop (uePhoneCallContainer : list Assigner.Node) (h : NrHelper)
    : NrHelper :=
  for_loop (length uePhoneCallContainer)
    (fun i h' =>
       match Get uePhoneCallContainer i with
       | Some ue => SetUeBwpManagerAlgorithmAttribute GBR_CONV_VOICE bwpIdForCall h'
       | None => h'
       end) h.

(** The loop over the web browsing container. *)
Definition browsing_loop (ueBrowsingWebContainer : list Assigner.Node)
    (h : NrHelper) : NrHelper :=
  for_loop (length ueBrowsingWebContainer)
    (fun i h' =>
       match Get ueBrowsingWebContainer i with
       | Some ue =>
           SetUeBwpManagerAlgorithmAttribute NGBR_LOW_LAT_EMBB bwpIdForBrowsing h'
       | None => h'
       end) h.

(** From the declaration of the two identifiers to the end of the second
    loop. *)
Definition configure_routing (uePhoneCallContainer ueBrowsingWebContainer
    : list Assigner.Node) (h : NrHelper) : NrHelper :=
  browsing_loop ueBrowsingWebContainer
    (voice_loop uePhoneCallContainer (route_classes h)).

(** A helper with every bearer class on bandwidth part 0. *)
Definition default_helper : NrHelper :=
  mkNrHelper (fun _ => 0) (fun _ => 0).

End Routing.

(** ** Servers, clients and dedicated bearers *)

Module Traffic.
Import Routing.

Definition Address : Type := Z.

Record TrafficConfig : Type := mkTrafficConfig {
  udpPacketSizeBrowsing : Z;
  udpPacketSizeVoiceCall : Z;
  lambdaBrowsing : Z;
  lambdaVoiceCall : Z;
  dlPortBrowsing : Z;      (* uint16_t *)
  dlPortVoiceCall : Z      (* uint16_t *)
}.

(** The attributes of a [UdpClientHelper], and of the client it
    installs. *)
Record UdpClient (D : Type) : Type := mkUdpClient {
  RemoteAddress : option Address;
  RemotePort : Z;
  MaxPackets : Z;
  PacketSize : Z;
  Interval : D
}.
Arguments mkUdpClient {D}.
Arguments RemoteAddress {D}.
Arguments RemotePort {D}.
Arguments MaxPackets {D}.
Arguments PacketSize {D}.
Arguments Interval {D}.

(** A [UdpServer] installed on a node, listening on a port. *)
Record UdpServer : Type := mkUdpServer {
  server_node : Assigner.Node;
  server_port : Z
}.

Record PacketFilter : Type := mkPacketFilter {
  localPortStart : Z;
  localPortEnd : Z
}.

(** One call of [ActivateDedicatedEpsBearer]. *)
Record BearerActivation : Type := mkBearerActivation {
  bearer_device : Planner.NetDevice;
  bearer_qci : Qci;
  bearer_tft : list PacketFilter
}.

Record Installed (D : Type) : Type := mkInstalled {
  serverApps : list UdpServer;
  clientApps : list (UdpClient D);
  bearers : list BearerActivation
}.
Arguments mkInstalled {D}.
Arguments serverApps {D}.
Arguments clientApps {D}.
Arguments bearers {D}.

(** The containers the traffic part reads. *)
Record Topology : Type := mkTopology {
  ueBrowsingWebContainer : list Assigner.Node;
  uePhoneCallContainer : list Assigner.Node;
  ueBrowsingWebNetDev : list Planner.NetDevice;
  uePhoneCallNetDev : list Planner.NetDevice;
  ueLowLatIpIface : list Address;
  ueVoiceIpIface : list Address
}.

Definition qci_of (c : TrafficClass) : Qci :=
  match c with
  | Voice => GBR_CONV_VOICE
  | Browsing => NGBR_LOW_LAT_EMBB
  end.

Section Install.
Context {D : Type} `{Double D}.
Variable cfg : TrafficConfig.
Variable topo : Topology.

Definition port_of (c : TrafficClass) : Z :=
  match c with
  | Voice => dlPortVoiceCall cfg
  | Browsing => dlPortBrowsing cfg
  end.

(** The client helper of a class after its [SetAttribute] calls, before
    any remote address is set; the interval is [1.0 / lambda]. *)
Definition client_helper (c : TrafficClass) : UdpClient D :=
  match c with
  | Browsing =>
      mkUdpClient None (dlPortBrowsing cfg) 4294967295
        (udpPacketSizeBrowsing cfg) (ddiv (dofZ 1) (dofZ (lambdaBrowsing cfg)))
  | Voice =>
      mkUdpClient None (dlPortVoiceCall cfg) 4294967295
        (udpPacketSizeVoiceCall cfg) (ddiv (dofZ 1) (dofZ (lambdaVoiceCall cfg)))
  end.

(** The traffic flow template of a class: one filter on its port. *)
Definition tft_of (c : TrafficClass) : list PacketFilter :=
  [mkPacketFilter (port_of c) (port_of c)].

Definition nodes_of (c : TrafficClass) : list Assigner.Node :=
  match c with
  | Voice => uePhoneCallContainer topo
  | Browsing => ueBrowsingWebContainer topo
  end.

Definition devices_of (c : TrafficClass) : list Planner.NetDevice :=
  match c with
  | Voice => uePhoneCallNetDev topo
  | Browsing => ueBrowsingWebNetDev topo
  end.

Definition addresses_of (c : TrafficClass) : list Address :=
  match c with
  | Voice => ueVoiceIpIface topo
  | Browsing => ueLowLatIpIface topo
  end.

(** [serverApps.Add(sink.Install(container))]: one server per node. *)
Definition install_servers (c : TrafficClass) (st : Installed D) : Installed D :=
  mkInstalled
    (serverApps st ++ map (fun n => mkUdpServer n (port_of c)) (nodes_of c))
    (clientApps st) (bearers st).

(** Body of the client loop of class [c]; [None] after a read past the
    end of the device or of the interface container. *)
Definition client_body (c : TrafficClass) (i : Z) (st : option (Installed D))
    : option (Installed D) :=
  match st with
  | None => None
  | Some st' =>
      match Get (nodes_of c) i, Get (devices_of c) i, Get (addresses_of c) i with
      | Some ue, Some ueDevice, Some ueAddress =>
          let h := client_helper c in
          let client := mkUdpClient (Some ueAddress) (RemotePort h)
                          (MaxPackets h) (PacketSize h) (Interval h) in
          Some (mkInstalled (serverApps st') (clientApps st' ++ [client])
                  (bearers st'
                   ++ [mkBearerActivation ueDevice (qci_of c) (tft_of c)]))
      | _, _, _ => None
      end
  end.

Definition client_loop (c : TrafficClass) (st : option (Installed D))
    : option (Installed D) :=
  for_loop (length (nodes_of c)) (client_body c) st.

(** The traffic part: the two server installations, then the browsing
    loop, then the voice loop. *)
Definition install_traffic : option (Installed D) :=
  let st := install_servers Voice (install_servers Browsing (mkInstalled [] [] [])) in
  client_loop Voice (client_loop Browsing (Some st)).

(** The installations of class [c] when every container is long enough. *)
Definition expected_clients (c : TrafficClass) : list (UdpClient D) :=
  map (fun a => mkUdpClient (Some a) (port_of c) 4294967295
                  (PacketSize (client_helper c)) (Interval (client_helper c)))
    (firstn (length (nodes_of c)) (addresses_of c)).

Definition expected_bearers (c : TrafficClass) : list BearerActivation :=
  map (fun d => mkBearerActivation d (qci_of c) (tft_of c))
    (firstn (length (nodes_of c)) (devices_of c)).

Definition long_enough (c : TrafficClass) : Prop :=
  GetN (nodes_of c) <= GetN (devices_of c)
  /\ GetN (nodes_of c) <= GetN (addresses_of c).
End Install.

(** The values written in [main]. *)
Definition builtin_traffic : TrafficConfig :=
  {| udpPacketSizeBrowsing := 25;
     udpPacketSizeVoiceCall := 50;
     lambdaBrowsing := 10000;
     lambdaVoiceCall := 10000;
     dlPortBrowsing := 1234;
     dlPortVoiceCall := 1235 |}.

(** The six user terminals of [main], each device named after its node,
    with the numbers 2 to 7 standing for the addresses. *)
Definition builtin_topology : Topology :=
  let pools := Assigner.distribute Planner.builtin_userTerminals in
  {| ueBrowsingWebContainer := Assigner.ueBrowsingWebContainer pools;
     uePhoneCallContainer := Assigner.uePhoneCallContainer pools;
     ueBrowsingWebNetDev := Assigner.ueBrowsingWebContainer pools;
     uePhoneCallNetDev := Assigner.uePhoneCallContainer pools;
     ueLowLatIpIface := [2; 3; 4];
     ueVoiceIpIface := [5; 6; 7] |}.

End Traffic.

(** * Properties *)

(** ** Machine integers *)

Lemma wrap_small w x : in_range w x -> wrap w x = x.
Proof. unfold in_range, wrap. intros H. now apply Z.mod_small. Qed.

Lemma wrap_in_range w x : 0 <= w -> in_range w (wrap w x).
Proof.
  intros Hw. unfold in_range, wrap.
  apply Z.mod_pos_bound. now apply Z.pow_pos_nonneg.
Qed.

Lemma wrap32_succ x q : uint32 q -> 0 <= x < q -> wrap32 (x + 1) = x + 1.
Proof.
  unfold uint32, in_range, wrap32. intros Hq Hx.
  apply wrap_small. unfold in_range. lia.
Qed.

Lemma Get_nat {A : Type} (c : list A) (k : nat) :
  Get c (Z.of_nat k) = nth_error c k.
Proof.
  unfold Get. destruct (Z.ltb_spec (Z.of_nat k) 0); [lia|].
  now rewrite Nat2Z.id.
Qed.

Lemma even_index (k : nat) : (Z.of_nat k mod 2 =? 0) = Nat.even k.
Proof.
  destruct (Nat.even k) eqn:E.
  - apply Nat.even_spec in E. destruct E as [m ->].
    apply Z.eqb_eq. rewrite Nat2Z.inj_mul, Z.mul_comm. apply Z_mod_mult.
  - apply Z.eqb_neq. intros H.
    assert (Ho : Nat.odd k = true) by (rewrite <- Nat.negb_even, E; reflexivity).
    apply Nat.odd_spec in Ho. destruct Ho as [m ->].
    rewrite Nat2Z.inj_add, Nat2Z.inj_mul, Z.add_comm, Z.mul_comm in H.
    rewrite Z_mod_plus_full in H. discriminate.
Qed.

(** ** TrafficClassAssigner *)

Section AssignerFacts.
Import Assigner.
Context {A : Type}.

Lemma evens_odds_snoc (l : list A) (x : A) :
  evens (l ++ [x]) = (if Nat.even (length l) then evens l ++ [x] else evens l)
  /\ odds (l ++ [x]) = (if Nat.even (length l) then odds l else odds l ++ [x]).
Proof.
  induction l as [|a l [IHe IHo]]; [split; reflexivity|].
  change (length (a :: l)) with (S (length l)).
  rewrite Nat.even_succ, <- Nat.negb_even.
  cbn [app evens odds]. rewrite IHe, IHo.
  destruct (Nat.even (length l)); split; reflexivity.
Qed.

Lemma nth_error_evens_odds (l : list A) :
  forall k, nth_error (evens l) k = nth_error l (2 * k)
            /\ nth_error (odds l) k = nth_error l (2 * k + 1).
Proof.
  induction l as [|a l IH]; intros k.
  - cbn [evens odds]. rewrite !nth_error_nil. split; reflexivity.
  - split.
    + destruct k as [|k]; [reflexivity|].
      cbn [evens nth_error]. rewrite (proj2 (IH k)).
      replace (2 * S k)%nat with (S (2 * k + 1)) by lia. reflexivity.
    + cbn [odds]. rewrite (proj1 (IH k)).
      replace (2 * k + 1)%nat with (S (2 * k)) by lia. reflexivity.
Qed.

Lemma length_evens_odds (l : list A) :
  (length (evens l) + length (odds l) = length l
   /\ length (odds l) <= length (evens l) <= length (odds l) + 1)%nat.
Proof.
  induction l as [|a l IH]; cbn [evens odds length]; lia.
Qed.
End AssignerFacts.

Lemma distribute_prefix (userTerminals : list Assigner.Node) (n : nat) :
  (n <= length userTerminals)%nat ->
  let st := for_loop n (Assigner.distribute_body userTerminals)
              Assigner.empty_containers in
  Assigner.uePhoneCallContainer st = Assigner.evens (firstn n userTerminals)
  /\ Assigner.ueBrowsingWebContainer st = Assigner.odds (firstn n userTerminals).
Proof.
  induction n as [|k IH]; intros Hn; [split; reflexivity|].
  cbn zeta in *. cbn [for_loop].
  destruct IH as [IHv IHb]; [lia|].
  unfold Assigner.distribute_body at 1 3.
  rewrite Get_nat, even_index.
  destruct (nth_error userTerminals k) as [ue|] eqn:Hue.
  2:{ apply nth_error_None in Hue. lia. }
  assert (Hfirst : firstn (S k) userTerminals = firstn k userTerminals ++ [ue]).
  { clear - Hue. revert userTerminals Hue.
    induction k as [|k IHk]; intros [|a l] Hue; try discriminate.
    - cbn in Hue. injection Hue as ->. reflexivity.
    - cbn [nth_error] in Hue. cbn [firstn app]. f_equal. now apply IHk. }
  rewrite Hfirst.
  destruct (evens_odds_snoc (firstn k userTerminals) ue) as [He Ho].
  rewrite He, Ho, length_firstn, Nat.min_l by lia.
  destruct (Nat.even k); cbn; rewrite IHv, IHb; split; reflexivity.
Qed.

(** X8. After the distribution loop the two counters [ueCountForVoice]
    and [ueCountForBrowsing] are the sizes of the two containers: the
    number of user terminals is a 32-bit size, so the 32-bit counters do
    not wrap. *)
Lemma distribute_counters (userTerminals : list Assigner.Node) :
  uint32 (GetN userTerminals) ->
  let st := Assigner.distribute userTerminals in
  Assigner.ueCountForVoice st = GetN (Assigner.uePhoneCallContainer st)
  /\ Assigner.ueCountForBrowsing st = GetN (Assigner.ueBrowsingWebContainer st).
Proof.
  unfold uint32, in_range, GetN, Assigner.distribute. intros HN. cbn zeta.
  assert (H : forall n, (n <= length userTerminals)%nat ->
            let st := for_loop n (Assigner.distribute_body userTerminals)
                        Assigner.empty_containers in
            Assigner.ueCountForVoice st
            = Z.of_nat (length (Assigner.uePhoneCallContainer st))
            /\ Assigner.ueCountForBrowsing st
               = Z.of_nat (length (Assigner.ueBrowsingWebContainer st))
            /\ (length (Assigner.uePhoneCallContainer st)
                + length (Assigner.ueBrowsingWebContainer st) = n)%nat).
  { induction n as [|k IH]; intros Hn; [repeat split|].
    cbn zeta in *. cbn [for_loop].
    destruct IH as (IHv & IHb & IHs); [lia|].
    set (st := for_loop k _ _) in *.
    unfold Assigner.distribute_body. rewrite Get_nat.
    destruct (nth_error userTerminals k) as [ue|] eqn:Hue.
    2:{ apply nth_error_None in Hue. lia. }
    destruct (Z.of_nat k mod 2 =? 0);
      cbn [Assigner.ueCountForVoice Assigner.ueCountForBrowsing
           Assigner.uePhoneCallContainer Assigner.ueBrowsingWebContainer];
      rewrite ?length_app; cbn [length];
      rewrite IHv, IHb; unfold wrap32; rewrite ?wrap_small;
      unfold in_range; repeat split; lia. }
  destruct (H (length userTerminals) (le_n _)) as (Hv & Hb & _).
  split; assumption.
Qed.

(** C2. The distribution loop puts the user terminal at every even
    position into the voice container and the one at every odd position
    into the browsing container, in the order of the input: the voice
    container is the subsequence of the even positions and the browsing
    container that of the odd ones, so that their sizes add up to [N] and
    are [ceil(N/2)] and [floor(N/2)]. *)
Theorem distribute_alternates (userTerminals : list Assigner.Node) :
  let st := Assigner.distribute userTerminals in
  let voice := Assigner.uePhoneCallContainer st in
  let browsing := Assigner.ueBrowsingWebContainer st in
  let N := length userTerminals in
  (forall j ue, nth_error userTerminals j = Some ue ->
     if Nat.even j then nth_error voice (j / 2) = Some ue
     else nth_error browsing (j / 2) = Some ue)
  /\ (forall k, nth_error voice k = nth_error userTerminals (2 * k))
  /\ (forall k, nth_error browsing k = nth_error userTerminals (2 * k + 1))
  /\ (length voice + length browsing = N)%nat
  /\ length voice = ((N + 1) / 2)%nat
  /\ length browsing = (N / 2)%nat.
Proof.
  cbn zeta.
  destruct (distribute_prefix userTerminals (length userTerminals) (le_n _))
    as [Hv Hb].
  rewrite firstn_all in Hv, Hb. unfold Assigner.distribute. rewrite Hv, Hb.
  pose proof (length_evens_odds userTerminals) as [Hsum Hbal].
  assert (Hk := nth_error_evens_odds userTerminals).
  repeat split.
  - intros j ue Hj. destruct (Nat.even j) eqn:E.
    + apply Nat.even_spec in E. destruct E as [m ->].
      rewrite Nat.mul_comm, Nat.div_mul by lia.
      now rewrite (proj1 (Hk m)).
    + assert (Ho : Nat.odd j = true) by (rewrite <- Nat.negb_even, E; reflexivity).
      apply Nat.odd_spec in Ho. destruct Ho as [m ->].
      replace ((2 * m + 1) / 2)%nat with m.
      * now rewrite (proj2 (Hk m)).
      * apply Nat.div_unique with (r := 1%nat); lia.
  - intros k. apply Hk.
  - intros k. apply Hk.
  - exact Hsum.
  - apply Nat.div_unique with (r := (length userTerminals + 1 - 2 * length (Assigner.evens userTerminals))%nat); lia.
  - apply Nat.div_unique with (r := (length userTerminals - 2 * length (Assigner.odds userTerminals))%nat); lia.
Qed.

(** ** AttachmentPlanner *)

Section PlannerFacts.
Import Planner.
Local Open Scope attach_scope.

Lemma attached_indices_snoc c l a :
  attached_indices c (l ++ [a]) =
  attached_indices c l
  ++ (if TrafficClass_eqb (att_class a) c then [att_index a] else []).
Proof.
  unfold attached_indices, attached_of. rewrite filter_app, map_app. cbn [filter].
  destruct (TrafficClass_eqb (att_class a) c); reflexivity.
Qed.

Lemma zseq_snoc n : zseq (S n) = zseq n ++ [Z.of_nat n].
Proof. unfold zseq. rewrite seq_S, map_app. reflexivity. Qed.

Lemma length_zseq n : length (zseq n) = n.
Proof. unfold zseq. now rewrite length_map, length_seq. Qed.

Lemma NoDup_zseq n : NoDup (zseq n).
Proof.
  unfold zseq. apply Finite.Injective_map_NoDup.
  - intros a b. apply Nat2Z.inj.
  - apply seq_NoDup.
Qed.

Lemma NoDup_map_In_eq {A B : Type} (f : A -> B) (l : list A) a b :
  NoDup (map f l) -> In a l -> In b l -> f a = f b -> a = b.
Proof.
  induction l as [|x l IH]; cbn [map In]; [tauto|].
  intros Hnd Ha Hb Hf. inversion Hnd as [|? ? Hx Hl]; subst.
  destruct Ha as [<-|Ha], Hb as [<-|Hb]; auto.
  - exfalso. apply Hx. rewrite Hf. now apply in_map.
  - exfalso. apply Hx. rewrite <- Hf. now apply in_map.
Qed.

Variable cfg : AttachConfig.
Hypothesis call_quota : uint32 (totalUesCall cfg).
Hypothesis browse_quota : uint32 (totalUesBrowse cfg).

Lemma quota_uint32 c : uint32 (quota cfg c).
Proof. destruct c; assumption. Qed.

Lemma inv_weaken s : inv cfg true s -> inv cfg false s.
Proof.
  intros [Hc Hw]. split; [|exact Hw].
  intros c. destruct (Hc c) as (H1 & H2 & _).
  repeat split; try tauto. discriminate.
Qed.

Lemma preserves_ret {A : Type} (a : A) : preserves cfg (ret a).
Proof. intros s Hs. exact Hs. Qed.

Lemma preserves_bind {A B : Type} (m : M A) (k : A -> M B) :
  preserves cfg m -> (forall a, preserves cfg (k a)) -> preserves cfg (bind m k).
Proof.
  intros Hm Hk s Hs. unfold bind. specialize (Hm s Hs).
  destruct (m s) as [a s'|f s']; cbn in Hm.
  - now apply Hk.
  - exact Hm.
Qed.

Lemma preserves_for_loopM n body :
  (forall j, 0 <= j < Z.of_nat n -> preserves cfg (body j)) ->
  preserves cfg (for_loopM n body).
Proof.
  induction n as [|k IH]; intros Hbody; cbn [for_loopM].
  - apply preserves_ret.
  - apply preserves_bind.
    + apply IH. intros j Hj. apply Hbody. lia.
    + intros _. apply Hbody. lia.
Qed.

Lemma Get_None {A : Type} (c : list A) (i : Z) :
  0 <= i -> Get c i = None -> GetN c <= i.
Proof.
  unfold Get, GetN. intros Hi.
  destruct (Z.ltb_spec i 0); [lia|].
  intros Hn. apply nth_error_None in Hn. lia.
Qed.

Lemma Get_in_range {A : Type} (c : list A) (i : Z) :
  0 <= i < GetN c -> exists a, Get c i = Some a.
Proof.
  intros Hi. destruct (Get c i) as [a|] eqn:E; [now exists a|].
  apply Get_None in E; lia.
Qed.

Lemma preserves_slot_for c bs : preserves cfg (slot_for cfg c bs).
Proof.
  intros s [Hc Hw]. unfold slot_for, bind, read_index.
  change (match c with Voice => callIndex s | Browsing => browseIndex s end)
    with (index_of c s).
  pose proof (quota_uint32 c) as Hq.
  destruct (Hc c) as (Hseq & Hle & Hidx). specialize (Hidx eq_refl).
  destruct (Z.ltb_spec (index_of c s) (quota cfg c)) as [Hlt|Hge].
  - (* a pool element is taken *)
    assert (Hsucc : wrap32 (index_of c s + 1) = index_of c s + 1)
      by (apply wrap32_succ with (q := quota cfg c); [assumption|lia]).
    unfold write_index, container_get.
    destruct (Get (pool cfg c) (index_of c s)) as [ueDev|] eqn:Hget.
    + (* attached *)
      destruct c; cbn [AttachToGnb holds callIndex browseIndex attached warnings];
        (split; [|exact Hw]); intros c'; destruct (Hc c') as (Hs' & Hl' & Hi');
        specialize (Hi' eq_refl); unfold class_inv;
        cbn [attached index_of callIndex browseIndex] in *;
        rewrite attached_indices_snoc; cbn [att_class att_index];
        destruct c'; cbn [TrafficClass_eqb quota] in *;
        rewrite ?app_nil_r, ?length_app; cbn [length];
        rewrite ?Hsucc; cbn [index_of callIndex browseIndex quota] in *;
        repeat split; intros; try assumption; try lia;
        rewrite Nat.add_1_r, zseq_snoc, <- Hs', <- Hi'; reflexivity.
    + (* the read is past the end of the pool *)
      apply Get_None in Hget; [|lia].
      cbn [holds fault_inv]. split; [|lia].
      destruct c; (split; [|exact Hw]); intros c';
        destruct (Hc c') as (Hs' & Hl' & Hi'); specialize (Hi' eq_refl);
        unfold class_inv; cbn [attached index_of callIndex browseIndex] in *;
        destruct c'; cbn [quota index_of callIndex browseIndex] in *;
        rewrite ?Hsucc;
        repeat split; try assumption; try lia; discriminate.
  - (* the quota is exhausted *)
    unfold container_get.
    destruct (Get (pool cfg c) (index_of c s)) as [ue|] eqn:Hget; cbn [holds].
    + unfold log_warn. split; [exact Hc|].
      cbn [warnings]. apply Forall_app. split; [exact Hw|].
      constructor; [|constructor]. cbn [skip_index skip_class]. lia.
    + apply Get_None in Hget; [|lia].
      split; [apply inv_weaken; split; assumption|].
      cbn [fault_inv]. lia.
Qed.

Lemma preserves_gnb_body i :
  0 <= i < GetN (gnbNetDev cfg) -> preserves cfg (gnb_body cfg i).
Proof.
  intros Hi s Hs. unfold gnb_body, bind, container_get.
  destruct (Get_in_range _ _ Hi) as [bs ->].
  apply preserves_for_loopM; [|exact Hs]. intros j _.
  unfold slot_body. destruct (j mod 2 =? 0); apply preserves_slot_for.
Qed.

Lemma preserves_attach_loop : preserves cfg (attach_loop cfg).
Proof.
  unfold attach_loop. apply preserves_for_loopM. intros i Hi.
  now apply preserves_gnb_body.
Qed.

Lemma inv_initial : inv cfg true initial_state.
Proof.
  split; [|constructor].
  intros c. pose proof (quota_uint32 c) as Hq.
  unfold uint32, in_range in Hq.
  destruct c; cbn [quota] in Hq; unfold class_inv; cbn;
    repeat split; intros; try reflexivity; lia.
Qed.

Lemma run_attachment_holds : holds cfg (run_attachment cfg).
Proof. apply preserves_attach_loop, inv_initial. Qed.

Lemma run_attachment_inv : inv cfg false (final_state (run_attachment cfg)).
Proof.
  pose proof run_attachment_holds as H.
  destruct (run_attachment cfg); cbn in *; [now apply inv_weaken|apply H].
Qed.

End PlannerFacts.

Ltac solve_range :=
  unfold uint32, uint16, in_range; cbn; lia.

(** C1. Whatever the quotas (any unsigned 32-bit values), the number of
    base stations and the number of slots per station, the attachment
    loop attaches at most [totalUesCall] voice devices and at most
    [totalUesBrowse] browsing devices over all base stations, no pool
    index of a class is attached twice, and two attachments of the same
    class and pool index are one and the same call, so a pool index is
    attached to at most one base station.  This holds of the state the
    loop ends in, also when it stops at a read past the end of a pool. *)
Theorem attachment_within_quotas (cfg : Planner.AttachConfig) :
  uint32 (Planner.totalUesCall cfg) ->
  uint32 (Planner.totalUesBrowse cfg) ->
  let s := Planner.final_state (Planner.run_attachment cfg) in
  (forall c, Z.of_nat (length (Planner.attached_of c (Planner.attached s)))
             <= Planner.quota cfg c)
  /\ (forall c, NoDup (Planner.attached_indices c (Planner.attached s)))
  /\ (forall a1 a2,
        In a1 (Planner.attached s) -> In a2 (Planner.attached s) ->
        Planner.att_class a1 = Planner.att_class a2 ->
        Planner.att_index a1 = Planner.att_index a2 ->
        a1 = a2 /\ Planner.att_bs a1 = Planner.att_bs a2).
Proof.
  intros Hv Hb s.
  destruct (run_attachment_inv cfg Hv Hb) as [Hc _]. fold s in Hc.
  assert (Hnd : forall c, NoDup (Planner.attached_indices c (Planner.attached s))).
  { intros c. destruct (Hc c) as (Hseq & _). rewrite Hseq. apply NoDup_zseq. }
  split; [|split; [exact Hnd|]].
  - intros c. destruct (Hc c) as (_ & Hle & _).
    unfold Planner.attached_indices in Hle. rewrite length_map in Hle. lia.
  - intros a1 a2 Hin1 Hin2 Hcls Hidx.
    assert (Heq : a1 = a2).
    { apply NoDup_map_In_eq
        with (f := Planner.att_index)
             (l := Planner.attached_of (Planner.att_class a1) (Planner.attached s));
        try assumption.
      - apply Hnd.
      - apply filter_In. split; [assumption|]. now destruct (Planner.att_class a1).
      - apply filter_In. split; [assumption|].
        rewrite <- Hcls. now destruct (Planner.att_class a1). }
    split; [exact Heq|now rewrite Heq].
Qed.

(** The configuration written in [main] has 32-bit quotas and so enjoys
    the three properties. *)
Lemma attachment_within_quotas_builtin :
  uint32 (Planner.totalUesCall Planner.builtin_config)
  /\ uint32 (Planner.totalUesBrowse Planner.builtin_config)
  /\ (let s := Planner.final_state (Planner.run_attachment Planner.builtin_config) in
      (forall c, Z.of_nat (length (Planner.attached_of c (Planner.attached s)))
                 <= Planner.quota Planner.builtin_config c)
      /\ (forall c, NoDup (Planner.attached_indices c (Planner.attached s)))
      /\ (forall a1 a2,
            In a1 (Planner.attached s) -> In a2 (Planner.attached s) ->
            Planner.att_class a1 = Planner.att_class a2 ->
            Planner.att_index a1 = Planner.att_index a2 ->
            a1 = a2 /\ Planner.att_bs a1 = Planner.att_bs a2)).
Proof.
  split; [solve_range|]. split; [solve_range|].
  apply (attachment_within_quotas Planner.builtin_config); solve_range.
Defined.

(** When every pool is larger than the quota of its class, no read is past
    the end of a pool and the loop runs to its end. *)
Lemma attachment_completes (cfg : Planner.AttachConfig) :
  uint32 (Planner.totalUesCall cfg) ->
  uint32 (Planner.totalUesBrowse cfg) ->
  (forall c, Planner.quota cfg c < GetN (Planner.pool cfg c)) ->
  Planner.completed (Planner.run_attachment cfg) = true.
Proof.
  intros Hv Hb Hpool.
  pose proof (run_attachment_holds cfg Hv Hb) as H.
  destruct (Planner.run_attachment cfg) as [u s|[site i] s]; [reflexivity|].
  destruct H as [_ Hf]. exfalso.
  destruct site as [|c|c]; cbn in Hf; [assumption| |];
    specialize (Hpool c); lia.
Qed.

(** C9. A skipped slot reads the pool of its class at the index equal to
    the quota of that class, whether the read succeeds (and the warning is
    logged) or is past the end of the pool.  In the configuration written
    in [main] (3 base stations, 2 slots each, quotas 2 and 3, pools of 3
    and 3) the loop runs to its end, the only such read is that of voice
    index 2 at the third base station, and every such read is within the
    bounds of its pool. *)
Theorem skip_reads_at_quota (cfg : Planner.AttachConfig) :
  uint32 (Planner.totalUesCall cfg) ->
  uint32 (Planner.totalUesBrowse cfg) ->
  let r := Planner.run_attachment cfg in
  Forall (fun w => Planner.skip_index w = Planner.quota cfg (Planner.skip_class w))
    (Planner.warnings (Planner.final_state r))
  /\ (forall c i s,
        r = Planner.Stuck (Planner.OutOfRange (Planner.SkipRead c) i) s ->
        i = Planner.quota cfg c)
  /\ (cfg = Planner.builtin_config ->
      Planner.completed r = true
      /\ Planner.warnings (Planner.final_state r)
         = [Planner.mkSkipDiag Voice 2 7 2]
      /\ Forall (fun w => 0 <= Planner.skip_index w
                          < GetN (Planner.pool cfg (Planner.skip_class w)))
           (Planner.warnings (Planner.final_state r))).
Proof.
  intros Hv Hb r. split; [|split].
  - exact (proj2 (run_attachment_inv cfg Hv Hb)).
  - intros c i s Hr.
    pose proof (run_attachment_holds cfg Hv Hb) as H.
    fold r in H. rewrite Hr in H. cbn in H. tauto.
  - intros ->. subst r.
    split; [reflexivity|]. split; [reflexivity|].
    repeat constructor; discriminate.
Qed.

(** The same on the configuration written in [main]. *)
Lemma skip_reads_at_quota_builtin :
  uint32 (Planner.totalUesCall Planner.builtin_config)
  /\ uint32 (Planner.totalUesBrowse Planner.builtin_config)
  /\ (let r := Planner.run_attachment Planner.builtin_config in
      Planner.completed r = true
      /\ Forall (fun w => Planner.skip_index w
                          = Planner.quota Planner.builtin_config (Planner.skip_class w))
           (Planner.warnings (Planner.final_state r))
      /\ Forall (fun w => 0 <= Planner.skip_index w
                          < GetN (Planner.pool Planner.builtin_config (Planner.skip_class w)))
           (Planner.warnings (Planner.final_state r))).
Proof.
  split; [solve_range|]. split; [solve_range|].
  destruct (skip_reads_at_quota Planner.builtin_config) as (Hq & _ & Hb);
    [solve_range|solve_range|].
  destruct (Hb eq_refl) as (Hc & _ & Hin).
  exact (conj Hc (conj Hq Hin)).
Defined.

(** ** PowerAllocator *)

Section PowerFacts.
Import Power.
Local Open Scope R_scope.

Lemma ln10_pos : 0 < ln 10.
Proof. rewrite <- ln_1. apply ln_increasing; lra. Qed.

Lemma pow10_pos y : 0 < pow10 y.
Proof. unfold pow10, Rpower. apply exp_pos. Qed.

Lemma log10_mult a b : 0 < a -> 0 < b -> log10 (a * b) = log10 a + log10 b.
Proof.
  intros Ha Hb. unfold log10. rewrite ln_mult by assumption.
  pose proof ln10_pos. field. lra.
Qed.

Lemma log10_div a b : 0 < a -> 0 < b -> log10 (a / b) = log10 a - log10 b.
Proof.
  intros Ha Hb. unfold log10, Rdiv.
  rewrite ln_mult, ln_Rinv by (try apply Rinv_0_lt_compat; assumption).
  pose proof ln10_pos. field. lra.
Qed.

Lemma log10_pow10 y : log10 (pow10 y) = y.
Proof.
  unfold log10, pow10, Rpower. rewrite ln_exp.
  pose proof ln10_pos. field. lra.
Qed.

Lemma log10_increasing a b : 0 < a -> a < b -> log10 a < log10 b.
Proof.
  intros Ha Hab. unfold log10. pose proof ln10_pos as H10.
  apply Rmult_lt_compat_r; [now apply Rinv_0_lt_compat|].
  now apply ln_increasing.
Qed.

Lemma log10_1 : log10 1 = 0.
Proof. unfold log10. rewrite ln_1. pose proof ln10_pos. field. lra. Qed.

Variable cfg : PowerConfig.

Lemma txPower_is_band1_share : txPower cfg = spec_power_dBm cfg 0%Z.
Proof. reflexivity. Qed.

Lemma configure_body_bwp0 k t i :
  (0 < i)%Z -> TxPower (configure_body cfg k t i 0%Z) = TxPower (t i 0%Z).
Proof.
  intros Hi. unfold configure_body, update.
  replace (i =? 0)%Z with false by (symmetry; apply Z.eqb_neq; lia).
  cbn. rewrite !andb_false_r, andb_true_r.
  destruct (i =? k)%Z; reflexivity.
Qed.

Lemma configure_body_bwp1 k t i :
  TxPower (configure_body cfg k t i 1%Z) =
  if (i =? k)%Z then txPower cfg else TxPower (t i 1%Z).
Proof.
  unfold configure_body, update. cbn.
  rewrite !andb_false_r, !andb_true_r.
  destruct (i =? k)%Z; reflexivity.
Qed.

Lemma configure_body_station0_bwp0 k t :
  TxPower (configure_body cfg k t 0%Z 0%Z) = txPower cfg.
Proof.
  unfold configure_body, update. cbn.
  rewrite !andb_false_r. reflexivity.
Qed.

Lemma configure_station0_bwp0 n t :
  (0 < n)%nat -> TxPower (configure cfg n t 0%Z 0%Z) = txPower cfg.
Proof.
  destruct n as [|k]; [lia|]. intros _.
  unfold configure. cbn [for_loop]. apply configure_body_station0_bwp0.
Qed.

Lemma configure_bwp1 n t k :
  (k < n)%nat -> TxPower (configure cfg n t (Z.of_nat k) 1%Z) = txPower cfg.
Proof.
  unfold configure. induction n as [|m IH]; [lia|]. intros Hk.
  cbn [for_loop]. rewrite configure_body_bwp1.
  destruct (Z.eqb_spec (Z.of_nat k) (Z.of_nat m)) as [_|Hne]; [reflexivity|].
  apply IH. lia.
Qed.

(** The rule of the specification keeps the ratio of the bandwidths. *)
Lemma spec_power_ratio :
  0 < bandwidthBand1 cfg -> 0 < bandwidthBand2 cfg ->
  spec_power_dBm cfg 0%Z - spec_power_dBm cfg 1%Z
  = 10 * log10 (bandwidthBand1 cfg / bandwidthBand2 cfg).
Proof.
  intros H1 H2. unfold spec_power_dBm, bandwidth, totalBandwidth. cbn.
  pose proof (pow10_pos (totalTxPower cfg / 10)) as Hx.
  assert (Ht : 0 < bandwidthBand1 cfg + bandwidthBand2 cfg) by lra.
  rewrite !log10_mult, !log10_div; try assumption;
    try (apply Rdiv_lt_0_compat; assumption).
  ring.
Qed.

End PowerFacts.

(** C3, on the code.  The loop writes the transmit power of bandwidth
    part 0 through [gnbNetDev.Get(0)] at every iteration: on every base
    station but the first, bandwidth part 0 keeps the power it had before
    the loop, whatever the configuration and the number of stations. *)
Theorem txpower_bwp0_set_on_station0_only
    (cfg : Power.PowerConfig) (n : nat) (t : Power.PhyTable) (i : Z) :
  0 < i ->
  Power.TxPower (Power.configure cfg n t i 0) = Power.TxPower (t i 0).
Proof.
  intros Hi. unfold Power.configure.
  induction n as [|k IH]; [reflexivity|].
  cbn [for_loop]. rewrite configure_body_bwp0 by assumption. exact IH.
Qed.

(** With the values of [main] and three stations, bandwidth part 0 of the
    second station is left at the 4 dBm of the installer. *)
Lemma txpower_bwp0_station1_builtin :
  0 < 1
  /\ Power.TxPower (Power.configure Power.builtin_power 3 Power.installed_phy 1 0)
     = 4%R.
Proof.
  split; [lia|].
  exact (txpower_bwp0_set_on_station0_only
           Power.builtin_power 3 Power.installed_phy 1 eq_refl).
Defined.

(** With the values of [main] the power the specification asks for on
    bandwidth part 0 is above 25 dBm, on every station; the second station
    is left at the 4 dBm of the installer. *)
Lemma spec_power_builtin_bwp0 :
  (25 < Power.spec_power_dBm Power.builtin_power 0%Z)%R
  /\ (Power.TxPower
        (Power.configure Power.builtin_power 3 Power.installed_phy 1%Z 0%Z)
      <> Power.spec_power_dBm Power.builtin_power 0%Z)%R.
Proof.
  assert (H : (25 < Power.spec_power_dBm Power.builtin_power 0%Z)%R).
  { unfold Power.spec_power_dBm, Power.bandwidth, Power.totalBandwidth.
    cbn [Z.eqb Power.bandwidthBand1 Power.bandwidthBand2 Power.totalTxPower
         Power.builtin_power].
    rewrite log10_mult; [|lra|apply pow10_pos].
    rewrite log10_pow10.
    assert (Hlog : (-1 < Power.log10 (50e6 / (50e6 + 50e6)))%R).
    { replace (-1)%R with (Power.log10 (1 / 10)).
      - apply log10_increasing; lra.
      - rewrite log10_div by lra. rewrite log10_1.
        replace 10%R with (Power.pow10 1) at 1.
        + rewrite log10_pow10. lra.
        + unfold Power.pow10. apply Rpower_1. lra. }
    lra. }
  split; [exact H|].
  unfold Power.configure. cbn [for_loop].
  rewrite !configure_body_bwp0 by reflexivity.
  cbn. lra.
Qed.

(** C4, on the code.  The loop computes one [txPower], from the bandwidth
    of band 1, and writes it on both bandwidth parts: with bands of 100 MHz
    and 50 MHz the two allocated powers are equal, whereas
    [10 * log10(b1 / b2)] is not zero; the rule of the specification would
    keep the ratio. *)
Theorem unequal_bands_get_equal_power (t : Power.PhyTable) :
  let cfg := Power.unequal_power in
  let final := Power.configure cfg 3 t in
  (Power.TxPower (final 0%Z 0%Z) - Power.TxPower (final 0%Z 1%Z) = 0)%R
  /\ (10 * Power.log10 (Power.bandwidthBand1 cfg / Power.bandwidthBand2 cfg)
      <> 0)%R
  /\ (Power.spec_power_dBm cfg 0%Z - Power.spec_power_dBm cfg 1%Z
      = 10 * Power.log10 (Power.bandwidthBand1 cfg / Power.bandwidthBand2 cfg))%R.
Proof.
  intros cfg final. subst final.
  rewrite (configure_station0_bwp0 cfg 3 t) by lia.
  pose proof (configure_bwp1 cfg 3 t 0 ltac:(lia)) as Hb1.
  change (Z.of_nat 0) with 0%Z in Hb1. rewrite Hb1.
  split; [ring|]. split.
  - assert (H : (0 < Power.log10 (Power.bandwidthBand1 cfg / Power.bandwidthBand2 cfg))%R).
    { rewrite <- log10_1. apply log10_increasing; [lra|].
      subst cfg. cbn. lra. }
    lra.
  - apply spec_power_ratio; subst cfg; cbn; lra.
Qed.

(** ** Extended rationals *)

Section XDoubleFacts.
Import XDouble.

Lemma Qred_sign (q : Q) :
  (Qnum (Qred q) = 0 <-> Qnum q = 0) /\ (Qnum (Qred q) < 0 <-> Qnum q < 0).
Proof.
  pose proof (Qred_correct q) as H. unfold Qeq in H.
  pose proof (Pos2Z.is_pos (Qden q)). pose proof (Pos2Z.is_pos (Qden (Qred q))).
  split; split; intros; nia.
Qed.

Lemma q_zero_Qred (q : Q) : q_zero (Qred q) = q_zero q.
Proof.
  unfold q_zero. destruct (Qred_sign q) as [Hz _].
  destruct (Z.eqb_spec (Qnum (Qred q)) 0), (Z.eqb_spec (Qnum q) 0);
    try reflexivity; tauto.
Qed.

Lemma q_neg_Qred (q : Q) : q_neg (Qred q) = q_neg q.
Proof.
  unfold q_neg. destruct (Qred_sign q) as [_ Hn].
  destruct (Z.ltb_spec (Qnum (Qred q)) 0), (Z.ltb_spec (Qnum q) 0);
    try reflexivity; lia.
Qed.

(** No value is both below 2 GHz and above 100 GHz. *)
Lemma range_test_never_holds (f : xdouble) :
  dltb f (dofZ 2000000000) && dltb (dofZ 100000000000) f = false.
Proof.
  destruct f as [|s|q]; cbn.
  - reflexivity.
  - now destruct s.
  - unfold Qle_bool. cbn [Qnum Qden].
    pose proof (Pos2Z.is_pos (Qden q)).
    repeat match goal with
           | |- context [Z.leb ?a ?b] => destruct (Z.leb_spec a b)
           end; cbn [negb andb]; try reflexivity; lia.
Qed.

End XDoubleFacts.

(** ** Start-up validation *)

Import XDouble Binary64.

(** On the extended rationals the start-up checks abort exactly when the
    two carrier frequencies are equal or a count is too small: the two
    range checks never fire. *)
Lemma startup_checks_abort_iff (p : Validation.ScenarioParams XDouble.xdouble) :
  Validation.aborts p =
  deqb (Validation.centralFrequencyBand1 p) (Validation.centralFrequencyBand2 p)
  || (Validation.numTotalUe p <? 5)
  || (Validation.numGnb p <? 2).
Proof.
  unfold Validation.aborts, Validation.startup_checks.
  rewrite !range_test_never_holds.
  destruct (deqb _ _); [reflexivity|].
  cbn [orb].
  destruct ((Validation.numTotalUe p <? 5) || (Validation.numGnb p <? 2));
    reflexivity.
Qed.

(** C7, on the code.  The two range checks test [f < 2e9 && f > 100e9],
    which holds of no value: whatever the parameters, the program aborts
    exactly when the two carrier frequencies are equal, the number of user
    terminals is below 5 or the number of base stations is below 2.  With
    the first carrier at 1 GHz, outside of the range, and every other
    parameter as written in [main], none of the checks aborts, on the
    extended rationals as on binary64, although the abort condition of
    the specification holds. *)
Theorem band_below_range_not_rejected :
  (forall p : Validation.ScenarioParams xdouble,
     Validation.startup_checks p <> Some Validation.Band1Range
     /\ Validation.startup_checks p <> Some Validation.Band2Range
     /\ Validation.aborts p =
        deqb (Validation.centralFrequencyBand1 p)
             (Validation.centralFrequencyBand2 p)
        || (Validation.numTotalUe p <? 5)
        || (Validation.numGnb p <? 2))
  /\ Validation.startup_checks (D := xdouble) Validation.low_band1_params
     = None
  /\ Validation.spec_abort (D := xdouble) Validation.low_band1_params
     = true
  /\ Validation.startup_checks (D := PrimFloat.float) Validation.low_band1_params
     = None
  /\ Validation.spec_abort (D := PrimFloat.float) Validation.low_band1_params
     = true.
Proof.
  split.
  - intros p. split; [|split; [|apply startup_checks_abort_iff]];
      unfold Validation.startup_checks;
      rewrite !range_test_never_holds;
      destruct (deqb _ _); try discriminate;
      destruct ((Validation.numTotalUe p <? 5) || (Validation.numGnb p <? 2));
      discriminate.
  - repeat split; vm_compute; reflexivity.
Qed.

(** ** Flow statistics and exit status *)

Section StatsFacts.
Import Stats.
Context {D : Type} `{Double D}.
Variable w : Z.
Variable flowDuration : D.

Lemma tolerance_check_bands (refThr refDly : D) (r : Report D) :
  tolerance_check refThr refDly r =
  within_band refThr (meanFlowThroughput r)
  && within_band refDly (meanFlowDelay r).
Proof.
  unfold tolerance_check, within_band. cbn zeta.
  now rewrite <- !andb_assoc.
Qed.

Lemma regression_status_baseline argc numUePerGnb (r : Report D) :
  regression_status argc numUePerGnb r =
  match baseline argc numUePerGnb with
  | None => EXIT_SUCCESS
  | Some (refThr, refDly) =>
      if within_band refThr (meanFlowThroughput r)
         && within_band refDly (meanFlowDelay r)
      then EXIT_SUCCESS else EXIT_FAILURE
  end.
Proof.
  unfold regression_status, baseline.
  destruct (argc =? 0); [now rewrite tolerance_check_bands|].
  destruct ((argc =? 1) && (numUePerGnb =? 9));
    [now rewrite tolerance_check_bands|reflexivity].
Qed.

Lemma exit_status_eq argc numUePerGnb file_opens stats :
  exit_status w flowDuration argc numUePerGnb file_opens stats =
  if file_opens
  then regression_status argc numUePerGnb
         (value (build_report w flowDuration stats))
  else 1.
Proof.
  unfold exit_status, report_and_exit.
  destruct file_opens; [|reflexivity].
  unfold cbind, value, cret. cbn [fst snd].
  reflexivity.
Qed.

End StatsFacts.

(** C8. The exit status is [EXIT_SUCCESS] (0) exactly when the output
    file could be opened and either the run is none of those compared
    with reference values or both means lie within the relative tolerance
    of 0.01% around their reference value; in every other case, that is
    when the file cannot be opened or a comparison fails, it is 1.  The
    runs compared are those with [argc == 0], and those with [argc == 1]
    and 9 user terminals per base station.  This holds for any arithmetic
    on doubles. *)
Theorem exit_status_spec {D : Type} `{Double D} (w : Z) (flowDuration : D)
    (argc numUePerGnb : Z) (file_opens : bool)
    (stats : list (Z * Stats.FlowStats D)) :
  let r := Stats.value (Stats.build_report w flowDuration stats) in
  let status := Stats.exit_status w flowDuration argc numUePerGnb file_opens stats in
  (status = 0 <->
   file_opens = true
   /\ match Stats.baseline argc numUePerGnb with
      | None => True
      | Some (refThr, refDly) =>
          Stats.within_band refThr (Stats.meanFlowThroughput r) = true
          /\ Stats.within_band refDly (Stats.meanFlowDelay r) = true
      end)
  /\ (status = 0 \/ status = 1).
Proof.
  cbn zeta. rewrite exit_status_eq, regression_status_baseline.
  destruct file_opens.
  2:{ split; [|now right]. split; [discriminate|]. intros [? _]. discriminate. }
  destruct (Stats.baseline argc numUePerGnb) as [[refThr refDly]|].
  2:{ split; [|now left]. split; [now split|reflexivity]. }
  destruct (Stats.within_band refThr _); cbn [andb];
    [destruct (Stats.within_band refDly _)|];
    (split; [|try (now left); now right]);
    (split; [try discriminate|]);
    try intros (_ & ? & ?); try discriminate; auto.
Qed.

(** The loss percentage of a record without transmitted packets, on the
    extended rationals. *)
Lemma packetLoss_no_tx (w : Z) (fs : Stats.FlowStats xdouble) :
  0 <= w -> in_range w (Stats.rxPackets fs) -> Stats.txPackets fs = 0 ->
  Stats.value (Stats.packetLoss w fs)
  = (if Stats.rxPackets fs =? 0 then XNaN else XInf false)
  /\ map Stats.divisor (Stats.divisions (Stats.packetLoss w fs)) = [dofZ 0].
Proof.
  intros Hw Hrx Htx. unfold Stats.packetLoss, Stats.cdiv, Stats.cbind, Stats.cret.
  cbn [fst snd Stats.value Stats.divisions map app Stats.divisor].
  rewrite Htx. split; [|reflexivity].
  cbn [dmul ddiv dofZ Double_xdouble xofZ xmul xdiv].
  change (q_zero (0 # 1)) with true. cbn iota.
  rewrite q_zero_Qred, q_neg_Qred.
  unfold q_zero, q_neg. cbn [Qnum Qmult].
  pose proof (wrap_in_range w (0 - Stats.rxPackets fs) Hw) as Hl.
  unfold in_range in *.
  destruct (Z.eqb_spec (Stats.rxPackets fs) 0) as [E|E].
  - rewrite E. unfold wrap. rewrite Z.mod_0_l by (apply Z.pow_nonzero; lia).
    reflexivity.
  - assert (Hlost : wrap w (0 - Stats.rxPackets fs) = 2 ^ w - Stats.rxPackets fs).
    { unfold wrap. symmetry.
      apply Z.mod_unique with (q := -1); lia. }
    rewrite Hlost.
    destruct (Z.eqb_spec ((2 ^ w - Stats.rxPackets fs) * 1) 0); [lia|].
    destruct (Z.ltb_spec ((2 ^ w - Stats.rxPackets fs) * 1) 0); [lia|].
    reflexivity.
Qed.

(** C5, as stated: for a record with [txPackets == 0] the division by
    [txPackets] would never be carried out.  On the record with no packets
    at all the program divides 0.0 by the converted [txPackets], which is
    0, and the loss percentage is the NaN of that division. *)
Lemma packetLoss_divides_by_zero_tx :
  Stats.txPackets (Stats.no_packets (D := xdouble)) = 0
  /\ Stats.divisions (Stats.packetLoss 32 (Stats.no_packets (D := xdouble)))
     = [Stats.mkDivOp (XFin 0) (XFin 0)]
  /\ Stats.value (Stats.packetLoss 32 (Stats.no_packets (D := xdouble))) = XNaN
  /\ ~ (forall fs : Stats.FlowStats xdouble,
          Stats.txPackets fs = 0 ->
          forall d, In d (Stats.divisions (Stats.packetLoss 32 fs)) ->
                    Stats.divisor d <> dofZ (Stats.txPackets fs)).
Proof.
  split; [reflexivity|]. split; [reflexivity|]. split; [reflexivity|].
  intros Hclaim.
  apply (Hclaim Stats.no_packets eq_refl (Stats.mkDivOp (XFin 0) (XFin 0))).
  - left. reflexivity.
  - reflexivity.
Qed.

(** C5, as the code has it.  The loss percentage is computed by the same
    expression for every record, with no test of [txPackets]: when
    [txPackets == 0] the only division carried out is the one by
    [txPackets], that is by zero, and the value printed is NaN when
    [rxPackets == 0] and plus infinity otherwise.  On binary64 the record
    with no packets yields NaN as well. *)
Theorem packetLoss_zero_tx_unguarded (w : Z) (fs : Stats.FlowStats xdouble) :
  32 <= w -> in_range w (Stats.rxPackets fs) -> Stats.txPackets fs = 0 ->
  map Stats.divisor (Stats.divisions (Stats.packetLoss w fs))
  = [dofZ (Stats.txPackets fs)]
  /\ Stats.value (Stats.packetLoss w fs)
     = (if Stats.rxPackets fs =? 0 then XNaN else XInf false)
  /\ dis_nan (Stats.value
                (Stats.packetLoss 32 (Stats.no_packets (D := PrimFloat.float))))
     = true.
Proof.
  intros Hw Hrx Htx.
  destruct (packetLoss_no_tx w fs) as [Hv Hd]; try assumption; [lia|].
  split; [now rewrite Hd, Htx|]. split; [exact Hv|].
  vm_compute. reflexivity.
Qed.

(** Seven packets received and none sent: the loss percentage is plus
    infinity. *)
Lemma packetLoss_zero_tx_unguarded_example :
  32 <= 32
  /\ in_range 32 (Stats.rxPackets (Stats.mkFlowStats 0 0 7 350 (XFin 0) (XFin 0)))
  /\ Stats.value (Stats.packetLoss 32 (Stats.mkFlowStats 0 0 7 350 (XFin 0) (XFin 0)))
     = XInf false.
Proof.
  split; [lia|]. split; [solve_range|].
  exact (proj1 (proj2 (packetLoss_zero_tx_unguarded 32
          (Stats.mkFlowStats 0 0 7 350 (XFin 0) (XFin 0))
          ltac:(lia) ltac:(solve_range) eq_refl))).
Defined.

(** C6, as stated: with no flow record the two means would be produced
    without dividing the accumulated sums by the flow count.  On the empty
    set of records the program carries out two divisions, each of the sum
    0.0 by the converted flow count 0. *)
Lemma empty_report_divides_by_flow_count :
  Stats.divisions
    (Stats.build_report (D := xdouble) 32 Stats.builtin_flowDuration [])
  = [Stats.mkDivOp (XFin 0) (XFin 0); Stats.mkDivOp (XFin 0) (XFin 0)]
  /\ ~ (forall stats : list (Z * Stats.FlowStats xdouble),
          GetN stats = 0 ->
          forall d,
            In d (Stats.divisions
                    (Stats.build_report 32 Stats.builtin_flowDuration stats)) ->
            Stats.divisor d <> dofZ (GetN stats)).
Proof.
  split; [reflexivity|].
  intros Hclaim.
  apply (Hclaim [] eq_refl (Stats.mkDivOp (XFin 0) (XFin 0))).
  - left. reflexivity.
  - reflexivity.
Qed.

(** C6, as the code has it.  The two means are always the quotients of
    the accumulated sums by the number of records, with no test of that
    number: with no record the program carries out exactly the two
    divisions of 0.0 by 0, and both means are NaN, on the extended
    rationals as on binary64. *)
Theorem empty_report_means_are_nan (w : Z) :
  (forall (flowDuration : xdouble),
     let c := Stats.build_report w flowDuration [] in
     Stats.divisions c
     = [Stats.mkDivOp (dofZ 0) (dofZ (GetN (@nil (Z * Stats.FlowStats xdouble))));
        Stats.mkDivOp (dofZ 0) (dofZ (GetN (@nil (Z * Stats.FlowStats xdouble))))]
     /\ Stats.meanFlowThroughput (Stats.value c) = XNaN
     /\ Stats.meanFlowDelay (Stats.value c) = XNaN)
  /\ (forall (flowDuration : PrimFloat.float),
        let c := Stats.build_report w flowDuration [] in
        map Stats.divisor (Stats.divisions c)
        = [dofZ (GetN (@nil (Z * Stats.FlowStats PrimFloat.float)));
           dofZ (GetN (@nil (Z * Stats.FlowStats PrimFloat.float)))]
        /\ dis_nan (Stats.meanFlowThroughput (Stats.value c)) = true
        /\ dis_nan (Stats.meanFlowDelay (Stats.value c)) = true).
Proof.
  split; intros flowDuration; cbn zeta; repeat split; vm_compute; reflexivity.
Qed.

(** For every set of records the means are quotients by the number of
    records. *)
Lemma build_report_means {D : Type} `{Double D} (w : Z) (flowDuration : D)
    (stats : list (Z * Stats.FlowStats D)) :
  let acc := fst (Stats.value
                    (Stats.flows_loop w flowDuration stats
                       (Stats.mkAccum (dofZ 0) (dofZ 0)) [])) in
  let r := Stats.value (Stats.build_report w flowDuration stats) in
  Stats.meanFlowThroughput r
  = ddiv (Stats.averageFlowThroughput acc) (dofZ (GetN stats))
  /\ Stats.meanFlowDelay r
     = ddiv (Stats.averageFlowDelay acc) (dofZ (GetN stats)).
Proof.
  cbn zeta. unfold Stats.build_report, Stats.cbind, Stats.cdiv, Stats.cret, Stats.value.
  destruct (Stats.flows_loop w flowDuration stats _ []) as [[acc out] t].
  cbn. split; reflexivity.
Qed.

(** C10. The number of lost packets is the difference of the two
    unsigned counters modulo [2^w]: it is never negative; it is the
    mathematical difference when [rxPackets <= txPackets]; and when
    [rxPackets > txPackets] it is the difference plus [2^w], which is
    positive and above [txPackets], so that the loss percentage is above
    100. *)
Theorem lostPackets_wraps (w : Z) (fs : Stats.FlowStats xdouble) :
  32 <= w ->
  in_range w (Stats.txPackets fs) -> in_range w (Stats.rxPackets fs) ->
  0 <= Stats.lostPackets w fs < 2 ^ w
  /\ (Stats.rxPackets fs <= Stats.txPackets fs ->
      Stats.lostPackets w fs = Stats.txPackets fs - Stats.rxPackets fs)
  /\ (Stats.txPackets fs < Stats.rxPackets fs ->
      Stats.lostPackets w fs = Stats.txPackets fs - Stats.rxPackets fs + 2 ^ w
      /\ Stats.txPackets fs < Stats.lostPackets w fs
      /\ dltb (dofZ 100) (Stats.value (Stats.packetLoss w fs)) = true).
Proof.
  intros Hw Htx Hrx. unfold in_range in *.
  assert (Hpos : 0 < 2 ^ w) by (apply Z.pow_pos_nonneg; lia).
  split; [apply (wrap_in_range w); lia|]. split.
  - intros Hle. apply wrap_small. unfold in_range. lia.
  - intros Hlt.
    assert (Hlost : Stats.lostPackets w fs
                    = Stats.txPackets fs - Stats.rxPackets fs + 2 ^ w).
    { unfold Stats.lostPackets, wrap. symmetry.
      apply Z.mod_unique with (q := -1); lia. }
    split; [exact Hlost|]. split; [lia|].
    unfold Stats.packetLoss, Stats.cdiv, Stats.cbind, Stats.cret, Stats.value.
    cbn [fst snd].
    fold (Stats.lostPackets w fs). rewrite Hlost.
    set (lost := Stats.txPackets fs - Stats.rxPackets fs + 2 ^ w).
    assert (Hl : Stats.txPackets fs < lost) by (subst lost; lia).
    cbn [dmul ddiv dofZ dltb Double_xdouble xofZ xmul xdiv].
    unfold q_zero at 1. cbn [Qnum].
    destruct (Z.eqb_spec (Stats.txPackets fs) 0) as [E|E].
    + rewrite q_zero_Qred, q_neg_Qred. unfold q_zero, q_neg. cbn [Qnum Qmult].
      destruct (Z.eqb_spec (lost * 1) 0); [lia|].
      destruct (Z.ltb_spec (lost * 1) 0); [lia|].
      reflexivity.
    + cbn [xltb]. apply negb_true_iff, not_true_iff_false.
      intros Hle. apply Qle_bool_iff in Hle.
      rewrite !Qred_correct in Hle.
      destruct (Stats.txPackets fs) as [|tx|tx] eqn:Etx; try lia.
      unfold Qle, Qmult, Qdiv, Qinv in Hle. cbn in Hle. nia.
Qed.

(** Five packets sent and seven received on 32-bit counters: 2^32 - 2
    packets are reported lost. *)
Lemma lostPackets_wraps_example :
  32 <= 32
  /\ in_range 32 (Stats.txPackets (Stats.mkFlowStats 5 250 7 350 (XFin 0) (XFin 0)))
  /\ in_range 32 (Stats.rxPackets (Stats.mkFlowStats 5 250 7 350 (XFin 0) (XFin 0)))
  /\ Stats.lostPackets 32 (Stats.mkFlowStats 5 250 7 350 (XFin 0) (XFin 0))
     = 4294967294.
Proof.
  split; [lia|]. split; [solve_range|]. split; [solve_range|].
  destruct (lostPackets_wraps 32
              (Stats.mkFlowStats 5 250 7 350 (XFin 0) (XFin 0))
              ltac:(lia) ltac:(solve_range) ltac:(solve_range))
    as (_ & _ & Hwrap).
  exact (proj1 (Hwrap eq_refl)).
Defined.

(** ** The examples of the specification *)

(** Six user terminals, quotas 2 and 3: the voice pool indices 0 and 1
    and the browsing pool indices 0, 1 and 2 are attached, to the base
    stations 0, 0, 1, 1, 2 in the order of the calls, and the third voice
    device is the one skipped. *)
Example builtin_attachment :
  let s := Planner.final_state (Planner.run_attachment Planner.builtin_config) in
  Planner.attached_indices Voice (Planner.attached s) = [0; 1]
  /\ Planner.attached_indices Browsing (Planner.attached s) = [0; 1; 2]
  /\ map Planner.att_bs (Planner.attached s) = [0; 0; 1; 1; 2]
  /\ map Planner.skip_ue (Planner.warnings s) = [7]
  /\ Planner.some_voice_unassigned Planner.builtin_config s = false
  /\ Planner.some_browsing_unassigned Planner.builtin_config s = false.
Proof. cbn zeta. repeat split; reflexivity. Qed.

(** A voice pool shorter than the voice quota: the second attachment reads
    the pool past its end, after [callIndex] was incremented. *)
Example short_pool_attachment :
  Planner.run_attachment Planner.short_pool_config
  = Planner.Stuck (Planner.OutOfRange (Planner.AttachRead Voice) 1)
      (Planner.mkAttachState 2 0 [Planner.mkAttachment Voice 0 2 0] []).
Proof. reflexivity. Qed.

(** Equal bandwidths and a budget of 35 dBm: the power computed is
    [10 * log10(0.5 * 10^3.5)]. *)
Example builtin_txPower :
  (Power.txPower Power.builtin_power
   = 10 * Power.log10 (0.5 * Power.pow10 3.5))%R.
Proof.
  unfold Power.txPower, Power.x, Power.totalBandwidth, Power.builtin_power.
  cbn [Power.bandwidthBand1 Power.bandwidthBand2 Power.totalTxPower].
  replace (50e6 / (50e6 + 50e6))%R with 0.5%R by lra.
  replace (35 / 10)%R with 3.5%R by lra.
  reflexivity.
Qed.

(** The flow of the third example over 0.09 s: 38/9 Mbps (about 4.222),
    a mean delay of 40/19 ms (about 2.105) and a loss of 5%. *)
Example example_flow_lines :
  let r := Stats.value
             (Stats.build_report (D := xdouble) 32 Stats.builtin_flowDuration
                [(1, Stats.example_flow)]) in
  map Stats.l_throughput (Stats.flows r) = [XFin (38 # 9)]
  /\ map Stats.l_meanDelay (Stats.flows r) = [XFin (40 # 19)]
  /\ map Stats.l_lostPackets (Stats.flows r) = [50]
  /\ map Stats.l_packetLoss (Stats.flows r) = [XFin 5]
  /\ Stats.meanFlowThroughput r = XFin (38 # 9)
  /\ Stats.meanFlowDelay r = XFin (40 # 19).
Proof. cbn zeta. repeat split; vm_compute; reflexivity. Qed.

(** The same record on binary64, and one without transmitted packets: the
    loss percentage is above 100 there as well. *)
Example wrapped_loss_binary64 :
  dltb (dofZ 100)
    (Stats.value (Stats.packetLoss (D := PrimFloat.float) 32
                    (Stats.mkFlowStats 5 250 7 350 (dofZ 0) (dofZ 0)))) = true
  /\ dltb (dofZ 100)
       (Stats.value (Stats.packetLoss (D := PrimFloat.float) 32
                       (Stats.mkFlowStats 0 0 7 350 (dofZ 0) (dofZ 0)))) = true.
Proof. split; vm_compute; reflexivity. Qed.

(** The values written in [main] pass the start-up checks. *)
Example builtin_params_accepted :
  Validation.startup_checks (D := xdouble) Validation.builtin_params = None
  /\ Validation.startup_checks (D := PrimFloat.float) Validation.builtin_params
     = None.
Proof. split; vm_compute; reflexivity. Qed.

(** ** The attachment loop, slot by slot *)

Lemma firstn_succ_nth {A : Type} (l : list A) (k : nat) (x : A) :
  nth_error l k = Some x -> firstn (S k) l = firstn k l ++ [x].
Proof.
  revert l. induction k as [|k IH]; intros [|a l] H; try discriminate.
  - cbn in H. injection H as ->. reflexivity.
  - cbn [nth_error] in H. cbn [firstn app]. f_equal. now apply IH.
Qed.

Lemma Get_Some_lt {A : Type} (c : list A) (i : Z) (a : A) :
  Get c i = Some a -> 0 <= i < GetN c.
Proof.
  unfold Get, GetN. destruct (Z.ltb_spec i 0); [discriminate|].
  intros H0. assert (Hl : (Z.to_nat i < length c)%nat)
    by (apply nth_error_Some; rewrite H0; discriminate).
  lia.
Qed.

Section SlotsFacts.
Import Planner Slots.
Local Open Scope attach_scope.
Variable cfg : AttachConfig.

Lemma bind_ext {A B : Type} (m m' : M A) (k k' : A -> M B) s :
  m s = m' s -> (forall a s', k a s' = k' a s') -> bind m k s = bind m' k' s.
Proof. intros Hm Hk. unfold bind. rewrite Hm. destruct (m' s); auto. Qed.

Lemma run_slots_app l1 l2 s :
  run_slots cfg (l1 ++ l2) s
  = bind (run_slots cfg l1) (fun _ => run_slots cfg l2) s.
Proof.
  revert s. induction l1 as [|[c bs] l1 IH]; intros s; cbn [app run_slots].
  - reflexivity.
  - unfold bind at 1 2 3.
    destruct (slot_for cfg c bs s) as [u s'|f s']; [|reflexivity].
    rewrite IH. reflexivity.
Qed.

Lemma slot_body_class bs j s :
  slot_body cfg bs j s = slot_for cfg (slot_class j) bs s.
Proof. unfold slot_body, slot_class. now destruct (j mod 2 =? 0). Qed.

Lemma run_slots_single c bs s : run_slots cfg [(c, bs)] s = slot_for cfg c bs s.
Proof.
  cbn [run_slots]. unfold bind, ret.
  destruct (slot_for cfg c bs s) as [[] s'|f s']; reflexivity.
Qed.

Lemma inner_loop_slots bs n s :
  for_loopM n (slot_body cfg bs) s
  = run_slots cfg (map (fun j => (slot_class (Z.of_nat j), bs)) (seq 0 n)) s.
Proof.
  revert s. induction n as [|k IH]; intros s; [reflexivity|].
  cbn [for_loopM]. rewrite seq_S, map_app, run_slots_app.
  apply bind_ext; [apply IH|]. intros _ s'.
  cbn [map Nat.add]. now rewrite run_slots_single, slot_body_class.
Qed.

Lemma outer_loop_slots n s :
  (n <= length (gnbNetDev cfg))%nat ->
  for_loopM n (gnb_body cfg) s
  = run_slots cfg
      (flat_map (station_slots (numUePerGnb cfg)) (firstn n (gnbNetDev cfg))) s.
Proof.
  revert s. induction n as [|k IH]; intros s Hn; [reflexivity|].
  cbn [for_loopM].
  destruct (nth_error (gnbNetDev cfg) k) as [bs|] eqn:Hbs.
  2:{ apply nth_error_None in Hbs. lia. }
  rewrite (firstn_succ_nth _ _ _ Hbs), flat_map_app, run_slots_app.
  apply bind_ext; [apply IH; lia|]. intros _ s'.
  unfold gnb_body, bind, container_get. rewrite Get_nat, Hbs.
  cbn [flat_map]. rewrite app_nil_r. apply inner_loop_slots.
Qed.

(** The two nested loops run the slots in the order of [all_slots]. *)
Lemma attach_loop_slots s :
  attach_loop cfg s = run_slots cfg (all_slots cfg) s.
Proof.
  unfold attach_loop, all_slots.
  rewrite outer_loop_slots by lia. now rewrite firstn_all.
Qed.

Lemma stations_of_cons c c0 bs l :
  stations_of c ((c0, bs) :: l)
  = if TrafficClass_eqb c0 c then bs :: stations_of c l else stations_of c l.
Proof.
  unfold stations_of. cbn [filter fst].
  destruct (TrafficClass_eqb c0 c); reflexivity.
Qed.

Lemma attached_of_snoc c l a :
  attached_of c (l ++ [a])
  = attached_of c l ++ (if TrafficClass_eqb (att_class a) c then [a] else []).
Proof.
  unfold attached_of. rewrite filter_app. cbn [filter].
  destruct (TrafficClass_eqb (att_class a) c); reflexivity.
Qed.

Lemma warnings_of_snoc c l w :
  warnings_of c (l ++ [w])
  = warnings_of c l ++ (if TrafficClass_eqb (skip_class w) c then [w] else []).
Proof.
  unfold warnings_of. rewrite filter_app. cbn [filter].
  destruct (TrafficClass_eqb (skip_class w) c); reflexivity.
Qed.

Lemma slot_for_from_pools c bs s :
  In bs (gnbNetDev cfg) ->
  from_pools cfg s -> from_pools cfg (final_state (slot_for cfg c bs s)).
Proof.
  intros Hbs [Ha Hw]. unfold slot_for, bind, read_index, write_index, container_get.
  change (match c with Voice => callIndex s | Browsing => browseIndex s end)
    with (index_of c s).
  destruct (index_of c s <? quota cfg c).
  - destruct c; cbn [pool];
      match goal with
      | |- context [Get ?p ?i] => destruct (Get p i) as [ue|] eqn:Hget
      end; cbn [final_state AttachToGnb]; split; cbn [attached warnings];
      try assumption;
      apply Forall_app; (split; [assumption|]);
      (constructor; [|constructor]);
      cbn [att_class att_index att_ue att_bs pool];
      split; assumption.
  - destruct (Get (pool cfg c) (index_of c s)) as [ue|] eqn:Hget;
      cbn [final_state log_warn]; split; cbn [attached warnings];
      try assumption.
    apply Forall_app. split; [assumption|].
    constructor; [|constructor]. cbn [skip_class skip_index skip_ue skip_bs].
    split; assumption.
Qed.

Lemma run_slots_from_pools l s :
  Forall (fun x => In (snd x) (gnbNetDev cfg)) l ->
  from_pools cfg s -> from_pools cfg (final_state (run_slots cfg l s)).
Proof.
  revert s. induction l as [|[c bs] l IH]; intros s Hl Hs; [exact Hs|].
  inversion Hl as [|? ? Hbs Hl']; subst. cbn [snd] in Hbs.
  cbn [run_slots]. unfold bind.
  pose proof (slot_for_from_pools c bs s Hbs Hs) as H1.
  destruct (slot_for cfg c bs s) as [u s'|f s']; cbn [final_state] in *.
  - now apply IH.
  - exact H1.
Qed.

Lemma all_slots_stations :
  Forall (fun x => In (snd x) (gnbNetDev cfg)) (all_slots cfg).
Proof.
  apply Forall_forall. intros [c bs] Hin. unfold all_slots in Hin.
  apply in_flat_map in Hin. destruct Hin as (bs' & Hbs' & Hin).
  unfold station_slots in Hin. apply in_map_iff in Hin.
  destruct Hin as (j & Hj & _). injection Hj as _ <-. exact Hbs'.
Qed.

End SlotsFacts.

Section SlotsCount.
Import Planner Slots.
Local Open Scope attach_scope.
Variable cfg : AttachConfig.
Hypothesis call_quota : uint32 (totalUesCall cfg).
Hypothesis browse_quota : uint32 (totalUesBrowse cfg).

(** What one slot does to a state between two slots. *)
Lemma slot_for_step c0 bs s :
  inv cfg true s ->
  index_of c0 s <= quota cfg c0
  /\ match slot_for cfg c0 bs s with
     | Ok _ s' =>
         inv cfg true s'
         /\ index_of c0 s < GetN (pool cfg c0)
         /\ index_of c0 s'
            = (if index_of c0 s <? quota cfg c0
               then index_of c0 s + 1 else index_of c0 s)
         /\ (forall c, c <> c0 -> index_of c s' = index_of c s)
         /\ exists ue,
              attached s'
              = attached s
                ++ (if index_of c0 s <? quota cfg c0
                    then [mkAttachment c0 (index_of c0 s) ue bs] else [])
              /\ warnings s'
                 = warnings s
                   ++ (if index_of c0 s <? quota cfg c0
                       then [] else [mkSkipDiag c0 (index_of c0 s) ue bs])
     | Stuck _ _ => GetN (pool cfg c0) <= index_of c0 s
     end.
Proof.
  intros Hinv.
  pose proof (preserves_slot_for cfg call_quota browse_quota c0 bs s Hinv) as Hh.
  destruct Hinv as [Hc Hw]. destruct (Hc c0) as (_ & Hle & _).
  split; [lia|].
  pose proof (quota_uint32 cfg call_quota browse_quota c0) as Hq.
  revert Hh. unfold slot_for, bind, read_index, write_index, container_get.
  change (match c0 with Voice => callIndex s | Browsing => browseIndex s end)
    with (index_of c0 s).
  destruct (Z.ltb_spec (index_of c0 s) (quota cfg c0)) as [Hlt|Hge].
  - assert (Hsucc : wrap32 (index_of c0 s + 1) = index_of c0 s + 1)
      by (apply wrap32_succ with (q := quota cfg c0); [assumption|lia]).
    rewrite Hsucc.
    destruct (Get (pool cfg c0) (index_of c0 s)) as [ue|] eqn:Hget.
    + apply Get_Some_lt in Hget.
      destruct c0; cbn [AttachToGnb holds]; intros Hh;
        (split; [exact Hh|]); (split; [lia|]);
        (split; [reflexivity|]);
        (split; [intros [] Hne; try congruence; reflexivity|]);
        exists ue; cbn [attached warnings]; rewrite app_nil_r;
        split; reflexivity.
    + intros _. apply Get_None in Hget; [exact Hget|lia].
  - destruct (Get (pool cfg c0) (index_of c0 s)) as [ue|] eqn:Hget.
    + apply Get_Some_lt in Hget.
      cbn [log_warn holds]. intros Hh.
      split; [exact Hh|]. split; [lia|]. split; [reflexivity|].
      split; [reflexivity|].
      exists ue. cbn [attached warnings]. rewrite app_nil_r. split; reflexivity.
    + intros _. apply Get_None in Hget; [exact Hget|lia].
Qed.

Lemma TrafficClass_eqb_eq a b : TrafficClass_eqb a b = true <-> a = b.
Proof. destruct a, b; cbn; split; intros; congruence. Qed.

Lemma slots_left_cons c c0 bs l :
  slots_left c ((c0, bs) :: l)
  = slots_left c l + (if TrafficClass_eqb c0 c then 1 else 0).
Proof.
  unfold slots_left. rewrite stations_of_cons.
  destruct (TrafficClass_eqb c0 c); cbn [length]; lia.
Qed.

Lemma slots_left_nonneg c l : 0 <= slots_left c l.
Proof. unfold slots_left. lia. Qed.

(** The run over a list of slots reaches its end exactly when every read
    it makes is within its pool. *)
Lemma run_slots_completed l :
  forall s, inv cfg true s ->
  (forall c, index_of c s <= GetN (pool cfg c)) ->
  (completed (run_slots cfg l s) = true
   <-> forall c, safe cfg c (index_of c s) (slots_left c l)).
Proof.
  induction l as [|[c0 bs] l IH]; intros s Hinv Hpool.
  - cbn [run_slots ret completed]. split; [|reflexivity]. intros _ c.
    destruct Hinv as [Hc _]. destruct (Hc c) as (_ & Hle & _).
    specialize (Hpool c). unfold safe, slots_left. cbn [stations_of length].
    unfold stations_of; cbn. lia.
  - cbn [run_slots]. unfold bind.
    pose proof (slot_for_step c0 bs s Hinv) as Hstep.
    destruct Hstep as [Hle Hstep].
    pose proof (slots_left_nonneg c0 l) as Hnn.
    destruct (slot_for cfg c0 bs s) as [u s'|f s'].
    + destruct Hstep as (Hinv' & Hin & Hidx & Hother & _).
      assert (Hpool' : forall c, index_of c s' <= GetN (pool cfg c)).
      { intros c. destruct (TrafficClass_eqb c c0) eqn:E.
        - apply TrafficClass_eqb_eq in E. subst c. rewrite Hidx.
          destruct (index_of c0 s <? quota cfg c0); lia.
        - rewrite Hother; [apply Hpool|].
          intros ->. destruct c0; discriminate. }
      rewrite (IH s' Hinv' Hpool').
      split; intros Hsafe c; specialize (Hsafe c);
        rewrite slots_left_cons in *;
        destruct (TrafficClass_eqb c0 c) eqn:E;
        try (apply TrafficClass_eqb_eq in E; subst c;
             rewrite Hidx in *; unfold safe in *;
             destruct (Z.ltb_spec (index_of c0 s) (quota cfg c0)); lia);
        (rewrite Hother in * by (intros ->; destruct c0; discriminate));
        rewrite Z.add_0_r in *; assumption.
    + cbn [completed]. split; [discriminate|]. intros Hsafe. exfalso.
      specialize (Hsafe c0). rewrite slots_left_cons in Hsafe.
      replace (TrafficClass_eqb c0 c0) with true in Hsafe by (now destruct c0).
      unfold safe in Hsafe. lia.
Qed.

(** The state a complete run over a list of slots ends in. *)
Lemma run_slots_result l :
  forall s u s', inv cfg true s ->
  run_slots cfg l s = Ok u s' ->
  inv cfg true s'
  /\ forall c,
       index_of c s' = Z.min (quota cfg c) (index_of c s + slots_left c l)
       /\ map att_bs (attached_of c (attached s'))
          = map att_bs (attached_of c (attached s))
            ++ firstn (Z.to_nat (quota cfg c - index_of c s)) (stations_of c l)
       /\ Z.of_nat (length (warnings_of c (warnings s')))
          = Z.of_nat (length (warnings_of c (warnings s)))
            + (index_of c s + slots_left c l
               - Z.min (quota cfg c) (index_of c s + slots_left c l)).
Proof.
  induction l as [|[c0 bs] l IH]; intros s u s' Hinv Hrun.
  - cbn [run_slots ret] in Hrun. injection Hrun as _ <-.
    split; [exact Hinv|]. intros c.
    destruct Hinv as [Hc _]. destruct (Hc c) as (_ & Hle & _).
    unfold slots_left, stations_of. cbn [filter map length].
    rewrite firstn_nil, app_nil_r. repeat split; lia.
  - cbn [run_slots] in Hrun. unfold bind in Hrun.
    pose proof (slot_for_step c0 bs s Hinv) as Hstep.
    destruct Hstep as [Hle Hstep].
    destruct (slot_for cfg c0 bs s) as [v s1|f s1]; [|discriminate].
    destruct Hstep as (Hinv1 & Hin & Hidx & Hother & ue & Hatt & Hwarn).
    destruct (IH s1 u s' Hinv1 Hrun) as [Hinv' Hres].
    split; [exact Hinv'|]. intros c.
    destruct (Hres c) as (Hi & Hb & Hw).
    pose proof (slots_left_nonneg c l) as Hnn.
    rewrite slots_left_cons, stations_of_cons.
    rewrite Hatt in Hb. rewrite Hwarn in Hw.
    assert (Hself : TrafficClass_eqb c0 c0 = true) by (now destruct c0).
    destruct (Z.ltb_spec (index_of c0 s) (quota cfg c0)) as [Hlt|Hge];
      rewrite ?app_nil_r in Hb; rewrite ?app_nil_r in Hw;
      rewrite ?attached_of_snoc in Hb; rewrite ?warnings_of_snoc in Hw;
      cbn [att_class skip_class] in Hb, Hw;
      destruct (TrafficClass_eqb c0 c) eqn:E;
      rewrite ?app_nil_r in Hb; rewrite ?app_nil_r in Hw.
    + (* a device of class [c] is attached *)
      apply TrafficClass_eqb_eq in E. subst c. rewrite Hidx in Hi, Hb, Hw.
      split; [lia|]. split; [|lia].
      rewrite Hb, map_app, <- app_assoc. cbn [map app att_bs]. f_equal.
      replace (Z.to_nat (quota cfg c0 - index_of c0 s))
        with (S (Z.to_nat (quota cfg c0 - (index_of c0 s + 1)))) by lia.
      reflexivity.
    + (* a device of the other class is attached *)
      assert (Hne : c <> c0) by (intros ->; congruence).
      rewrite (Hother c Hne) in Hi, Hb, Hw.
      repeat split; try assumption; lia.
    + (* a slot of class [c] is skipped *)
      apply TrafficClass_eqb_eq in E. subst c. rewrite Hidx in Hi, Hb, Hw.
      rewrite length_app in Hw. cbn [length] in Hw.
      split; [lia|]. split; [|lia].
      rewrite Hb. f_equal.
      replace (Z.to_nat (quota cfg c0 - index_of c0 s)) with O by lia.
      now rewrite !firstn_O.
    + (* a slot of the other class is skipped *)
      assert (Hne : c <> c0) by (intros ->; congruence).
      rewrite (Hother c Hne) in Hi, Hb, Hw.
      repeat split; try assumption; lia.
Qed.

End SlotsCount.

Section SlotCounting.
Import Planner Slots.

Lemma slots_left_app c l1 l2 :
  slots_left c (l1 ++ l2) = slots_left c l1 + slots_left c l2.
Proof.
  unfold slots_left, stations_of.
  rewrite filter_app, map_app, length_app. lia.
Qed.

Lemma slot_class_nat (n : nat) :
  slot_class (Z.of_nat n) = if Nat.even n then Voice else Browsing.
Proof. unfold slot_class. now rewrite even_index. Qed.

Lemma slots_left_prefix c bs (n : nat) :
  slots_left c (map (fun j => (slot_class (Z.of_nat j), bs)) (seq 0 n))
  = slots_per_station c (Z.of_nat n).
Proof.
  induction n as [|n IH]; [now destruct c|].
  rewrite seq_S, map_app, slots_left_app, IH. cbn [map Nat.add].
  rewrite slots_left_cons. unfold slot_class, slots_per_station.
  change (slots_left c []) with 0.
  rewrite Nat2Z.inj_succ.
  destruct (Z.eqb_spec (Z.of_nat n mod 2) 0) as [E|E];
    destruct c; cbn [TrafficClass_eqb];
    Z.div_mod_to_equations; lia.
Qed.

Lemma slots_left_station c k bs :
  0 <= k -> slots_left c (station_slots k bs) = slots_per_station c k.
Proof.
  intros Hk. unfold station_slots. rewrite slots_left_prefix.
  now rewrite Z2Nat.id.
Qed.

Lemma slots_left_flat c k (gnbs : list NetDevice) :
  0 <= k ->
  slots_left c (flat_map (station_slots k) gnbs)
  = GetN gnbs * slots_per_station c k.
Proof.
  intros Hk. unfold GetN.
  induction gnbs as [|bs gnbs IH]; [reflexivity|].
  cbn [flat_map length]. rewrite slots_left_app, IH, slots_left_station by lia.
  lia.
Qed.

Lemma slots_left_all cfg c :
  0 <= numUePerGnb cfg -> slots_left c (all_slots cfg) = slot_count cfg c.
Proof. intros Hk. unfold all_slots, slot_count. now apply slots_left_flat. Qed.

Lemma stations_of_app c l1 l2 :
  stations_of c (l1 ++ l2) = stations_of c l1 ++ stations_of c l2.
Proof. unfold stations_of. now rewrite filter_app, map_app. Qed.

Lemma stations_of_constant c bs l :
  Forall (fun x => snd x = bs) l ->
  stations_of c l = repeat bs (length (stations_of c l)).
Proof.
  induction l as [|[c0 b] l IH]; intros Hl; [reflexivity|].
  inversion Hl as [|? ? Hb Hl']; cbn [snd] in Hb; subst.
  rewrite stations_of_cons. destruct (TrafficClass_eqb c0 c).
  - cbn [length repeat]. f_equal. now apply IH.
  - now apply IH.
Qed.

Lemma stations_of_station c k bs :
  0 <= k ->
  stations_of c (station_slots k bs)
  = repeat bs (Z.to_nat (slots_per_station c k)).
Proof.
  intros Hk. rewrite (stations_of_constant c bs).
  - f_equal. pose proof (slots_left_station c k bs Hk) as H.
    unfold slots_left in H. lia.
  - unfold station_slots. apply Forall_forall. intros x Hx.
    apply in_map_iff in Hx. destruct Hx as (j & <- & _). reflexivity.
Qed.

(** The base stations of the slots of a class: every base station, in
    order, as many times as it has slots of the class. *)
Lemma class_slots_closed cfg c :
  0 <= numUePerGnb cfg ->
  class_slots cfg c
  = flat_map (fun bs => repeat bs (Z.to_nat (slots_per_station c (numUePerGnb cfg))))
      (gnbNetDev cfg).
Proof.
  intros Hk. unfold class_slots, all_slots.
  induction (gnbNetDev cfg) as [|bs gnbs IH]; [reflexivity|].
  cbn [flat_map]. rewrite stations_of_app, IH, stations_of_station by assumption.
  reflexivity.
Qed.

(** A list whose indices are [0; ...; n-1] and whose elements are those
    of a container at these indices lists the first [n] elements. *)
Lemma elements_at_indices {A B : Type} (f : A -> Z) (g : A -> B)
    (pool : list B) (l : list A) :
  forall n,
    map f l = zseq n ->
    Forall (fun a => Get pool (f a) = Some (g a)) l ->
    map g l = firstn n pool.
Proof.
  induction l as [|a l IH] using rev_ind; intros n Hidx Hall.
  - destruct n; [reflexivity|].
    apply (f_equal (@length Z)) in Hidx. rewrite length_zseq in Hidx.
    discriminate.
  - destruct n as [|n].
    { apply (f_equal (@length Z)) in Hidx.
      rewrite length_map, length_app, length_zseq in Hidx. cbn in Hidx. lia. }
    rewrite map_app, zseq_snoc in Hidx. cbn [map] in Hidx.
    apply app_inj_tail in Hidx. destruct Hidx as [Hidx Ha].
    apply Forall_app in Hall. destruct Hall as [Hall Hlast].
    inversion Hlast as [|? ? Hget _]; subst.
    rewrite Ha, Get_nat in Hget.
    rewrite map_app, (IH n Hidx Hall). cbn [map].
    symmetry. now apply firstn_succ_nth.
Qed.

End SlotCounting.

(** The state a complete run of the attachment loop ends in. *)
Lemma run_attachment_result (cfg : Planner.AttachConfig) :
  uint32 (Planner.totalUesCall cfg) ->
  uint32 (Planner.totalUesBrowse cfg) ->
  uint16 (Planner.numUePerGnb cfg) ->
  Planner.completed (Planner.run_attachment cfg) = true ->
  let s := Planner.final_state (Planner.run_attachment cfg) in
  Planner.inv cfg true s
  /\ forall c,
       Planner.index_of c s
       = Z.min (Planner.quota cfg c) (Slots.slot_count cfg c)
       /\ map Planner.att_bs (Planner.attached_of c (Planner.attached s))
          = firstn (Z.to_nat (Planner.quota cfg c)) (Slots.class_slots cfg c)
       /\ Z.of_nat (length (Slots.warnings_of c (Planner.warnings s)))
          = Slots.slot_count cfg c
            - Z.min (Planner.quota cfg c) (Slots.slot_count cfg c).
Proof.
  intros Hv Hb Hk Hdone. unfold Planner.run_attachment in *.
  rewrite attach_loop_slots in *.
  destruct (Slots.run_slots cfg (Slots.all_slots cfg) Planner.initial_state)
    as [u s'|f s'] eqn:Hrun; [|discriminate].
  cbn [Planner.final_state].
  destruct (run_slots_result cfg Hv Hb _ _ _ _ (inv_initial cfg Hv Hb) Hrun)
    as [Hinv Hres].
  split; [exact Hinv|]. intros c. destruct (Hres c) as (Hi & Hs & Hw).
  unfold uint16, in_range in Hk.
  rewrite slots_left_all in Hi, Hw by lia.
  assert (H0 : Planner.index_of c Planner.initial_state = 0) by (now destruct c).
  rewrite H0 in Hi, Hs, Hw. cbn [Planner.attached Planner.warnings
    Planner.initial_state Planner.attached_of Slots.warnings_of filter map
    length app] in Hs, Hw.
  rewrite Z.sub_0_r in Hs. rewrite Z.add_0_l in Hi, Hw.
  split; [exact Hi|]. split; [exact Hs|]. lia.
Qed.

(** X1. Every call of [AttachToGnb] attaches the device found at the
    recorded index of the pool of its class to a base station of
    [gnbNetDev], and every warning of a skipped slot names the pool
    device at the index it read, whatever the configuration and also when
    the loop stops at a read past the end of a pool. *)
Theorem attachment_devices_from_pools (cfg : Planner.AttachConfig) :
  let s := Planner.final_state (Planner.run_attachment cfg) in
  Forall (fun a =>
            Get (Planner.pool cfg (Planner.att_class a)) (Planner.att_index a)
            = Some (Planner.att_ue a)
            /\ In (Planner.att_bs a) (Planner.gnbNetDev cfg))
    (Planner.attached s)
  /\ Forall (fun w =>
               Get (Planner.pool cfg (Planner.skip_class w)) (Planner.skip_index w)
               = Some (Planner.skip_ue w)
               /\ In (Planner.skip_bs w) (Planner.gnbNetDev cfg))
       (Planner.warnings s).
Proof.
  cbn zeta. unfold Planner.run_attachment. rewrite attach_loop_slots.
  apply (run_slots_from_pools cfg); [apply all_slots_stations|].
  split; constructor.
Qed.

(** X2. The attachment loop runs to its end without reading a pool past
    its end exactly when, for each class, the number of devices it
    attaches (the smaller of the quota and of the number of slots of the
    class, which is the number of base stations times [ceil(k/2)] for
    voice and [floor(k/2)] for browsing, [k] slots per station) is at
    most the size of the pool and, when the slots outnumber the quota,
    the quota is below the size of the pool. *)
Theorem attachment_completes_iff (cfg : Planner.AttachConfig) :
  uint32 (Planner.totalUesCall cfg) ->
  uint32 (Planner.totalUesBrowse cfg) ->
  uint16 (Planner.numUePerGnb cfg) ->
  (Planner.completed (Planner.run_attachment cfg) = true
   <-> forall c,
         Z.min (Planner.quota cfg c) (Slots.slot_count cfg c)
         <= GetN (Planner.pool cfg c)
         /\ (Planner.quota cfg c < Slots.slot_count cfg c ->
             Planner.quota cfg c < GetN (Planner.pool cfg c))).
Proof.
  intros Hv Hb Hk. unfold Planner.run_attachment.
  rewrite attach_loop_slots.
  rewrite (run_slots_completed cfg Hv Hb _ _ (inv_initial cfg Hv Hb)).
  - unfold uint16, in_range in Hk.
    split; intros H c; specialize (H c); unfold Slots.safe in *;
      rewrite slots_left_all in * by lia;
      replace (Planner.index_of c Planner.initial_state) with 0 in *
        by (now destruct c);
      rewrite Z.add_0_l in *; exact H.
  - intros c. unfold GetN. destruct c; cbn; lia.
Qed.

(** Three base stations with three slots each, pools of five and four
    devices, quotas 4 and 2: six voice and three browsing slots, every
    read within its pool. *)
Lemma attachment_completes_odd_slots :
  uint32 (Planner.totalUesCall Slots.odd_slots_config)
  /\ uint32 (Planner.totalUesBrowse Slots.odd_slots_config)
  /\ uint16 (Planner.numUePerGnb Slots.odd_slots_config)
  /\ Planner.completed (Planner.run_attachment Slots.odd_slots_config) = true.
Proof.
  split; [solve_range|]. split; [solve_range|]. split; [solve_range|].
  apply (attachment_completes_iff Slots.odd_slots_config);
    [solve_range|solve_range|solve_range|].
  intros c. destruct c; cbv; split; intros; congruence.
Defined.

(** X3. When the attachment loop runs to its end, each class has attached
    exactly [min(quota, slots)] devices, its running index stands at that
    number, and the remaining [slots - min(quota, slots)] slots of the
    class were skipped with a warning; [slots] is the number of base
    stations times [ceil(k/2)] for voice and [floor(k/2)] for browsing. *)
Theorem attachment_counts (cfg : Planner.AttachConfig) :
  uint32 (Planner.totalUesCall cfg) ->
  uint32 (Planner.totalUesBrowse cfg) ->
  uint16 (Planner.numUePerGnb cfg) ->
  Planner.completed (Planner.run_attachment cfg) = true ->
  let s := Planner.final_state (Planner.run_attachment cfg) in
  forall c,
    let n := Z.min (Planner.quota cfg c) (Slots.slot_count cfg c) in
    Planner.index_of c s = n
    /\ Z.of_nat (length (Planner.attached_of c (Planner.attached s))) = n
    /\ Z.of_nat (length (Slots.warnings_of c (Planner.warnings s)))
       = Slots.slot_count cfg c - n.
Proof.
  intros Hv Hb Hk Hdone s c n.
  destruct (run_attachment_result cfg Hv Hb Hk Hdone) as [[Hinv _] Hres].
  fold s in Hinv, Hres. destruct (Hres c) as (Hi & _ & Hw).
  split; [exact Hi|]. split; [|exact Hw].
  destruct (Hinv c) as (_ & _ & Hstrong). specialize (Hstrong eq_refl).
  unfold Planner.attached_indices in Hstrong. rewrite length_map in Hstrong.
  subst n. lia.
Qed.

(** The configuration written in [main]: two voice and three browsing
    devices attached, one voice slot skipped. *)
Lemma attachment_counts_builtin :
  uint32 (Planner.totalUesCall Planner.builtin_config)
  /\ uint32 (Planner.totalUesBrowse Planner.builtin_config)
  /\ uint16 (Planner.numUePerGnb Planner.builtin_config)
  /\ Planner.completed (Planner.run_attachment Planner.builtin_config) = true
  /\ (let s := Planner.final_state (Planner.run_attachment Planner.builtin_config) in
      Z.of_nat (length (Planner.attached_of Voice (Planner.attached s))) = 2
      /\ Z.of_nat (length (Planner.attached_of Browsing (Planner.attached s))) = 3
      /\ Z.of_nat (length (Slots.warnings_of Voice (Planner.warnings s))) = 1).
Proof.
  split; [solve_range|]. split; [solve_range|]. split; [solve_range|].
  split; [reflexivity|].
  pose proof (attachment_counts Planner.builtin_config
                ltac:(solve_range) ltac:(solve_range) ltac:(solve_range)
                eq_refl) as H.
  cbn zeta in H.
  exact (conj (proj1 (proj2 (H Voice)))
           (conj (proj1 (proj2 (H Browsing))) (proj2 (proj2 (H Voice))))).
Defined.

(** X4. When the attachment loop runs to its end, the devices attached of
    a class are the first [min(quota, slots)] devices of its pool, in pool
    order, with pool indices 0, 1, ...; the k-th of them is attached to
    the base station that owns the k-th slot of the class, the base
    stations being taken in container order, each as many times as it has
    slots of the class. *)
Theorem attachment_stations (cfg : Planner.AttachConfig) :
  uint32 (Planner.totalUesCall cfg) ->
  uint32 (Planner.totalUesBrowse cfg) ->
  uint16 (Planner.numUePerGnb cfg) ->
  Planner.completed (Planner.run_attachment cfg) = true ->
  let s := Planner.final_state (Planner.run_attachment cfg) in
  forall c,
    let n := Z.to_nat (Z.min (Planner.quota cfg c) (Slots.slot_count cfg c)) in
    Planner.attached_indices c (Planner.attached s) = Planner.zseq n
    /\ map Planner.att_ue (Planner.attached_of c (Planner.attached s))
       = firstn n (Planner.pool cfg c)
    /\ map Planner.att_bs (Planner.attached_of c (Planner.attached s))
       = firstn (Z.to_nat (Planner.quota cfg c))
           (flat_map
              (fun bs => repeat bs
                 (Z.to_nat (Slots.slots_per_station c (Planner.numUePerGnb cfg))))
              (Planner.gnbNetDev cfg)).
Proof.
  intros Hv Hb Hk Hdone s c n.
  destruct (run_attachment_result cfg Hv Hb Hk Hdone) as [[Hinv _] Hres].
  fold s in Hinv, Hres. destruct (Hres c) as (Hi & Hs & _).
  destruct (Hinv c) as (Hseq & _ & Hstrong). specialize (Hstrong eq_refl).
  assert (Hn : length (Planner.attached_indices c (Planner.attached s)) = n)
    by (subst n; lia).
  rewrite Hn in Hseq.
  split; [exact Hseq|]. split.
  - apply (elements_at_indices Planner.att_index); [exact Hseq|].
    assert (Hpools : Slots.from_pools cfg s).
    { subst s. unfold Planner.run_attachment. rewrite attach_loop_slots.
      apply (run_slots_from_pools cfg); [apply all_slots_stations|].
      split; constructor. }
    destruct Hpools as [Hatt _]. rewrite Forall_forall in Hatt.
    apply Forall_forall. intros a Ha. unfold Planner.attached_of in Ha.
    apply filter_In in Ha. destruct Ha as [Ha Hc].
    apply TrafficClass_eqb_eq in Hc. subst c. apply (Hatt a Ha).
  - rewrite Hs. unfold uint16, in_range in Hk.
    now rewrite class_slots_closed by lia.
Qed.

(** Three base stations with three slots each, quotas 4 and 2: the voice
    devices 3, 5, 7, 9 go to the base stations 0, 0, 1, 1 and the browsing
    devices 4, 6 to the base stations 0, 1. *)
Lemma attachment_stations_odd_slots :
  uint32 (Planner.totalUesCall Slots.odd_slots_config)
  /\ uint32 (Planner.totalUesBrowse Slots.odd_slots_config)
  /\ uint16 (Planner.numUePerGnb Slots.odd_slots_config)
  /\ Planner.completed (Planner.run_attachment Slots.odd_slots_config) = true
  /\ (let s := Planner.final_state (Planner.run_attachment Slots.odd_slots_config) in
      map Planner.att_ue (Planner.attached_of Voice (Planner.attached s))
      = [3; 5; 7; 9]
      /\ map Planner.att_bs (Planner.attached_of Voice (Planner.attached s))
         = [0; 0; 1; 1]
      /\ map Planner.att_ue (Planner.attached_of Browsing (Planner.attached s))
         = [4; 6]
      /\ map Planner.att_bs (Planner.attached_of Browsing (Planner.attached s))
         = [0; 1]).
Proof.
  split; [solve_range|]. split; [solve_range|]. split; [solve_range|].
  split; [reflexivity|].
  pose proof (attachment_stations Slots.odd_slots_config
                ltac:(solve_range) ltac:(solve_range) ltac:(solve_range)
                eq_refl) as H.
  cbn zeta in H.
  destruct (H Voice) as (_ & Hvu & Hvb). destruct (H Browsing) as (_ & Hbu & Hbb).
  exact (conj Hvu (conj Hvb (conj Hbu Hbb))).
Defined.

(** X5. When the attachment loop runs to its end, the final check warns
    that some voice devices were not assigned exactly when the voice
    slots are fewer than the voice quota, and likewise for browsing: the
    warnings compare the running index with the quota, not with the size
    of the pool, so devices of a pool beyond the quota are not reported
    there. *)
Theorem final_check_warnings (cfg : Planner.AttachConfig) :
  uint32 (Planner.totalUesCall cfg) ->
  uint32 (Planner.totalUesBrowse cfg) ->
  uint16 (Planner.numUePerGnb cfg) ->
  Planner.completed (Planner.run_attachment cfg) = true ->
  let s := Planner.final_state (Planner.run_attachment cfg) in
  Planner.some_voice_unassigned cfg s
  = (Slots.slot_count cfg Voice <? Planner.totalUesCall cfg)
  /\ Planner.some_browsing_unassigned cfg s
     = (Slots.slot_count cfg Browsing <? Planner.totalUesBrowse cfg).
Proof.
  intros Hv Hb Hk Hdone s.
  destruct (run_attachment_result cfg Hv Hb Hk Hdone) as [_ Hres].
  fold s in Hres.
  destruct (Hres Voice) as (Hiv & _). destruct (Hres Browsing) as (Hib & _).
  unfold Planner.some_voice_unassigned, Planner.some_browsing_unassigned.
  cbn [Planner.index_of Planner.quota] in Hiv, Hib. rewrite Hiv, Hib.
  split.
  - destruct (Z.ltb_spec (Slots.slot_count cfg Voice) (Planner.totalUesCall cfg));
      [apply Z.ltb_lt|apply Z.ltb_ge]; lia.
  - destruct (Z.ltb_spec (Slots.slot_count cfg Browsing) (Planner.totalUesBrowse cfg));
      [apply Z.ltb_lt|apply Z.ltb_ge]; lia.
Qed.

(** In the configuration written in [main] neither final warning is
    logged, although the third voice device is attached nowhere. *)
Lemma final_check_warnings_builtin :
  uint32 (Planner.totalUesCall Planner.builtin_config)
  /\ uint32 (Planner.totalUesBrowse Planner.builtin_config)
  /\ uint16 (Planner.numUePerGnb Planner.builtin_config)
  /\ Planner.completed (Planner.run_attachment Planner.builtin_config) = true
  /\ (let s := Planner.final_state (Planner.run_attachment Planner.builtin_config) in
      Planner.some_voice_unassigned Planner.builtin_config s = false
      /\ Planner.some_browsing_unassigned Planner.builtin_config s = false).
Proof.
  split; [solve_range|]. split; [solve_range|]. split; [solve_range|].
  split; [reflexivity|].
  exact (final_check_warnings Planner.builtin_config
           ltac:(solve_range) ltac:(solve_range) ltac:(solve_range) eq_refl).
Defined.

(** ** The distribution loop and the checks around it *)

Lemma distribute_sizes (userTerminals : list Assigner.Node) :
  let st := Assigner.distribute userTerminals in
  GetN (Assigner.uePhoneCallContainer st) + GetN (Assigner.ueBrowsingWebContainer st)
  = GetN userTerminals
  /\ GetN (Assigner.ueBrowsingWebContainer st)
     <= GetN (Assigner.uePhoneCallContainer st)
     <= GetN (Assigner.ueBrowsingWebContainer st) + 1.
Proof.
  cbn zeta.
  destruct (distribute_prefix userTerminals (length userTerminals) (le_n _))
    as [Hv Hb].
  rewrite firstn_all in Hv, Hb. unfold Assigner.distribute. rewrite Hv, Hb.
  pose proof (length_evens_odds userTerminals). unfold GetN. lia.
Qed.

(** Six user terminals: the counters are 3 and 3. *)
Lemma distribute_counters_builtin :
  uint32 (GetN Planner.builtin_userTerminals)
  /\ Assigner.ueCountForVoice (Assigner.distribute Planner.builtin_userTerminals) = 3
  /\ Assigner.ueCountForBrowsing (Assigner.distribute Planner.builtin_userTerminals) = 3.
Proof.
  split; [solve_range|].
  exact (distribute_counters Planner.builtin_userTerminals ltac:(solve_range)).
Defined.

(** X6. The two checks after the distribution loop (at least 2 voice and
    at least 3 browsing user terminals) abort exactly when there are
    fewer than 6 user terminals; the voice check alone never decides,
    since fewer than 2 voice terminals means at most 2 terminals in all. *)
Theorem pools_abort_below_six (userTerminals : list Assigner.Node) :
  let st := Assigner.distribute userTerminals in
  Assigner.pools_abort st = (GetN userTerminals <? 6)
  /\ ((GetN (Assigner.uePhoneCallContainer st) <? 2) = true ->
      (GetN (Assigner.ueBrowsingWebContainer st) <? 3) = true).
Proof.
  cbn zeta. pose proof (distribute_sizes userTerminals) as [Hsum Hbal].
  unfold Assigner.pools_abort. split.
  - destruct (Z.ltb_spec (GetN (Assigner.uePhoneCallContainer
                                  (Assigner.distribute userTerminals))) 2);
      destruct (Z.ltb_spec (GetN (Assigner.ueBrowsingWebContainer
                                    (Assigner.distribute userTerminals))) 3);
      destruct (Z.ltb_spec (GetN userTerminals) 6); cbn [orb];
      try reflexivity; lia.
  - intros H. apply Z.ltb_lt in H. apply Z.ltb_lt. lia.
Qed.

(** X7. The distribution loop loses and duplicates no user terminal: the
    voice container followed by the browsing container is a permutation
    of the input. *)
Theorem distribute_partition (userTerminals : list Assigner.Node) :
  let st := Assigner.distribute userTerminals in
  Permutation
    (Assigner.uePhoneCallContainer st ++ Assigner.ueBrowsingWebContainer st)
    userTerminals.
Proof.
  cbn zeta.
  destruct (distribute_prefix userTerminals (length userTerminals) (le_n _))
    as [Hv Hb].
  rewrite firstn_all in Hv, Hb. unfold Assigner.distribute. rewrite Hv, Hb.
  clear Hv Hb. induction userTerminals as [|a l IH]; [constructor|].
  cbn [Assigner.evens Assigner.odds app]. constructor.
  apply Permutation_trans with (l' := Assigner.evens l ++ Assigner.odds l);
    [apply Permutation_app_comm|exact IH].
Qed.

(** X9. The start-up checks and the two checks after the distribution
    loop together let a scenario through exactly when the carrier
    frequencies differ, there are at least 2 base stations and at least 6
    user terminals: a scenario of 5 user terminals passes the start-up
    check on [numTotalUe] and aborts after the distribution. *)
Theorem scenario_accepted_iff
    (p : Validation.ScenarioParams xdouble)
    (userTerminals : list Assigner.Node) :
  GetN userTerminals = Validation.numTotalUe p ->
  Validation.aborts p
  || Assigner.pools_abort (Assigner.distribute userTerminals)
  = deqb (Validation.centralFrequencyBand1 p) (Validation.centralFrequencyBand2 p)
    || (Validation.numGnb p <? 2)
    || (Validation.numTotalUe p <? 6).
Proof.
  intros HN. rewrite startup_checks_abort_iff.
  pose proof (distribute_sizes userTerminals) as [Hsum Hbal].
  unfold Assigner.pools_abort. rewrite <- HN.
  destruct (deqb _ _); [reflexivity|]. cbn [orb].
  destruct (Z.ltb_spec (GetN userTerminals) 5);
    destruct (Z.ltb_spec (Validation.numGnb p) 2);
    destruct (Z.ltb_spec (GetN (Assigner.uePhoneCallContainer
                                  (Assigner.distribute userTerminals))) 2);
    destruct (Z.ltb_spec (GetN (Assigner.ueBrowsingWebContainer
                                  (Assigner.distribute userTerminals))) 3);
    destruct (Z.ltb_spec (GetN userTerminals) 6); cbn [orb];
    try reflexivity; lia.
Qed.

(** Five base stations with one user terminal each pass the start-up
    checks and abort after the distribution. *)
Lemma scenario_of_five_rejected :
  GetN [5; 6; 7; 8; 9] = Validation.numTotalUe (D := xdouble) Validation.five_ue_params
  /\ Validation.aborts (D := xdouble) Validation.five_ue_params = false
  /\ Assigner.pools_abort (Assigner.distribute [5; 6; 7; 8; 9]) = true.
Proof.
  split; [reflexivity|]. split; [reflexivity|].
  pose proof (scenario_accepted_iff Validation.five_ue_params [5; 6; 7; 8; 9]
                eq_refl) as H.
  exact H.
Defined.

(** ** What the power loop writes *)

Section ConfigureFacts.
Import Power.
Variable cfg : PowerConfig.

Lemma configure_body_Numerology k t i b :
  Numerology (configure_body cfg k t i b)
  = if (i =? k) && (b =? 0) then numerologyBwp1 cfg
    else if (i =? k) && (b =? 1) then numerologyBwp2 cfg
    else Numerology (t i b).
Proof.
  unfold configure_body, update.
  destruct (Z.eqb_spec i k), (Z.eqb_spec b 0), (Z.eqb_spec b 1),
    (Z.eqb_spec i 0); subst; cbn; try reflexivity; lia.
Qed.

Lemma configure_body_TxPower k t i b :
  TxPower (configure_body cfg k t i b)
  = if ((i =? k) && (b =? 1)) || ((i =? 0) && (b =? 0)) then txPower cfg
    else TxPower (t i b).
Proof.
  unfold configure_body, update.
  destruct (Z.eqb_spec i k), (Z.eqb_spec b 0), (Z.eqb_spec b 1),
    (Z.eqb_spec i 0); subst; cbn; try reflexivity; lia.
Qed.

End ConfigureFacts.

(** X10. After the loop over [n] base stations the numerology of
    bandwidth part 0 is [numerologyBwp1] and that of bandwidth part 1 is
    [numerologyBwp2] on each of the [n] stations, and no other numerology
    is changed. *)
Theorem configure_numerology (cfg : Power.PowerConfig) (n : nat)
    (t : Power.PhyTable) (i b : Z) :
  Power.Numerology (Power.configure cfg n t i b)
  = if (0 <=? i) && (i <? Z.of_nat n) && (b =? 0) then Power.numerologyBwp1 cfg
    else if (0 <=? i) && (i <? Z.of_nat n) && (b =? 1) then Power.numerologyBwp2 cfg
    else Power.Numerology (t i b).
Proof.
  unfold Power.configure. induction n as [|k IH].
  - cbn [for_loop]. destruct (Z.leb_spec 0 i), (Z.ltb_spec i (Z.of_nat 0));
      cbn [andb]; try reflexivity; lia.
  - cbn [for_loop]. rewrite configure_body_Numerology, IH.
    destruct (Z.eqb_spec i (Z.of_nat k)), (Z.eqb_spec b 0), (Z.eqb_spec b 1),
      (Z.leb_spec 0 i), (Z.ltb_spec i (Z.of_nat k)),
      (Z.ltb_spec i (Z.of_nat (S k)));
      cbn [andb]; try reflexivity; lia.
Qed.

(** X11. After the loop over [n] base stations the transmit power is the
    one value [txPower], computed from the bandwidth of band 1, on
    bandwidth part 1 of each of the [n] stations and, when there is at
    least one station, on bandwidth part 0 of the first station; every
    other transmit power is as before the loop. *)
Theorem configure_txpower (cfg : Power.PowerConfig) (n : nat)
    (t : Power.PhyTable) (i b : Z) :
  Power.TxPower (Power.configure cfg n t i b)
  = if ((0 <=? i) && (i <? Z.of_nat n) && (b =? 1))
       || ((i =? 0) && (b =? 0) && (0 <? Z.of_nat n))
    then Power.txPower cfg
    else Power.TxPower (t i b).
Proof.
  unfold Power.configure. induction n as [|k IH].
  - cbn [for_loop]. destruct (Z.leb_spec 0 i), (Z.ltb_spec i (Z.of_nat 0)),
      (Z.eqb_spec i 0), (Z.eqb_spec b 0), (Z.eqb_spec b 1);
      cbn; try reflexivity; lia.
  - cbn [for_loop]. rewrite configure_body_TxPower, IH.
    destruct (Z.eqb_spec i (Z.of_nat k)), (Z.eqb_spec b 0), (Z.eqb_spec b 1),
      (Z.eqb_spec i 0),
      (Z.leb_spec 0 i), (Z.ltb_spec i (Z.of_nat k)),
      (Z.ltb_spec i (Z.of_nat (S k))), (Z.ltb_spec 0 (Z.of_nat k)),
      (Z.ltb_spec 0 (Z.of_nat (S k)));
      cbn [andb orb]; try reflexivity; lia.
Qed.

Lemma pow10_log10 (y : R) : (0 < y)%R -> Power.pow10 (Power.log10 y) = y.
Proof.
  intros Hy. unfold Power.pow10, Power.log10, Rpower.
  pose proof ln10_pos as H10.
  replace (ln y / ln 10 * ln 10)%R with (ln y) by (field; lra).
  now apply exp_ln.
Qed.

(** X12. With positive bandwidths the power computed by the loop is, back
    in the linear domain, the share of band 1 in the total bandwidth times
    the linear budget [x = 10^(P/10)]; since the loop writes it on both
    bandwidth parts of the first station, the two linear powers written
    there add up to at most the budget exactly when band 1 is not wider
    than band 2. *)
Theorem txPower_linear_share (cfg : Power.PowerConfig) (n : nat)
    (t : Power.PhyTable) :
  (0 < Power.bandwidthBand1 cfg)%R ->
  (0 < Power.bandwidthBand2 cfg)%R ->
  (0 < n)%nat ->
  let final := Power.configure cfg n t in
  (Power.pow10 (Power.txPower cfg / 10)
   = Power.bandwidthBand1 cfg
     / (Power.bandwidthBand1 cfg + Power.bandwidthBand2 cfg)
     * Power.pow10 (Power.totalTxPower cfg / 10))%R
  /\ ((Power.pow10 (Power.TxPower (final 0%Z 0%Z) / 10)
       + Power.pow10 (Power.TxPower (final 0%Z 1%Z) / 10)
       <= Power.pow10 (Power.totalTxPower cfg / 10))%R
      <-> (Power.bandwidthBand1 cfg <= Power.bandwidthBand2 cfg)%R).
Proof.
  intros H1 H2 Hn final. subst final.
  pose proof (pow10_pos (Power.totalTxPower cfg / 10)) as Hx.
  assert (Hlin : (Power.pow10 (Power.txPower cfg / 10)
                  = Power.bandwidthBand1 cfg
                    / (Power.bandwidthBand1 cfg + Power.bandwidthBand2 cfg)
                    * Power.pow10 (Power.totalTxPower cfg / 10))%R).
  { unfold Power.txPower, Power.x, Power.totalBandwidth.
    match goal with
    | |- (Power.pow10 (10 * Power.log10 ?y / 10) = _)%R =>
        replace (10 * Power.log10 y / 10)%R with (Power.log10 y) by field;
        apply pow10_log10
    end.
    apply Rmult_lt_0_compat; [|exact Hx].
    apply Rdiv_lt_0_compat; lra. }
  split; [exact Hlin|].
  rewrite (configure_station0_bwp0 cfg n t Hn).
  pose proof (configure_bwp1 cfg n t 0 Hn) as Hb1.
  change (Z.of_nat 0) with 0 in Hb1. rewrite Hb1, Hlin.
  set (b1 := Power.bandwidthBand1 cfg) in *.
  set (b2 := Power.bandwidthBand2 cfg) in *.
  set (y := Power.pow10 (Power.totalTxPower cfg / 10)) in *.
  assert (Hsum : (b1 / (b1 + b2) * y + b1 / (b1 + b2) * y - y
                  = y * (b1 - b2) / (b1 + b2))%R) by (field; lra).
  assert (Hpos : (0 < y / (b1 + b2))%R) by (apply Rdiv_lt_0_compat; lra).
  replace (y * (b1 - b2) / (b1 + b2))%R
    with ((y / (b1 + b2)) * (b1 - b2))%R in Hsum by (field; lra).
  split; intros H.
  - destruct (Rle_or_lt b1 b2) as [Hle|Hlt]; [exact Hle|].
    assert (0 < y / (b1 + b2) * (b1 - b2))%R
      by (apply Rmult_lt_0_compat; lra).
    lra.
  - assert (y / (b1 + b2) * (b1 - b2) <= 0)%R.
    { replace 0%R with (y / (b1 + b2) * 0)%R by ring.
      apply Rmult_le_compat_l; lra. }
    lra.
Qed.

(** With the values of [main] the two linear powers add up to the
    budget. *)
Lemma txPower_linear_share_builtin :
  (0 < Power.bandwidthBand1 Power.builtin_power)%R
  /\ (0 < Power.bandwidthBand2 Power.builtin_power)%R
  /\ (0 < 3)%nat
  /\ (let final := Power.configure Power.builtin_power 3 Power.installed_phy in
      (Power.pow10 (Power.TxPower (final 0%Z 0%Z) / 10)
       + Power.pow10 (Power.TxPower (final 0%Z 1%Z) / 10)
       <= Power.pow10 (Power.totalTxPower Power.builtin_power / 10))%R).
Proof.
  assert (H1 : (0 < Power.bandwidthBand1 Power.builtin_power)%R) by (cbn; lra).
  assert (H2 : (0 < Power.bandwidthBand2 Power.builtin_power)%R) by (cbn; lra).
  split; [exact H1|]. split; [exact H2|]. split; [lia|].
  apply (txPower_linear_share Power.builtin_power 3 Power.installed_phy H1 H2
           ltac:(lia)).
  cbn. lra.
Defined.

(** X13. With two bands of the same positive width the power computed by
    the loop is the budget less [10 * log10(2)] dBm, half of the linear
    budget, and it is the power the allocation rule of the specification
    gives to either partition: the use of the bandwidth of band 1 for
    both does not show. *)
Theorem equal_bands_txPower (cfg : Power.PowerConfig) :
  (0 < Power.bandwidthBand1 cfg)%R ->
  Power.bandwidthBand2 cfg = Power.bandwidthBand1 cfg ->
  (Power.txPower cfg = Power.totalTxPower cfg - 10 * Power.log10 2)%R
  /\ Power.txPower cfg = Power.spec_power_dBm cfg 0
  /\ Power.txPower cfg = Power.spec_power_dBm cfg 1.
Proof.
  intros H1 H2. split; [|split].
  - unfold Power.txPower, Power.x, Power.totalBandwidth. rewrite H2.
    replace (Power.bandwidthBand1 cfg
             / (Power.bandwidthBand1 cfg + Power.bandwidthBand1 cfg))%R
      with (1 / 2)%R by (field; lra).
    rewrite log10_mult; [|lra|apply pow10_pos].
    rewrite log10_pow10, log10_div, log10_1 by lra. field.
  - reflexivity.
  - unfold Power.txPower, Power.spec_power_dBm, Power.bandwidth, Power.x.
    cbn [Z.eqb]. now rewrite H2.
Qed.

(** The values written in [main]: 35 dBm less [10 * log10(2)]. *)
Lemma equal_bands_txPower_builtin :
  (0 < Power.bandwidthBand1 Power.builtin_power)%R
  /\ Power.bandwidthBand2 Power.builtin_power
     = Power.bandwidthBand1 Power.builtin_power
  /\ (Power.txPower Power.builtin_power = 35 - 10 * Power.log10 2)%R.
Proof.
  assert (H1 : (0 < Power.bandwidthBand1 Power.builtin_power)%R) by (cbn; lra).
  split; [exact H1|]. split; [reflexivity|].
  exact (proj1 (equal_bands_txPower Power.builtin_power H1 eq_refl)).
Defined.

(** ** Reports without special values *)

Section FiniteFacts.
Import Stats Finite.

Lemma finite_ofZ z : xis_finite (dofZ z) = true.
Proof. reflexivity. Qed.

Lemma nonzero_ofZ z : z <> 0 -> nonzero (dofZ z) = true.
Proof.
  intros Hz. cbn. unfold q_zero. cbn [Qnum].
  now destruct (Z.eqb_spec z 0).
Qed.

Lemma finite_add a b :
  xis_finite a = true -> xis_finite b = true -> xis_finite (dadd a b) = true.
Proof. destruct a, b; try discriminate. reflexivity. Qed.

Lemma finite_mul a b :
  xis_finite a = true -> xis_finite b = true -> xis_finite (dmul a b) = true.
Proof. destruct a, b; try discriminate. reflexivity. Qed.

Lemma finite_div a b :
  xis_finite a = true -> nonzero b = true -> xis_finite (ddiv a b) = true.
Proof.
  destruct a, b; try discriminate. cbn. intros _ Hb.
  apply negb_true_iff in Hb. now rewrite Hb.
Qed.

Lemma nonzero_finite a : nonzero a = true -> xis_finite a = true.
Proof. now destruct a. Qed.

Lemma sound_cret {A : Type} (a : A) : sound_divisions (cret (D := xdouble) a).
Proof. constructor. Qed.

Lemma sound_cbind {A B : Type} (m : Calc xdouble A) (k : A -> Calc xdouble B) :
  sound_divisions m -> sound_divisions (k (value m)) ->
  sound_divisions (cbind m k).
Proof.
  unfold sound_divisions, divisions, cbind, value. intros Hm Hk.
  destruct (k (fst m)) as [b t]. cbn [snd] in *.
  apply Forall_app. now split.
Qed.

Lemma value_cbind {D A B : Type} (m : Calc D A) (k : A -> Calc D B) :
  value (cbind m k) = value (k (value m)).
Proof. unfold value, cbind. now destruct (k (fst m)). Qed.

Lemma value_cret {D A : Type} (a : A) : value (cret (D := D) a) = a.
Proof. reflexivity. Qed.

Lemma value_cdiv {D : Type} `{Double D} (a b : D) : value (cdiv a b) = ddiv a b.
Proof. reflexivity. Qed.

Lemma sound_cdiv a b : nonzero b = true -> sound_divisions (cdiv a b).
Proof. intros Hb. constructor; [exact Hb|constructor]. Qed.

Variable w : Z.
Variable flowDuration : xdouble.
Hypothesis duration_nonzero : nonzero flowDuration = true.

Lemma mbps_finite bytes :
  sound_divisions (mbps flowDuration bytes)
  /\ xis_finite (value (mbps flowDuration bytes)) = true.
Proof.
  unfold mbps. split.
  - repeat (apply sound_cbind; [|]); try apply sound_cdiv;
      try exact duration_nonzero; now apply nonzero_ofZ.
  - repeat (rewrite value_cbind; cbv beta). rewrite !value_cdiv.
    repeat apply finite_div; try reflexivity;
      try exact duration_nonzero; now apply nonzero_ofZ.
Qed.

Lemma mean_ms_finite sum rx :
  xis_finite sum = true -> rx <> 0 ->
  sound_divisions (mean_ms sum rx)
  /\ xis_finite (value (mean_ms sum rx)) = true.
Proof.
  intros Hs Hrx. unfold mean_ms. split.
  - apply sound_cdiv. now apply nonzero_ofZ.
  - rewrite value_cdiv. apply finite_div.
    + now apply finite_mul.
    + now apply nonzero_ofZ.
Qed.

Lemma packetLoss_finite fs :
  txPackets fs <> 0 ->
  sound_divisions (packetLoss w fs)
  /\ xis_finite (value (packetLoss w fs)) = true.
Proof.
  intros Htx. unfold packetLoss. split.
  - apply sound_cbind; [|apply sound_cret].
    apply sound_cdiv. now apply nonzero_ofZ.
  - rewrite value_cbind. cbv beta. rewrite value_cret, value_cdiv.
    apply finite_mul; [|reflexivity].
    apply finite_div; [reflexivity|now apply nonzero_ofZ].
Qed.

Lemma flow_body_finite id fs acc :
  plausible fs ->
  xis_finite (averageFlowThroughput acc) = true ->
  xis_finite (averageFlowDelay acc) = true ->
  let c := flow_body w flowDuration id fs acc in
  sound_divisions c
  /\ xis_finite (averageFlowThroughput (fst (value c))) = true
  /\ xis_finite (averageFlowDelay (fst (value c))) = true
  /\ finite_lines (snd (value c)) = true.
Proof.
  intros (Htx & Hd & Hj) Ht Hdl. cbn zeta. unfold flow_body.
  pose proof (mbps_finite (txBytes fs)) as [Hs1 Hf1].
  pose proof (mbps_finite (rxBytes fs)) as [Hs2 Hf2].
  assert (Htx' : txPackets fs <> 0) by lia.
  pose proof (packetLoss_finite fs Htx') as [Hs3 Hf3].
  destruct (Z.ltb_spec 0 (rxPackets fs)) as [Hrx|Hrx].
  - assert (Hrx' : rxPackets fs <> 0) by lia.
    pose proof (mean_ms_finite (delaySum fs) (rxPackets fs) Hd Hrx') as [Hs4 Hf4].
    pose proof (mean_ms_finite (jitterSum fs) (rxPackets fs) Hj Hrx') as [Hs5 Hf5].
    split.
    + repeat (apply sound_cbind; [assumption|]). apply sound_cret.
    + repeat (rewrite value_cbind; cbv beta). rewrite value_cret.
      cbn [fst snd]. unfold finite_lines.
      cbn [averageFlowThroughput averageFlowDelay l_txOffered l_packetLoss
           l_throughput l_meanDelay l_meanJitter].
      rewrite Hf1, Hf2, Hf3, Hf4, Hf5.
      repeat split; try reflexivity; now apply finite_add.
  - split.
    + repeat (apply sound_cbind; [assumption|]). apply sound_cret.
    + repeat (rewrite value_cbind; cbv beta). rewrite value_cret.
      cbn [fst snd]. unfold finite_lines.
      cbn [l_txOffered l_packetLoss l_throughput l_meanDelay l_meanJitter].
      rewrite Hf1, Hf3. repeat split; try assumption; reflexivity.
Qed.

Lemma flows_loop_finite stats :
  forall acc out,
    Forall (fun x => plausible (snd x)) stats ->
    xis_finite (averageFlowThroughput acc) = true ->
    xis_finite (averageFlowDelay acc) = true ->
    Forall (fun l => finite_lines l = true) out ->
    let c := flows_loop w flowDuration stats acc out in
    sound_divisions c
    /\ xis_finite (averageFlowThroughput (fst (value c))) = true
    /\ xis_finite (averageFlowDelay (fst (value c))) = true
    /\ Forall (fun l => finite_lines l = true) (snd (value c)).
Proof.
  induction stats as [|[id fs] stats IH]; intros acc out Hall Ht Hd Hout.
  - cbn. repeat split; try assumption. constructor.
  - inversion Hall as [|? ? Hfs Hall']; subst. cbn [snd] in Hfs.
    cbn zeta. cbn [flows_loop].
    destruct (flow_body_finite id fs acc Hfs Ht Hd) as (Hs & Ht' & Hd' & Hl).
    destruct (IH (fst (value (flow_body w flowDuration id fs acc)))
                 (out ++ [snd (value (flow_body w flowDuration id fs acc))])
                 Hall' Ht' Hd') as (Hs2 & Hrest).
    { apply Forall_app. split; [exact Hout|]. now constructor. }
    split.
    + apply sound_cbind; assumption.
    + rewrite value_cbind. cbv beta. exact Hrest.
Qed.

End FiniteFacts.

(** X16. A report over at least one flow, every record of which has at
    least one packet sent and finite delay and jitter sums, computed for
    a finite non-zero duration, divides by no zero, infinity or NaN, and
    every double it prints is finite, the two means included; records
    without received packets are allowed.  (Doubles without rounding and
    overflow.) *)
Theorem report_without_special_values (w : Z) (flowDuration : xdouble)
    (stats : list (Z * Stats.FlowStats xdouble)) :
  Finite.nonzero flowDuration = true ->
  stats <> [] ->
  Forall (fun x => Finite.plausible (snd x)) stats ->
  let c := Stats.build_report w flowDuration stats in
  Finite.sound_divisions c
  /\ xis_finite (Stats.meanFlowThroughput (Stats.value c)) = true
  /\ xis_finite (Stats.meanFlowDelay (Stats.value c)) = true
  /\ Forall (fun l => Finite.finite_lines l = true) (Stats.flows (Stats.value c)).
Proof.
  intros Hdur Hne Hall. cbn zeta. unfold Stats.build_report.
  destruct (flows_loop_finite w flowDuration Hdur stats
              (Stats.mkAccum (D := xdouble) (dofZ 0) (dofZ 0)) [] Hall
              (finite_ofZ 0) (finite_ofZ 0)
              (Forall_nil _)) as (Hs & Ht & Hd & Hl).
  assert (Hn : Finite.nonzero (dofZ (GetN stats)) = true).
  { apply nonzero_ofZ. unfold GetN. destruct stats; [contradiction|].
    cbn [length]. lia. }
  split.
  - apply sound_cbind; [exact Hs|].
    apply sound_cbind; [now apply sound_cdiv|].
    apply sound_cbind; [now apply sound_cdiv|]. apply sound_cret.
  - repeat (rewrite value_cbind; cbv beta). rewrite value_cret, !value_cdiv.
    cbn [Stats.meanFlowThroughput Stats.meanFlowDelay Stats.flows].
    repeat split; try assumption; now apply finite_div.
Qed.

(** Two plausible flows over 0.09 s, one without received packets: both
    means are finite. *)
Lemma report_without_special_values_two_flows :
  Finite.nonzero (Stats.builtin_flowDuration (D := xdouble)) = true
  /\ Finite.two_flows <> []
  /\ Forall (fun x => Finite.plausible (snd x)) Finite.two_flows
  /\ xis_finite
       (Stats.meanFlowThroughput
          (Stats.value
             (Stats.build_report 32 Stats.builtin_flowDuration Finite.two_flows)))
     = true.
Proof.
  assert (Hp : Forall (fun x => Finite.plausible (snd x)) Finite.two_flows).
  { repeat constructor. }
  split; [reflexivity|]. split; [discriminate|]. split; [exact Hp|].
  exact (proj1 (proj2 (report_without_special_values 32
           Stats.builtin_flowDuration Finite.two_flows eq_refl
           ltac:(discriminate) Hp))).
Defined.

(** X14. The number of lost packets printed and the number of received
    packets add up, modulo [2^w], to the number of transmitted packets:
    the transmitted count can be recovered from the two others even when
    the subtraction wrapped. *)
Theorem lostPackets_round_trip {D : Type} (w : Z) (fs : Stats.FlowStats D) :
  32 <= w ->
  in_range w (Stats.txPackets fs) ->
  wrap w (Stats.lostPackets w fs + Stats.rxPackets fs) = Stats.txPackets fs.
Proof.
  intros Hw Htx. unfold Stats.lostPackets, wrap, in_range in *.
  rewrite Z.add_mod_idemp_l by (apply Z.pow_nonzero; lia).
  replace (Stats.txPackets fs - Stats.rxPackets fs + Stats.rxPackets fs)
    with (Stats.txPackets fs) by lia.
  now apply Z.mod_small.
Qed.

(** Five packets sent and seven received on 32-bit counters: 2^32 - 2
    plus 7 is 5 modulo 2^32. *)
Lemma lostPackets_round_trip_example :
  32 <= 32
  /\ in_range 32 (Stats.txPackets (Stats.mkFlowStats 5 250 7 350 (XFin 0) (XFin 0)))
  /\ wrap 32 (4294967294 + 7) = 5.
Proof.
  split; [lia|]. split; [solve_range|].
  exact (lostPackets_round_trip 32
           (Stats.mkFlowStats 5 250 7 350 (XFin 0) (XFin 0))
           ltac:(lia) ltac:(solve_range)).
Defined.

(** X15. For a record with at least one packet sent and no more packets
    received than sent, the loss percentage is the finite value
    [100 * (tx - rx) / tx]: it lies between 0 and 100, is 0 exactly when
    every packet was received and 100 exactly when none was.  (Doubles
    without rounding.) *)
Theorem packetLoss_percentage (w : Z) (fs : Stats.FlowStats xdouble) :
  32 <= w ->
  in_range w (Stats.txPackets fs) ->
  0 < Stats.txPackets fs ->
  0 <= Stats.rxPackets fs <= Stats.txPackets fs ->
  exists q : Q,
    Stats.value (Stats.packetLoss w fs) = XFin q
    /\ (q == inject_Z (100 * (Stats.txPackets fs - Stats.rxPackets fs))
             / inject_Z (Stats.txPackets fs))%Q
    /\ (0 <= q <= 100)%Q
    /\ ((q == 0)%Q <-> Stats.rxPackets fs = Stats.txPackets fs)
    /\ ((q == 100)%Q <-> Stats.rxPackets fs = 0).
Proof.
  intros Hw Htx Hpos Hrx. unfold in_range in Htx.
  unfold Stats.packetLoss, Stats.cdiv, Stats.cbind, Stats.cret, Stats.value.
  cbn [fst snd].
  rewrite wrap_small by (unfold in_range; lia).
  cbn [dmul ddiv dofZ Double_xdouble xofZ xmul xdiv].
  unfold q_zero at 1. cbn [Qnum].
  destruct (Z.eqb_spec (Stats.txPackets fs) 0) as [E|_]; [lia|].
  eexists. split; [reflexivity|].
  set (tx := Stats.txPackets fs) in *. set (rx := Stats.rxPackets fs) in *.
  assert (Hq : (Qred (Qred (Qred ((tx - rx # 1) * (1 # 1)) / (tx # 1)) * (100 # 1))
                == inject_Z (100 * (tx - rx)) / inject_Z tx)%Q).
  { rewrite !Qred_correct. unfold inject_Z.
    destruct tx as [|p|p]; try lia.
    unfold Qeq, Qdiv. cbn [Qnum Qden Qmult Qinv].
    rewrite ?Pos2Z.inj_mul. nia. }
  split; [exact Hq|].
  rewrite Hq. unfold inject_Z.
  destruct tx as [|p|p]; try lia.
  unfold Qeq, Qle, Qdiv. cbn [Qnum Qden Qmult Qinv].
  rewrite ?Pos2Z.inj_mul.
  repeat split; intros; nia.
Qed.

(** A thousand packets sent and 950 received: the loss is 5%. *)
Lemma packetLoss_percentage_example :
  32 <= 32
  /\ in_range 32 (Stats.txPackets (Stats.example_flow (D := xdouble)))
  /\ 0 < Stats.txPackets (Stats.example_flow (D := xdouble))
  /\ 0 <= Stats.rxPackets (Stats.example_flow (D := xdouble))
     <= Stats.txPackets (Stats.example_flow (D := xdouble))
  /\ exists q : Q,
       Stats.value (Stats.packetLoss 32 (Stats.example_flow (D := xdouble)))
       = XFin q
       /\ (0 <= q <= 100)%Q.
Proof.
  split; [lia|]. split; [solve_range|]. split; [reflexivity|].
  split; [cbn; lia|].
  destruct (packetLoss_percentage 32 (Stats.example_flow (D := xdouble))
              ltac:(lia) ltac:(solve_range) eq_refl ltac:(cbn; lia))
    as (q & Hv & _ & Hb & _).
  exists q. exact (conj Hv Hb).
Defined.

Lemma flows_loop_received {D : Type} `{Double D} (w : Z) (flowDuration : D)
    (stats : list (Z * Stats.FlowStats D)) :
  forall acc out out',
    fst (Stats.value (Stats.flows_loop w flowDuration stats acc out))
    = fst (Stats.value
             (Stats.flows_loop w flowDuration (filter Finite.received stats)
                acc out')).
Proof.
  induction stats as [|[id fs] stats IH]; intros acc out out'; [reflexivity|].
  cbn [Stats.flows_loop filter]. unfold Finite.received at 1. cbn [snd].
  rewrite value_cbind. cbv beta.
  destruct (0 <? Stats.rxPackets fs) eqn:Hrx.
  - cbn [Stats.flows_loop]. rewrite value_cbind. cbv beta. apply IH.
  - rewrite (IH _ _ out'). f_equal. f_equal. f_equal.
    unfold Stats.flow_body. rewrite Hrx.
    repeat (rewrite value_cbind; cbv beta). reflexivity.
Qed.

(** X17. The two sums behind the means run over the flows with at least
    one received packet only, while the divisor is the number of all the
    flows: a flow without received packets adds nothing to the sums and
    still lowers both means.  This holds for any arithmetic on doubles. *)
Theorem means_count_every_flow {D : Type} `{Double D} (w : Z)
    (flowDuration : D) (stats : list (Z * Stats.FlowStats D)) :
  let sums := fst (Stats.value
                     (Stats.flows_loop w flowDuration
                        (filter Finite.received stats)
                        (Stats.mkAccum (dofZ 0) (dofZ 0)) [])) in
  let r := Stats.value (Stats.build_report w flowDuration stats) in
  Stats.meanFlowThroughput r
  = ddiv (Stats.averageFlowThroughput sums) (dofZ (GetN stats))
  /\ Stats.meanFlowDelay r
     = ddiv (Stats.averageFlowDelay sums) (dofZ (GetN stats)).
Proof.
  cbn zeta. destruct (build_report_means w flowDuration stats) as [Ht Hd].
  cbn zeta in Ht, Hd. rewrite Ht, Hd.
  now rewrite (flows_loop_received w flowDuration stats _ [] []).
Qed.

(** X18. Whenever the program is started with [argc] other than 0 and it
    is not the run with [argc == 1] and 9 user terminals per base
    station, and [main] fixes 2 of them, the exit status is 0 as soon as
    the output file could be opened and 1 otherwise, whatever the flow
    statistics: no comparison with reference values is made.  This holds
    for any arithmetic on doubles. *)
Theorem exit_status_unchecked {D : Type} `{Double D} (w : Z) (flowDuration : D)
    (argc numUePerGnb : Z) (file_opens : bool)
    (stats : list (Z * Stats.FlowStats D)) :
  argc <> 0 ->
  argc <> 1 \/ numUePerGnb <> 9 ->
  Stats.exit_status w flowDuration argc numUePerGnb file_opens stats
  = if file_opens then 0 else 1.
Proof.
  intros H0 H1. rewrite exit_status_eq.
  destruct file_opens; [|reflexivity].
  unfold Stats.regression_status.
  destruct (Z.eqb_spec argc 0); [contradiction|].
  destruct (Z.eqb_spec argc 1), (Z.eqb_spec numUePerGnb 9); cbn [andb];
    [exfalso; tauto|reflexivity|reflexivity|reflexivity].
Qed.

(** The program started by name alone with the 2 user terminals per base
    station of [main], on a run without any flow: exit status 0. *)
Lemma exit_status_unchecked_builtin :
  1 <> 0
  /\ (1 <> 1 \/ 2 <> 9)
  /\ Stats.exit_status (D := xdouble) 32 Stats.builtin_flowDuration 1 2 true [] = 0.
Proof.
  split; [discriminate|]. split; [right; discriminate|].
  apply (exit_status_unchecked (D := xdouble) 32 Stats.builtin_flowDuration
           1 2 true []).
  - discriminate.
  - right. discriminate.
Defined.

(** X19. When a comparison with reference values is made ([argc == 0], or
    [argc == 1] with 9 user terminals per base station), a report whose
    mean throughput or mean delay is NaN yields the exit status 1: a NaN
    is within no tolerance band.  In particular a run without any flow,
    whose means are 0.0/0, fails the comparison.  (Doubles without
    rounding.) *)
Theorem nan_fails_regression (w : Z) (flowDuration : xdouble)
    (argc numUePerGnb : Z) (r : Stats.Report xdouble) :
  argc = 0 \/ (argc = 1 /\ numUePerGnb = 9) ->
  (Stats.meanFlowThroughput r = XNaN \/ Stats.meanFlowDelay r = XNaN ->
   Stats.regression_status argc numUePerGnb r = 1)
  /\ Stats.exit_status w flowDuration argc numUePerGnb true [] = 1.
Proof.
  intros Hgate.
  assert (Hnan : Stats.meanFlowThroughput r = XNaN \/ Stats.meanFlowDelay r = XNaN ->
                 Stats.regression_status argc numUePerGnb r = 1).
  { intros Hr. rewrite regression_status_baseline.
    assert (Hband : forall ref ref',
              Stats.within_band ref (Stats.meanFlowThroughput r)
              && Stats.within_band ref' (Stats.meanFlowDelay r) = false).
    { intros ref ref'. unfold Stats.within_band.
      destruct Hr as [-> | ->]; cbn [dleb Double_xdouble].
      - destruct (dsub ref _); reflexivity.
      - rewrite andb_false_iff. right.
        destruct (dsub ref' _); reflexivity. }
    unfold Stats.baseline.
    destruct Hgate as [-> | [-> ->]]; cbn [Z.eqb Pos.eqb andb];
      now rewrite Hband. }
  split; [exact Hnan|].
  rewrite exit_status_eq.
  destruct Hgate as [-> | [-> ->]]; vm_compute; reflexivity.
Qed.

(** The run compared with the first pair of reference values, on a report
    whose mean throughput is NaN. *)
Lemma nan_fails_regression_example :
  (0 = 0 \/ (0 = 1 /\ 2 = 9))
  /\ Stats.regression_status 0 2 (Stats.mkReport [] XNaN (XFin 1)) = 1.
Proof.
  split; [left; reflexivity|].
  exact (proj1 (nan_fails_regression 32 Stats.builtin_flowDuration 0 2
                  (Stats.mkReport [] XNaN (XFin 1)) (or_introl eq_refl))
           (or_introl eq_refl)).
Defined.

(** ** Routing of the bearers *)

Section RoutingFacts.
Import Routing.

Lemma Qci_eqb_refl q : Qci_eqb q q = true.
Proof. destruct q; cbn; try reflexivity. apply Z.eqb_refl. Qed.

Lemma Qci_eqb_eq a b : Qci_eqb a b = true -> a = b.
Proof.
  destruct a, b; cbn; try discriminate; try reflexivity.
  intros H. apply Z.eqb_eq in H. now subst.
Qed.

Lemma set_attribute_same q v m q' :
  m q = v -> set_attribute q v m q' = m q'.
Proof.
  intros Hm. unfold set_attribute.
  destruct (Qci_eqb q' q) eqn:E; [|reflexivity].
  apply Qci_eqb_eq in E. now subst.
Qed.

(** A loop that sets again an attribute already at the value changes no
    attribute. *)
Lemma reset_loop_unchanged (l : list Assigner.Node) (q : Qci) (v : Z) n h :
  ueBwpManager h q = v ->
  let h' := for_loop n
              (fun i h' =>
                 match Get l i with
                 | Some ue => SetUeBwpManagerAlgorithmAttribute q v h'
                 | None => h'
                 end) h in
  (forall q', ueBwpManager h' q' = ueBwpManager h q')
  /\ (forall q', gnbBwpManager h' q' = gnbBwpManager h q').
Proof.
  intros Hq. induction n as [|k [IHu IHg]]; [split; reflexivity|].
  cbn zeta in *. cbn [for_loop].
  destruct (Get l (Z.of_nat k)); [|split; assumption].
  split; intros q'; cbn [SetUeBwpManagerAlgorithmAttribute ueBwpManager
                         gnbBwpManager].
  - rewrite set_attribute_same; [apply IHu|]. now rewrite IHu.
  - apply IHg.
Qed.

End RoutingFacts.

(** X20. The routing of the bearer classes to the bandwidth parts does
    not depend on the user terminals: whatever the two containers, after
    the two loops the UE and gNB BWP managers are as the four calls before
    the loops left them, with web browsing (NGBR_LOW_LAT_EMBB) on
    bandwidth part 0, voice (GBR_CONV_VOICE) on bandwidth part 1 and every
    other attribute untouched. *)
Theorem routing_independent_of_terminals
    (uePhoneCallContainer ueBrowsingWebContainer : list Assigner.Node)
    (h : Routing.NrHelper) (q : Routing.Qci) :
  let h' := Routing.configure_routing uePhoneCallContainer
              ueBrowsingWebContainer h in
  Routing.ueBwpManager h' q = Routing.ueBwpManager (Routing.route_classes h) q
  /\ Routing.gnbBwpManager h' q = Routing.gnbBwpManager (Routing.route_classes h) q
  /\ Routing.ueBwpManager h' q
     = match q with
       | Routing.NGBR_LOW_LAT_EMBB => 0
       | Routing.GBR_CONV_VOICE => 1
       | Routing.OtherQci _ => Routing.ueBwpManager h q
       end
  /\ Routing.gnbBwpManager h' q
     = match q with
       | Routing.NGBR_LOW_LAT_EMBB => 0
       | Routing.GBR_CONV_VOICE => 1
       | Routing.OtherQci _ => Routing.gnbBwpManager h q
       end.
Proof.
  cbn zeta. unfold Routing.configure_routing, Routing.browsing_loop,
    Routing.voice_loop.
  set (h0 := Routing.route_classes h).
  destruct (reset_loop_unchanged uePhoneCallContainer Routing.GBR_CONV_VOICE
              Routing.bwpIdForCall (length uePhoneCallContainer) h0 eq_refl)
    as [Hu1 Hg1].
  cbn zeta in Hu1, Hg1.
  set (h1 := for_loop (length uePhoneCallContainer) _ h0) in *.
  destruct (reset_loop_unchanged ueBrowsingWebContainer Routing.NGBR_LOW_LAT_EMBB
              Routing.bwpIdForBrowsing (length ueBrowsingWebContainer) h1)
    as [Hu2 Hg2].
  { rewrite Hu1. reflexivity. }
  cbn zeta in Hu2, Hg2.
  rewrite Hu2, Hg2, Hu1, Hg1.
  split; [reflexivity|]. split; [reflexivity|].
  subst h0. destruct q; split; reflexivity.
Qed.

(** X21. Voice bearers are routed to bandwidth part 1 and browsing
    bearers to bandwidth part 0, so after the power loop the voice
    traffic runs, on each of the [n] base stations, with the numerology
    [numerologyBwp2] and the computed power, and the browsing traffic
    with the numerology [numerologyBwp1] and, on every station but the
    first, the power left by the installer. *)
Theorem class_numerology_and_power
    (uePhoneCallContainer ueBrowsingWebContainer : list Assigner.Node)
    (h : Routing.NrHelper) (cfg : Power.PowerConfig) (n : nat)
    (t : Power.PhyTable) (i : Z) :
  0 <= i < Z.of_nat n ->
  let h' := Routing.configure_routing uePhoneCallContainer
              ueBrowsingWebContainer h in
  let voiceBwp := Routing.gnbBwpManager h' Routing.GBR_CONV_VOICE in
  let browsingBwp := Routing.gnbBwpManager h' Routing.NGBR_LOW_LAT_EMBB in
  let final := Power.configure cfg n t in
  Power.Numerology (final i voiceBwp) = Power.numerologyBwp2 cfg
  /\ Power.Numerology (final i browsingBwp) = Power.numerologyBwp1 cfg
  /\ Power.TxPower (final i voiceBwp) = Power.txPower cfg
  /\ (0 < i ->
      Power.TxPower (final i browsingBwp) = Power.TxPower (t i 0)).
Proof.
  intros Hi. cbn zeta.
  destruct (reset_loop_unchanged uePhoneCallContainer Routing.GBR_CONV_VOICE
              Routing.bwpIdForCall (length uePhoneCallContainer)
              (Routing.route_classes h) eq_refl) as [Hu1 Hg1].
  cbn zeta in Hu1, Hg1.
  assert (Hv : Routing.gnbBwpManager
                 (Routing.configure_routing uePhoneCallContainer
                    ueBrowsingWebContainer h) Routing.GBR_CONV_VOICE = 1
               /\ Routing.gnbBwpManager
                    (Routing.configure_routing uePhoneCallContainer
                       ueBrowsingWebContainer h) Routing.NGBR_LOW_LAT_EMBB = 0).
  { unfold Routing.configure_routing, Routing.browsing_loop, Routing.voice_loop.
    set (h1 := for_loop (length uePhoneCallContainer) _ (Routing.route_classes h)) in *.
    destruct (reset_loop_unchanged ueBrowsingWebContainer
                Routing.NGBR_LOW_LAT_EMBB Routing.bwpIdForBrowsing
                (length ueBrowsingWebContainer) h1) as [_ Hg2].
    { rewrite Hu1. reflexivity. }
    cbn zeta in Hg2. rewrite !Hg2, !Hg1. split; reflexivity. }
  destruct Hv as [-> ->].
  unfold Power.configure.
  assert (Hnum : forall m, (i < Z.of_nat m -> 
             Power.Numerology (for_loop m (Power.configure_body cfg) t i 1)
             = Power.numerologyBwp2 cfg
             /\ Power.Numerology (for_loop m (Power.configure_body cfg) t i 0)
                = Power.numerologyBwp1 cfg
             /\ Power.TxPower (for_loop m (Power.configure_body cfg) t i 1)
                = Power.txPower cfg)
           /\ (0 < i ->
               Power.TxPower (for_loop m (Power.configure_body cfg) t i 0)
               = Power.TxPower (t i 0))).
  { induction m as [|k [IH1 IH2]]; [split; [lia|reflexivity]|].
    cbn [for_loop].
    rewrite !configure_body_Numerology, !configure_body_TxPower.
    split.
    - intros Hk.
      destruct (Z.eqb_spec i (Z.of_nat k)) as [E|E]; cbn [andb orb Z.eqb].
      + repeat split; reflexivity.
      + destruct IH1 as (H1 & H2 & H3); [lia|].
        destruct (Z.eqb_spec i 0); cbn [andb orb]; repeat split; assumption.
    - intros Hpos.
      destruct (Z.eqb_spec i (Z.of_nat k)), (Z.eqb_spec i 0);
        cbn [andb orb Z.eqb]; try lia; now apply IH2. }
  destruct (Hnum n) as [H1 H2]. destruct H1 as (Ha & Hb & Hc); [lia|].
  repeat split; assumption.
Qed.

(** The values of [main] on the second of three base stations: the voice
    traffic runs with numerology 2, the browsing traffic with numerology
    4 and the 4 dBm of the installer. *)
Lemma class_numerology_and_power_builtin :
  0 <= 1 < Z.of_nat 3
  /\ (let h' := Routing.configure_routing [3; 5; 7] [4; 6; 8]
                  Routing.default_helper in
      let final := Power.configure Power.builtin_power 3 Power.installed_phy in
      Power.Numerology (final 1 (Routing.gnbBwpManager h' Routing.GBR_CONV_VOICE))
      = 2
      /\ Power.Numerology
           (final 1 (Routing.gnbBwpManager h' Routing.NGBR_LOW_LAT_EMBB))
         = 4).
Proof.
  split; [lia|].
  destruct (class_numerology_and_power [3; 5; 7] [4; 6; 8]
              Routing.default_helper Power.builtin_power 3
              Power.installed_phy 1 ltac:(lia)) as (Hv & Hb & _).
  exact (conj Hv Hb).
Defined.

(** ** Traffic installation *)

Section TrafficFacts.
Import Traffic.
Context {D : Type} `{Double D}.
Variable cfg : TrafficConfig.
Variable topo : Topology.

Lemma client_body_None c i : client_body cfg topo c i (None (A := Installed D)) = None.
Proof. reflexivity. Qed.

(** The first [n] rounds of a client loop, while the three containers
    are long enough. *)
Lemma client_loop_prefix c (st : Installed D) (n : nat) :
  (n <= length (nodes_of topo c))%nat ->
  (n <= length (devices_of topo c))%nat ->
  (n <= length (addresses_of topo c))%nat ->
  for_loop n (client_body cfg topo c) (Some st)
  = Some (mkInstalled (serverApps st)
            (clientApps st
             ++ map (fun a => mkUdpClient (Some a) (port_of cfg c) 4294967295
                                (PacketSize (client_helper cfg c))
                                (Interval (client_helper cfg c)))
                  (firstn n (addresses_of topo c)))
            (bearers st
             ++ map (fun d => mkBearerActivation d (qci_of c) (tft_of cfg c))
                  (firstn n (devices_of topo c)))).
Proof.
  induction n as [|k IH]; intros Hn Hd Ha.
  - cbn [for_loop firstn map]. rewrite !app_nil_r. now destruct st.
  - cbn [for_loop]. rewrite IH by lia.
    unfold client_body. rewrite !Get_nat.
    destruct (nth_error (nodes_of topo c) k) as [ue|] eqn:En;
      [|apply nth_error_None in En; lia].
    destruct (nth_error (devices_of topo c) k) as [dev|] eqn:Ed;
      [|apply nth_error_None in Ed; lia].
    destruct (nth_error (addresses_of topo c) k) as [addr|] eqn:Ea;
      [|apply nth_error_None in Ea; lia].
    cbn [serverApps clientApps bearers].
    rewrite (firstn_succ_nth _ _ _ Ed), (firstn_succ_nth _ _ _ Ea).
    rewrite !map_app, <- !app_assoc. cbn [map].
    do 3 f_equal. destruct c; reflexivity.
Qed.

(** Once a container is too short for [n] rounds, the loop has read
    past its end. *)
Lemma client_loop_short c (st : Installed D) (n : nat) :
  (n <= length (nodes_of topo c))%nat ->
  ~ ((n <= length (devices_of topo c))%nat
     /\ (n <= length (addresses_of topo c))%nat) ->
  for_loop n (client_body cfg topo c) (Some st) = None.
Proof.
  induction n as [|k IH]; intros Hn Hshort.
  - exfalso. apply Hshort. split; lia.
  - cbn [for_loop].
    destruct (le_dec k (length (devices_of topo c))) as [Hd|Hd];
      [destruct (le_dec k (length (addresses_of topo c))) as [Ha|Ha]|].
    + rewrite client_loop_prefix by lia.
      unfold client_body. rewrite !Get_nat.
      destruct (nth_error (nodes_of topo c) k) as [ue|]; [|reflexivity].
      destruct (nth_error (devices_of topo c) k) as [dev|] eqn:Ed;
        [|reflexivity].
      destruct (nth_error (addresses_of topo c) k) as [addr|] eqn:Ea;
        [|reflexivity].
      exfalso. apply Hshort.
      assert (k < length (devices_of topo c))%nat
        by (apply nth_error_Some; congruence).
      assert (k < length (addresses_of topo c))%nat
        by (apply nth_error_Some; congruence).
      split; lia.
    + rewrite IH; [reflexivity|lia|lia].
    + rewrite IH; [reflexivity|lia|lia].
Qed.

Lemma long_enough_nat c :
  long_enough topo c
  <-> (length (nodes_of topo c) <= length (devices_of topo c))%nat
      /\ (length (nodes_of topo c) <= length (addresses_of topo c))%nat.
Proof. unfold long_enough, GetN. lia. Qed.

Lemma long_enough_dec c : {long_enough topo c} + {~ long_enough topo c}.
Proof.
  destruct (le_dec (length (nodes_of topo c)) (length (devices_of topo c)));
    [destruct (le_dec (length (nodes_of topo c))
                 (length (addresses_of topo c)))|].
  - left. apply long_enough_nat. split; assumption.
  - right. rewrite long_enough_nat. tauto.
  - right. rewrite long_enough_nat. tauto.
Qed.

Lemma client_loop_long c (st : Installed D) :
  long_enough topo c ->
  client_loop cfg topo c (Some st)
  = Some (mkInstalled (serverApps st)
            (clientApps st ++ expected_clients cfg topo c)
            (bearers st ++ expected_bearers cfg topo c)).
Proof.
  intros Hl. apply long_enough_nat in Hl. destruct Hl.
  unfold client_loop. now rewrite client_loop_prefix.
Qed.

Lemma client_loop_not_long c (st : Installed D) :
  ~ long_enough topo c -> client_loop cfg topo c (Some st) = None.
Proof.
  intros Hl. unfold client_loop. apply client_loop_short; [lia|].
  now rewrite <- long_enough_nat.
Qed.

Lemma client_loop_None c :
  client_loop cfg topo c (None (A := Installed D)) = None.
Proof.
  unfold client_loop. induction (length (nodes_of topo c)) as [|k IH];
    [reflexivity|].
  cbn [for_loop]. now rewrite IH.
Qed.

(** The whole traffic part, when all containers are long enough. *)
Lemma install_traffic_long :
  long_enough topo Browsing -> long_enough topo Voice ->
  install_traffic cfg topo
  = Some (mkInstalled (D := D)
            (map (fun n => mkUdpServer n (dlPortBrowsing cfg))
               (ueBrowsingWebContainer topo)
             ++ map (fun n => mkUdpServer n (dlPortVoiceCall cfg))
                  (uePhoneCallContainer topo))
            (expected_clients cfg topo Browsing
             ++ expected_clients cfg topo Voice)
            (expected_bearers cfg topo Browsing
             ++ expected_bearers cfg topo Voice)).
Proof.
  intros Hb Hv. unfold install_traffic.
  rewrite (client_loop_long Browsing _ Hb), (client_loop_long Voice _ Hv).
  reflexivity.
Qed.

(** The traffic part ends only when all containers are long enough. *)
Lemma install_traffic_Some_long (st : Installed D) :
  install_traffic cfg topo = Some st ->
  long_enough topo Browsing /\ long_enough topo Voice.
Proof.
  intros Hst. unfold install_traffic in Hst.
  destruct (long_enough_dec Browsing) as [Hb|Hb].
  - destruct (long_enough_dec Voice) as [Hv|Hv]; [now split|].
    rewrite (client_loop_long Browsing _ Hb) in Hst.
    rewrite (client_loop_not_long Voice _ Hv) in Hst.
    discriminate.
  - rewrite (client_loop_not_long Browsing _ Hb) in Hst.
    rewrite client_loop_None in Hst. discriminate.
Qed.

Lemma expected_bearers_devices c :
  GetN (devices_of topo c) = GetN (nodes_of topo c) ->
  expected_bearers cfg topo c
  = map (fun d => mkBearerActivation d (qci_of c) (tft_of cfg c))
      (devices_of topo c).
Proof.
  unfold GetN, expected_bearers. intros Hlen.
  rewrite firstn_all2 by lia. reflexivity.
Qed.

End TrafficFacts.

(** X22. The traffic part reads no container past its end exactly when,
    for both classes, the device container and the interface container
    are at least as long as the node container.  It then installs one
    server per node on the port of its class, and per node, browsing
    first, one client on the remote host with the address at the node's
    index, the port of the class, no packet limit (0xFFFFFFFF) and the
    interval [1.0 / lambda], and one dedicated bearer for the device at
    the node's index with the class's QCI and a filter on the same
    port. *)
Theorem install_traffic_spec {D : Type} `{Double D}
    (cfg : Traffic.TrafficConfig) (topo : Traffic.Topology) :
  ((exists st : Traffic.Installed D, Traffic.install_traffic cfg topo = Some st)
   <-> Traffic.long_enough topo Browsing /\ Traffic.long_enough topo Voice)
  /\ forall st : Traffic.Installed D,
       Traffic.install_traffic cfg topo = Some st ->
       Traffic.serverApps st
       = map (fun n => Traffic.mkUdpServer n (Traffic.dlPortBrowsing cfg))
           (Traffic.ueBrowsingWebContainer topo)
         ++ map (fun n => Traffic.mkUdpServer n (Traffic.dlPortVoiceCall cfg))
              (Traffic.uePhoneCallContainer topo)
       /\ Traffic.clientApps st
          = Traffic.expected_clients cfg topo Browsing
            ++ Traffic.expected_clients cfg topo Voice
       /\ Traffic.bearers st
          = Traffic.expected_bearers cfg topo Browsing
            ++ Traffic.expected_bearers cfg topo Voice.
Proof.
  split.
  - split.
    + intros [st Hst]. exact (install_traffic_Some_long cfg topo st Hst).
    + intros [Hb Hv]. eexists. apply install_traffic_long; assumption.
  - intros st Hst.
    destruct (install_traffic_Some_long cfg topo st Hst) as [Hb Hv].
    rewrite (install_traffic_long cfg topo Hb Hv) in Hst.
    inversion Hst. repeat split; reflexivity.
Qed.

(** X23. When the attachment loop and the traffic part work on the same
    device containers, with one device per node, every device the
    attachment loop attached has a dedicated bearer of its own class
    (QCI and port filter); and bearers are activated for all devices of
    both containers, browsing first, whether the attachment loop
    attached them or not. *)
Theorem attached_devices_have_bearers {D : Type} `{Double D}
    (cfg : Traffic.TrafficConfig) (topo : Traffic.Topology)
    (acfg : Planner.AttachConfig) (st : Traffic.Installed D) :
  Planner.uePhoneCallNetDev acfg = Traffic.uePhoneCallNetDev topo ->
  Planner.ueBrowsingWebNetDev acfg = Traffic.ueBrowsingWebNetDev topo ->
  (forall c, GetN (Traffic.devices_of topo c) = GetN (Traffic.nodes_of topo c)) ->
  Traffic.install_traffic cfg topo = Some st ->
  (forall a,
      In a (Planner.attached (Planner.final_state (Planner.run_attachment acfg))) ->
      In (Traffic.mkBearerActivation (Planner.att_ue a)
            (Traffic.qci_of (Planner.att_class a))
            (Traffic.tft_of cfg (Planner.att_class a)))
         (Traffic.bearers st))
  /\ map Traffic.bearer_device (Traffic.bearers st)
     = Planner.ueBrowsingWebNetDev acfg ++ Planner.uePhoneCallNetDev acfg.
Proof.
  intros Hvoice Hbrowse Hlen Hst.
  destruct (install_traffic_Some_long cfg topo st Hst) as [Hb Hv].
  rewrite (install_traffic_long cfg topo Hb Hv) in Hst.
  injection Hst as <-. cbn [Traffic.bearers].
  rewrite !expected_bearers_devices by apply Hlen.
  split.
  - intros a Ha.
    assert (Hpools : Slots.from_pools acfg
                       (Planner.final_state (Planner.run_attachment acfg))).
    { unfold Planner.run_attachment. rewrite attach_loop_slots.
      apply (run_slots_from_pools acfg); [apply all_slots_stations|].
      split; constructor. }
    destruct Hpools as [Hatt _]. rewrite Forall_forall in Hatt.
    destruct (Hatt a Ha) as [Hget _].
    assert (Hin : In (Planner.att_ue a)
                    (Traffic.devices_of topo (Planner.att_class a))).
    { unfold Get in Hget.
      destruct (Planner.att_index a <? 0); [discriminate|].
      apply nth_error_In in Hget.
      destruct (Planner.att_class a); cbn [Planner.pool Traffic.devices_of] in *;
        congruence. }
    apply in_or_app.
    destruct (Planner.att_class a) eqn:Ec; [right|left];
      apply in_map_iff; eexists; (split; [reflexivity|exact Hin]).
  - rewrite map_app, !map_map. cbn [Traffic.bearer_device].
    rewrite !map_id. cbn [Traffic.devices_of]. congruence.
Qed.

(** The six terminals of [main]: the device 5, attached as the second
    voice device, has a voice bearer filtered on port 1235. *)
Lemma attached_devices_have_bearers_builtin :
  exists st : Traffic.Installed xdouble,
    Traffic.install_traffic Traffic.builtin_traffic Traffic.builtin_topology
    = Some st
    /\ In (Planner.mkAttachment Voice 1 5 1)
         (Planner.attached
            (Planner.final_state (Planner.run_attachment Planner.builtin_config)))
    /\ In (Traffic.mkBearerActivation 5 Routing.GBR_CONV_VOICE
             [Traffic.mkPacketFilter 1235 1235])
          (Traffic.bearers st).
Proof.
  eexists. split; [reflexivity|].
  assert (Hin : In (Planner.mkAttachment Voice 1 5 1)
                  (Planner.attached
                     (Planner.final_state
                        (Planner.run_attachment Planner.builtin_config)))).
  { vm_compute. right. right. left. reflexivity. }
  split; [exact Hin|].
  refine (proj1 (attached_devices_have_bearers Traffic.builtin_traffic
                   Traffic.builtin_topology Planner.builtin_config _
                   eq_refl eq_refl _ eq_refl) _ Hin).
  intros c; destruct c; reflexivity.
Defined.
